(** * Vehicle inventory: the data-access layer of [controllers/extract_data.py]

    The functions of the controller build SQL text and run it on a MySQL
    session.  This development embeds the tables as lists of typed rows, the
    SQL operators the queries use (LEFT JOIN, INNER JOIN, WHERE, GROUP BY,
    the aggregates, ORDER BY) as list functions, and each controller function
    as the composition of those operators that its query text denotes.

    Conventions.
    - A table is a [list] of rows: SQL tables are bags, and the key
      constraints of the schema are stated as hypotheses where a result
      depends on them.
    - A column that may be NULL in a result is an [option]; a condition of a
      WHERE or ON clause is represented by the boolean "evaluates to TRUE"
      (all conditions of the queries are conjunctions or disjunctions of
      atoms, for which UNKNOWN and FALSE select the same rows).
    - Exact numerics (DECIMAL) are rationals [Q]; dates are day numbers.
    - Text that a caller supplies is compared with a column by the
      collation of the columns, which takes letters without regard to
      case: [Sql.same_text], [Sql.LIKE] and ORDER BY go by [Sql.collate].
      Two stored values (the two sides of a join, the columns of GROUP BY)
      and a value handed back as it is stored (the VIN of a listed row, a
      name of a select box) are compared by their characters: a stored
      reference is a copy of the value it refers to. *)

From Stdlib Require Import List String Ascii Bool ZArith QArith Qround Lia Lqa.
From Stdlib Require Import Permutation Sorted DecimalString.
Import ListNotations.

Local Open Scope string_scope.
Local Open Scope list_scope.

(* ===================================================================== *)
(** * Relational operators *)
(* ===================================================================== *)

Module Sql.

Section Operators.
Context {A B : Type}.

(** [l LEFT JOIN r ON on]: every left row is kept; it is paired with each
    matching right row, or once with NULL when there is none. *)
Definition left_join (on : A -> B -> bool) (l : list A) (r : list B)
  : list (A * option B) :=
  flat_map (fun a =>
              match filter (on a) r with
              | [] => [(a, None)]
              | bs => map (fun b => (a, Some b)) bs
              end) l.

(** [l INNER JOIN r ON on]. *)
Definition inner_join (on : A -> B -> bool) (l : list A) (r : list B)
  : list (A * B) :=
  flat_map (fun a => map (fun b => (a, b)) (filter (on a) r)) l.

(** [EXISTS (SELECT 1 FROM r WHERE p)]. *)
Definition EXISTS (p : B -> bool) (r : list B) : bool := existsb p r.
End Operators.

Section Distinct.
Context {A : Type} (same : A -> A -> bool).

(** First occurrences up to [same]: the representatives of GROUP BY and
    the values kept by DISTINCT. *)
Fixpoint distinct (l : list A) : list A :=
  match l with
  | [] => []
  | x :: l' => x :: filter (fun y => negb (same x y)) (distinct l')
  end.

(** GROUP BY: one group per representative, holding the rows equal to it
    on the grouping columns. *)
Definition group_by (l : list A) : list (A * list A) :=
  map (fun rep => (rep, filter (same rep) l)) (distinct l).
End Distinct.

(** The collation of the text columns.  Letters have the weight of their
    capital, so that text compares without regard to case; every other
    character has its code as weight. *)
Definition upcase (c : ascii) : ascii :=
  let n := nat_of_ascii c in
  if (97 <=? n)%nat && (n <=? 122)%nat then ascii_of_nat (n - 32) else c.

Fixpoint collate (s : string) : string :=
  match s with
  | EmptyString => EmptyString
  | String c s' => String (upcase c) (collate s')
  end.

(** [a = b] on text, one side of which the caller supplies. *)
Definition same_text (a b : string) : bool := collate a =? collate b.

(** [a <= b] in the order of the collation. *)
Definition text_leb (a b : string) : bool := String.leb (collate a) (collate b).

Section OrderBy.
Context {A : Type} (key : A -> string).

Fixpoint insert_sorted (x : A) (l : list A) : list A :=
  match l with
  | [] => [x]
  | y :: l' =>
      if text_leb (key x) (key y) then x :: l else y :: insert_sorted x l'
  end.

(** [ORDER BY key ASC]. *)
Definition order_by (l : list A) : list A :=
  fold_right insert_sorted [] l.

Definition key_le (a b : A) : Prop := text_leb (key a) (key b) = true.
End OrderBy.

(** [COUNT(DISTINCT col)] over the non-NULL values of a string column. *)
Definition COUNT_DISTINCT (vals : list string) : nat :=
  List.length (distinct String.eqb vals).

(** [SUM(col)] over non-NULL exact values; NULL on the empty bag. *)
Definition SUM (vals : list Q) : option Q :=
  match vals with
  | [] => None
  | _ => Some (fold_right Qplus 0%Q vals)
  end.

(** [AVG(col)] over non-NULL values; NULL on the empty bag.  The quotient
    enters an enclosing expression with nine decimals or more, which is
    taken here as the exact mean: a ROUND to fewer decimals gives the same
    result on both.  An AVG that is fetched as a column is rounded to the
    decimals of its column, which the select list then writes out. *)
Definition AVG (vals : list Q) : option Q :=
  match vals with
  | [] => None
  | _ => Some (fold_right Qplus 0%Q vals / inject_Z (Z.of_nat (List.length vals)))%Q
  end.

(** Rounding of an exact value to the nearest integer, halves away from
    zero (the rule of ROUND on DECIMAL). *)
Definition round_half_away (x : Q) : Z :=
  if Qle_bool 0 x then Qfloor (x + (1 # 2)) else (- Qfloor (- x + (1 # 2)))%Z.

(** [ROUND(x, d)]. *)
Definition ROUND (x : Q) (d : nat) : Q :=
  let p := Pos.pow 10 (Pos.of_nat d) in
  match d with
  | O => inject_Z (round_half_away x)
  | _ => Qmake (round_half_away (x * inject_Z (Zpos p))) p
  end.

(** NULL-propagating arithmetic. *)
Definition lift2 (f : Q -> Q -> Q) (x y : option Q) : option Q :=
  match x, y with
  | Some a, Some b => Some (f a b)
  | _, _ => None
  end.

Definition IFNULL {T : Type} (x : option T) (d : T) : T :=
  match x with Some v => v | None => d end.

Definition is_null {T : Type} (x : option T) : bool :=
  match x with Some _ => false | None => true end.

(** Equality of nullable grouping columns: GROUP BY puts NULLs together. *)
Definition opt_same {T : Type} (eqb : T -> T -> bool) (x y : option T) : bool :=
  match x, y with
  | Some a, Some b => eqb a b
  | None, None => true
  | _, _ => false
  end.

(** [text LIKE pattern]: [%] matches any run of characters, [_] one
    character, a backslash quotes the next pattern character. *)
Fixpoint LIKE_from (pattern : string) : string -> bool :=
  match pattern with
  | EmptyString => fun t => match t with EmptyString => true | _ => false end
  | String c p' =>
      if Ascii.eqb c "%" then
        fix star (t : string) : bool :=
          LIKE_from p' t
          || match t with EmptyString => false | String _ t' => star t' end
      else if Ascii.eqb c "_" then
        fun t => match t with EmptyString => false | String _ t' => LIKE_from p' t' end
      else if Ascii.eqb c "\" then
        match p' with
        | EmptyString =>
            fun t => match t with String d EmptyString => Ascii.eqb d c | _ => false end
        | String q p'' =>
            fun t => match t with
                     | EmptyString => false
                     | String d t' => Ascii.eqb d q && LIKE_from p'' t'
                     end
        end
      else
        fun t => match t with
                 | EmptyString => false
                 | String d t' => Ascii.eqb d c && LIKE_from p' t'
                 end
  end.

Definition LIKE (text pattern : string) : bool :=
  LIKE_from (collate pattern) (collate text).

(** [CAST(n AS CHAR)] of an integer. *)
Definition CAST_CHAR (n : Z) : string := NilZero.string_of_int (Z.to_int n).

(** [DATEDIFF(a, b)] on day numbers. *)
Definition DATEDIFF (a b : Z) : Z := (a - b)%Z.

(** The digits of a natural number. *)
Definition digits (n : Z) : string := NilZero.string_of_int (Z.to_int n).

Fixpoint zero_run (n : nat) : string :=
  match n with
  | O => ""
  | S n' => String "0" (zero_run n')
  end.

(** A DECIMAL with [d] decimals written as text, as the engine does where
    an expression mixes it with text: sign, integer part, point and [d]
    digits. *)
Definition decimal_text (d : nat) (x : Q) : string :=
  let p := Z.pow 10 (Z.of_nat d) in
  let n := round_half_away (x * inject_Z p) in
  let fraction := digits (Z.abs n mod p) in
  ((if (n <? 0)%Z then "-" else "")
   ++ digits (Z.abs n / p)
   ++ match d with
      | O => ""
      | _ => "." ++ zero_run (d - String.length fraction) ++ fraction
      end)%string.

End Sql.

(* ===================================================================== *)
(** * Tables *)
(* ===================================================================== *)

(** Modelled from the spec: the schema script
    (dumps/Dump20241117/001_north_avenue_Schema.sql) is not part of the
    sources.  The columns are those the INSERT statements of
    [db/migration.py] and of the controller name; every column listed here
    is taken NOT NULL except [v_description], and monetary columns are
    exact decimals. *)

Record VehicleRow := {
  v_vin : string;            (* vehicle_identification_number *)
  v_type : string;           (* vehicle_type *)
  v_condition : string;
  v_manufacturer : string;   (* manufacturer_name *)
  v_model : string;          (* model_name *)
  v_year : Z;
  v_fuel : string;           (* fuel_type *)
  v_horsepower : Z;
  v_description : option string
}.

Record VehicleColorRow := {
  vc_vin : string;
  vc_color : string          (* color_name *)
}.

Record SaleRow := {
  st_vin : string;
  st_username : string;
  st_customer : Z;           (* customer_id *)
  st_sale_price : Q;
  st_sold_on : Z
}.

Record PurchaseRow := {
  pt_vin : string;
  pt_username : string;
  pt_customer : Z;
  pt_purchase_price : Q;
  pt_purchased_on : Z
}.

Record PartsOrderRow := {
  po_vin : string;
  po_vendor : string;        (* name *)
  po_order_number : string;
  po_total_cost : Q
}.

Record PartRow := {
  p_order_number : string;
  p_vendor_parts_number : string;
  p_description : string;
  p_quantity : Z;
  p_status : string;
  p_unit_price : Q
}.

Record Database := {
  Vehicle : list VehicleRow;
  VehicleColor : list VehicleColorRow;
  SaleTransaction : list SaleRow;
  PurchaseTransaction : list PurchaseRow;
  PartsOrder : list PartsOrderRow;
  Part : list PartRow;
  VehicleType : list string  (* reference table, column vehicle_type *)
}.

(* ===================================================================== *)
(** * Python values of the interface *)
(* ===================================================================== *)

(** [x in l] on strings. *)
Definition py_in (x : string) (l : list string) : bool :=
  existsb (String.eqb x) l.

(** Truth value of an [Optional[str]]: [None] and the empty string are
    false. *)
Definition truthy (x : option string) : bool :=
  match x with
  | Some s => negb (s =? "")
  | None => false
  end.

(** [x != "Any"] for an [Optional[str]]. *)
Definition not_any (x : option string) : bool :=
  match x with
  | Some s => negb (s =? "Any")
  | None => true
  end.

(** The [year] argument: the page passes an [int] taken from the select
    box or its first entry, the string "Any". *)
Inductive year_arg :=
| YearAny
| YearIs (y : Z).

Inductive cell :=
| Null
| Text (s : string)
| Int (z : Z)
| Dec (q : Q)
| Date (d : Z).

Definition opt_cell {T : Type} (f : T -> cell) (x : option T) : cell :=
  match x with
  | Some v => f v
  | None => Null
  end.

(** A pandas DataFrame: column labels and rows of cells. *)
Record DataFrame := {
  columns : list string;
  data : list (list cell)
}.

Fixpoint index_of (name : string) (cols : list string) : option nat :=
  match cols with
  | [] => None
  | c :: cols' =>
      if c =? name then Some O else option_map S (index_of name cols')
  end.

Definition cell_at (cols : list string) (row : list cell) (name : string) : cell :=
  match index_of name cols with
  | Some i => nth i row Null
  | None => Null
  end.

(** [df[[names]]]; every label the controller selects is a label of the
    frame. *)
Definition select_columns (names : list string) (df : DataFrame) : DataFrame :=
  {| columns := names;
     data := map (fun row => map (cell_at (columns df) row) names) (data df) |}.

(** [df[name]] as the list of its cells. *)
Definition column (name : string) (df : DataFrame) : list cell :=
  map (fun row => cell_at (columns df) row name) (data df).

(* ===================================================================== *)
(** * [search_vehicles] *)
(* ===================================================================== *)

(** A row of the FROM clause: [v], [vc], [st], [pt] and [po_aggregated]. *)
Record PoAggRow := {
  agg_vin : string;
  agg_TotalPartsCost : option Q
}.

Record jrow := {
  j_v : VehicleRow;
  j_vc : option VehicleColorRow;
  j_st : option SaleRow;
  j_pt : option PurchaseRow;
  j_po : option PoAggRow
}.

(** A condition of the query text, evaluated on a joined row; the
    correlated subquery reads the tables. *)
Definition cond := Database -> jrow -> bool.

(** The pieces appended to the base text.  The base text ends with the ON
    condition of its last LEFT JOIN, and the suffix starts with GROUP BY. *)
Inductive fragment :=
| WHERE (c : cond)
| AND (c : cond).

(** What the appended pieces denote once the statement is parsed: an [AND]
    that follows the ON condition continues it, an [AND] that follows a
    WHERE condition continues the WHERE clause. *)
Record clauses := {
  on_extra : list cond;
  where_clause : option (list cond)
}.

Fixpoint parse_fragments (fs : list fragment) (acc : clauses) : option clauses :=
  match fs with
  | [] => Some acc
  | AND c :: fs' =>
      match where_clause acc with
      | None =>
          parse_fragments fs'
            {| on_extra := on_extra acc ++ [c]; where_clause := None |}
      | Some w =>
          parse_fragments fs'
            {| on_extra := on_extra acc; where_clause := Some (w ++ [c]) |}
      end
  | WHERE c :: fs' =>
      match where_clause acc with
      | None =>
          parse_fragments fs'
            {| on_extra := on_extra acc; where_clause := Some [c] |}
      | Some _ => None (* a second WHERE is a syntax error *)
      end
  end.

Definition parse (fs : list fragment) : option clauses :=
  parse_fragments fs {| on_extra := []; where_clause := None |}.

Definition is_and (f : fragment) : bool :=
  match f with
  | AND _ => true
  | WHERE _ => false
  end.

(** The conditions of the [AND] pieces of a text. *)
Definition and_conds (fs : list fragment) : list cond :=
  flat_map (fun f => match f with
                     | AND c => [c]
                     | WHERE _ => []
                     end) fs.

(** The derived table [po_aggregated]. *)
Definition po_aggregated (db : Database) : list PoAggRow :=
  map (fun g : PartsOrderRow * list PartsOrderRow =>
         {| agg_vin := po_vin (fst g);
            agg_TotalPartsCost := Sql.SUM (map po_total_cost (snd g)) |})
      (Sql.group_by (fun a b => po_vin a =? po_vin b) (PartsOrder db)).

(** [FROM Vehicle v LEFT JOIN VehicleColor vc ... LEFT JOIN (...)
    po_aggregated ON v.vin = po_aggregated.vin (AND extra)*]. *)
Definition from_clause (db : Database) (extra : list cond) : list jrow :=
  let j1 := Sql.left_join (fun v vc => v_vin v =? vc_vin vc)
                          (Vehicle db) (VehicleColor db) in
  let j2 := Sql.left_join (fun (l : VehicleRow * option VehicleColorRow) st =>
                             v_vin (fst l) =? st_vin st)
                          j1 (SaleTransaction db) in
  let j3 := Sql.left_join (fun (l : VehicleRow * option VehicleColorRow
                                    * option SaleRow) pt =>
                             v_vin (fst (fst l)) =? pt_vin pt)
                          j2 (PurchaseTransaction db) in
  let j4 := Sql.left_join
              (fun (l : VehicleRow * option VehicleColorRow
                        * option SaleRow * option PurchaseRow) po =>
                 let '(v, vc, st, pt) := l in
                 (v_vin v =? agg_vin po)
                 && forallb (fun c : cond =>
                               c db {| j_v := v; j_vc := vc; j_st := st;
                                       j_pt := pt; j_po := Some po |}) extra)
              j3 (po_aggregated db) in
  map (fun r : VehicleRow * option VehicleColorRow * option SaleRow
               * option PurchaseRow * option PoAggRow =>
         let '(v, vc, st, pt, po) := r in
         {| j_v := v; j_vc := vc; j_st := st; j_pt := pt; j_po := po |})
      j4.

(** ** Conditions of the text *)

(** [st.sale_price IS NULL] *)
Definition sale_price_is_null : cond :=
  fun _ r => Sql.is_null (j_st r).

(** [st.sale_price IS NOT NULL] *)
Definition sale_price_is_not_null : cond :=
  fun _ r => negb (Sql.is_null (j_st r)).

(** [EXISTS (SELECT 1 FROM Part p INNER JOIN PartsOrder po_sub
             ON p.order_number = po_sub.order_number
             WHERE po_sub.vehicle_identification_number = vin
               AND p.status != 'Installed')] *)
Definition pending_part_exists (db : Database) (vin : string) : bool :=
  Sql.EXISTS
    (fun x : PartRow * PartsOrderRow =>
       (po_vin (snd x) =? vin) && negb (p_status (fst x) =? "Installed"))
    (Sql.inner_join (fun p po_sub => p_order_number p =? po_order_number po_sub)
                    (Part db) (PartsOrder db)).

Definition no_pending_parts : cond :=
  fun db r => negb (pending_part_exists db (v_vin (j_v r))).

(** [1=1] *)
Definition always : cond := fun _ _ => true.

(** [v.vehicle_type = :vehicle_type] and the like: the argument is
    compared by the collation. *)
Definition vehicle_type_is (x : string) : cond :=
  fun _ r => Sql.same_text (v_type (j_v r)) x.

Definition manufacturer_is (x : string) : cond :=
  fun _ r => Sql.same_text (v_manufacturer (j_v r)) x.

Definition year_is (y : Z) : cond :=
  fun _ r => (v_year (j_v r) =? y)%Z.

Definition fuel_type_is (x : string) : cond :=
  fun _ r => Sql.same_text (v_fuel (j_v r)) x.

(** [vc.color_name = :color], for a colour given as it is stored (the
    select box of the page lists the stored names); not TRUE on a vehicle
    without colour row. *)
Definition color_is (x : string) : cond :=
  fun _ r => match j_vc r with
             | Some vc => vc_color vc =? x
             | None => false
             end.

(** The keyword disjunction, with [:keyword] bound to [%keyword%]. *)
Definition keyword_matches (kw : string) : cond :=
  fun _ r =>
    let pat := ("%" ++ kw ++ "%")%string in
    Sql.LIKE (v_manufacturer (j_v r)) pat
    || Sql.LIKE (v_model (j_v r)) pat
    || Sql.LIKE (Sql.CAST_CHAR (v_year (j_v r))) pat
    || match v_description (j_v r) with
       | Some d => Sql.LIKE d pat
       | None => false
       end.

(** [v.vehicle_identification_number = :vin] for the text typed into the
    search form. *)
Definition vin_is (x : string) : cond :=
  fun _ r => Sql.same_text (v_vin (j_v r)) x.

(** The same condition for a VIN given as it is stored: the pages hand the
    functions that read one vehicle the VIN of a listed row. *)
Definition stored_vin_is (x : string) : cond :=
  fun _ r => v_vin (j_v r) =? x.

(** ** Arguments *)

Record search_args := {
  vehicle_type : option string;
  manufacturer : option string;
  year : option year_arg;
  fuel_type : option string;
  color : option string;
  keyword : option string;
  vin : option string;
  vehicle_status : option string;
  role : string
}.

(** The role-based clause. *)
Definition role_fragments (a : search_args) : list fragment :=
  if py_in (role a) ["Public"; "Salesperson"] then
    [WHERE sale_price_is_null; AND no_pending_parts]
  else if role a =? "Inventory clerk" then
    [WHERE sale_price_is_null]
  else if py_in (role a) ["Manager"; "Owner"] then
    match vehicle_status a with
    | Some "Sold" => [WHERE sale_price_is_not_null]
    | Some "Unsold" => [WHERE sale_price_is_null]
    | _ => [WHERE always]
    end
  else [].

(** [if x and x != "Any": query += " AND ..."] for a string filter. *)
Definition string_filter (x : option string) (c : string -> cond) : list fragment :=
  match x with
  | Some s => if truthy x && not_any x then [AND (c s)] else []
  | None => []
  end.

(** The same for [year]: 0 is false in Python, "Any" is the sentinel. *)
Definition year_filter (x : option year_arg) : list fragment :=
  match x with
  | Some (YearIs y) => if negb (y =? 0)%Z then [AND (year_is y)] else []
  | Some YearAny => []
  | None => []
  end.

(** [if x: query += " AND ..."] for [keyword] and [vin]. *)
Definition plain_filter (x : option string) (c : string -> cond) : list fragment :=
  match x with
  | Some s => if truthy x then [AND (c s)] else []
  | None => []
  end.

Definition filter_fragments (a : search_args) : list fragment :=
  string_filter (vehicle_type a) vehicle_type_is
  ++ string_filter (manufacturer a) manufacturer_is
  ++ year_filter (year a)
  ++ string_filter (fuel_type a) fuel_type_is
  ++ string_filter (color a) color_is
  ++ plain_filter (keyword a) keyword_matches
  ++ plain_filter (vin a) vin_is.

(** The text built by [search_vehicles], as the pieces that follow the
    base text. *)
Definition query_fragments (a : search_args) : list fragment :=
  role_fragments a ++ filter_fragments a.

(** ** Grouping and the select list *)

(** The GROUP BY columns. *)
Definition same_group (a b : jrow) : bool :=
  (v_vin (j_v a) =? v_vin (j_v b))
  && (v_type (j_v a) =? v_type (j_v b))
  && (v_manufacturer (j_v a) =? v_manufacturer (j_v b))
  && (v_model (j_v a) =? v_model (j_v b))
  && (v_year (j_v a) =? v_year (j_v b))%Z
  && (v_fuel (j_v a) =? v_fuel (j_v b))
  && (v_horsepower (j_v a) =? v_horsepower (j_v b))%Z
  && Sql.opt_same Qeq_bool (option_map st_sale_price (j_st a))
                           (option_map st_sale_price (j_st b))
  && Sql.opt_same Z.eqb (option_map pt_purchased_on (j_pt a))
                        (option_map pt_purchased_on (j_pt b))
  && Sql.opt_same Qeq_bool (option_map pt_purchase_price (j_pt a))
                           (option_map pt_purchase_price (j_pt b))
  && Sql.opt_same String.eqb (v_description (j_v a)) (v_description (j_v b)).

(** A fetched row, with the thirteen labels the controller gives it. *)
Record ResultRow := {
  VIN : string;
  VehicleType_ : string;
  Manufacturer : string;
  Model : string;
  Year : Z;
  FuelType : string;
  Colors : option string;
  Horsepower : Z;
  SalePrice : option Q;
  PurchasePrice : option Q;
  PurchaseDate : option Z;
  TotalPartsCost : Q;
  Description : option string
}.

Fixpoint join_with (sep : string) (l : list string) : string :=
  match l with
  | [] => ""
  | [s] => s
  | s :: l' => (s ++ sep ++ join_with sep l')%string
  end.

(** [GROUP_CONCAT(DISTINCT vc.color_name SEPARATOR ', ')] over a group;
    NULL when the group has no colour.  The engine delivers the distinct
    values in ascending order. *)
Definition group_colors (g : list jrow) : option string :=
  match Sql.order_by (fun c : string => c)
          (Sql.distinct String.eqb
             (flat_map (fun r => match j_vc r with
                                 | Some vc => [vc_color vc]
                                 | None => []
                                 end) g)) with
  | [] => None
  | cs => Some (join_with ", " cs)
  end.

(** [po_aggregated.TotalPartsCost] of a joined row. *)
Definition parts_cost (r : jrow) : option Q :=
  match j_po r with
  | Some po => agg_TotalPartsCost po
  | None => None
  end.

(** The CASE expression of the select list. *)
Definition sale_price_expr (r : jrow) : option Q :=
  match j_st r with
  | Some st => Some (st_sale_price st)
  | None =>
      option_map (fun x => Sql.ROUND x 2)
        (Sql.lift2 Qplus
           (Sql.lift2 Qmult (Some (125 # 100)) (option_map pt_purchase_price (j_pt r)))
           (Sql.lift2 Qmult (Some (11 # 10)) (Some (Sql.IFNULL (parts_cost r) 0%Q))))
  end.

(** The select list on a group: the grouped columns and the columns they
    determine are read off the first row of the group. *)
Definition select_list (g : jrow * list jrow) : ResultRow :=
  let r := fst g in
  {| VIN := v_vin (j_v r);
     VehicleType_ := v_type (j_v r);
     Manufacturer := v_manufacturer (j_v r);
     Model := v_model (j_v r);
     Year := v_year (j_v r);
     FuelType := v_fuel (j_v r);
     Colors := group_colors (snd g);
     Horsepower := v_horsepower (j_v r);
     SalePrice := sale_price_expr r;
     PurchasePrice := option_map pt_purchase_price (j_pt r);
     PurchaseDate := option_map pt_purchased_on (j_pt r);
     TotalPartsCost := Sql.ROUND (Sql.IFNULL (parts_cost r) 0%Q) 2;
     Description := v_description (j_v r) |}.

(** The rows WHERE keeps. *)
Definition where_rows (db : Database) (w : option (list cond)) (rows : list jrow)
  : list jrow :=
  match w with
  | Some cs => filter (fun r => forallb (fun c : cond => c db r) cs) rows
  | None => rows
  end.

(** [session.execute(query, params).fetchall()]: [None] when the text does
    not parse (the driver raises). *)
Definition execute_search (db : Database) (fs : list fragment)
  : option (list ResultRow) :=
  match parse fs with
  | Some q =>
      Some (Sql.order_by VIN
              (map select_list
                 (Sql.group_by same_group
                    (where_rows db (where_clause q)
                       (from_clause db (on_extra q))))))
  | None => None
  end.

(** ** The returned frame *)

Definition all_columns : list string :=
  ["VIN"; "VehicleType"; "Manufacturer"; "Model"; "Year"; "FuelType";
   "Colors"; "Horsepower"; "SalePrice"; "PurchasePrice"; "PurchaseDate";
   "TotalPartsCost"; "Description"].

Definition cells_of (r : ResultRow) : list cell :=
  [Text (VIN r); Text (VehicleType_ r); Text (Manufacturer r); Text (Model r);
   Int (Year r); Text (FuelType r); opt_cell Text (Colors r);
   Int (Horsepower r); opt_cell Dec (SalePrice r);
   opt_cell Dec (PurchasePrice r); opt_cell Date (PurchaseDate r);
   Dec (TotalPartsCost r); opt_cell Text (Description r)].

(** [pd.DataFrame(results, columns=[...])] *)
Definition frame_of (rows : list ResultRow) : DataFrame :=
  {| columns := all_columns; data := map cells_of rows |}.

Definition public_columns : list string :=
  ["VIN"; "VehicleType"; "Manufacturer"; "Model"; "Year"; "FuelType";
   "Colors"; "Horsepower"; "SalePrice"].

Definition clerk_columns : list string :=
  ["VIN"; "VehicleType"; "Manufacturer"; "Model"; "Year"; "FuelType";
   "Colors"; "Horsepower"; "PurchasePrice"; "TotalPartsCost"].

(** The role-based projection at the end of [search_vehicles]. *)
Definition project_for_role (r : string) (df : DataFrame) : DataFrame :=
  if (r =? "Public") || (r =? "Salesperson") then
    select_columns public_columns df
  else if r =? "Inventory clerk" then
    select_columns clerk_columns df
  else if py_in r ["Manager"; "Owner"] then df
  else df.

(** The rows fetched by [search_vehicles]. *)
Definition search_vehicles_rows (db : Database) (a : search_args)
  : option (list ResultRow) :=
  execute_search db (query_fragments a).

(** [search_vehicles]; [None] stands for the exception of a statement
    that does not parse. *)
Definition search_vehicles (db : Database) (a : search_args) : option DataFrame :=
  match search_vehicles_rows db a with
  | Some rows => Some (project_for_role (role a) (frame_of rows))
  | None => None
  end.

(* ===================================================================== *)
(** * [get_vehicle_counts] *)
(* ===================================================================== *)

(** [vin NOT IN (SELECT vehicle_identification_number FROM SaleTransaction)] *)
Definition not_in_sales (db : Database) (vin : string) : bool :=
  negb (py_in vin (map st_vin (SaleTransaction db))).

Definition count_cars_with_pending_parts (db : Database) : nat :=
  let v_po := Sql.inner_join (fun v po => v_vin v =? po_vin po)
                             (Vehicle db) (PartsOrder db) in
  let v_po_p := Sql.inner_join
                  (fun (l : VehicleRow * PartsOrderRow) p =>
                     po_order_number (snd l) =? p_order_number p)
                  v_po (Part db) in
  Sql.COUNT_DISTINCT
    (map (fun r : VehicleRow * PartsOrderRow * PartRow => v_vin (fst (fst r)))
       (filter (fun r : VehicleRow * PartsOrderRow * PartRow =>
                  negb (p_status (snd r) =? "Installed")
                  && not_in_sales db (v_vin (fst (fst r))))
               v_po_p)).

Definition count_available_cars (db : Database) : nat :=
  let v_po := Sql.left_join (fun v po => v_vin v =? po_vin po)
                            (Vehicle db) (PartsOrder db) in
  Sql.COUNT_DISTINCT
    (map (fun r : VehicleRow * option PartsOrderRow => v_vin (fst r))
       (filter (fun r : VehicleRow * option PartsOrderRow =>
                  negb (pending_part_exists db (v_vin (fst r)))
                  && not_in_sales db (v_vin (fst r)))
               v_po)).

Definition get_vehicle_counts (db : Database) : nat * nat :=
  (count_available_cars db, count_cars_with_pending_parts db).

(* ===================================================================== *)
(** * [average_inventory_time_report] *)
(* ===================================================================== *)

(** A row of [Vehicle v JOIN VehicleType vt LEFT JOIN PurchaseTransaction pt
    LEFT JOIN SaleTransaction st]. *)
Record avt_jrow := {
  a_v : VehicleRow;
  a_vt : string;
  a_pt : option PurchaseRow;
  a_st : option SaleRow
}.

Definition avt_from (db : Database) : list avt_jrow :=
  let j1 := Sql.inner_join (fun v vt => v_type v =? vt)
                           (Vehicle db) (VehicleType db) in
  let j2 := Sql.left_join (fun (l : VehicleRow * string) pt =>
                             v_vin (fst l) =? pt_vin pt)
                          j1 (PurchaseTransaction db) in
  let j3 := Sql.left_join (fun (l : VehicleRow * string * option PurchaseRow) st =>
                             v_vin (fst (fst l)) =? st_vin st)
                          j2 (SaleTransaction db) in
  map (fun r : VehicleRow * string * option PurchaseRow * option SaleRow =>
         let '(v, vt, pt, st) := r in
         {| a_v := v; a_vt := vt; a_pt := pt; a_st := st |})
      j3.

(** [COUNT(st.sold_on)] over a group. *)
Definition count_sold_on (g : list avt_jrow) : nat :=
  List.length (filter (fun r => negb (Sql.is_null (a_st r))) g).

(** The non-NULL values of [DATEDIFF(st.sold_on, pt.purchased_on) + 1] over
    a group. *)
Definition inventory_days (g : list avt_jrow) : list Q :=
  flat_map (fun r =>
              match a_st r, a_pt r with
              | Some st, Some pt =>
                  [inject_Z (Sql.DATEDIFF (st_sold_on st) (pt_purchased_on pt) + 1)]
              | _, _ => []
              end) g.

Record AvtRow := {
  avt_VehicleType : string;
  avt_AvgInventoryTime : cell
}.

(** The CASE expression.  One branch is text, so the column is text: the
    rounded mean is delivered written out with its two decimals (NULL when
    AVG is NULL). *)
Definition avt_select (g : avt_jrow * list avt_jrow) : AvtRow :=
  {| avt_VehicleType := a_vt (fst g);
     avt_AvgInventoryTime :=
       if (count_sold_on (snd g) =? 0)%nat then Text "N/A"
       else opt_cell Text
              (option_map (fun x => Sql.decimal_text 2 (Sql.ROUND x 2))
                          (Sql.AVG (inventory_days (snd g)))) |}.

Definition avt_rows (db : Database) : list AvtRow :=
  Sql.order_by avt_VehicleType
    (map avt_select
       (Sql.group_by (fun a b => a_vt a =? a_vt b) (avt_from db))).

Definition average_inventory_time_report (db : Database) : DataFrame :=
  {| columns := ["Vehicle Type"; "Avg Inventory Time"];
     data := map (fun r => [Text (avt_VehicleType r); avt_AvgInventoryTime r])
                 (avt_rows db) |}.

(* ===================================================================== *)
(** * Part status *)
(* ===================================================================== *)

Definition with_parts (db : Database) (ps : list PartRow) : Database :=
  {| Vehicle := Vehicle db;
     VehicleColor := VehicleColor db;
     SaleTransaction := SaleTransaction db;
     PurchaseTransaction := PurchaseTransaction db;
     PartsOrder := PartsOrder db;
     Part := ps;
     VehicleType := VehicleType db |}.

Definition with_parts_orders (db : Database) (os : list PartsOrderRow) : Database :=
  {| Vehicle := Vehicle db;
     VehicleColor := VehicleColor db;
     SaleTransaction := SaleTransaction db;
     PurchaseTransaction := PurchaseTransaction db;
     PartsOrder := os;
     Part := Part db;
     VehicleType := VehicleType db |}.

(** [WHERE order_number = :order_number
       AND vendor_parts_number = :vendor_part_number] *)
Definition part_key_is (order_number vendor_part_number : string) (p : PartRow)
  : bool :=
  (p_order_number p =? order_number)
  && (p_vendor_parts_number p =? vendor_part_number).

Definition set_status (new_status : string) (p : PartRow) : PartRow :=
  {| p_order_number := p_order_number p;
     p_vendor_parts_number := p_vendor_parts_number p;
     p_description := p_description p;
     p_quantity := p_quantity p;
     p_status := new_status;
     p_unit_price := p_unit_price p |}.

(** [UPDATE Part SET status = :new_status WHERE (key)] *)
Definition update_status_stmt
  (db : Database) (order_number vendor_part_number new_status : string)
  : Database :=
  with_parts db
    (map (fun p => if part_key_is order_number vendor_part_number p
                   then set_status new_status p else p)
         (Part db)).

Definition valid_status_transitions : list (string * list string) :=
  [("Ordered", ["Received"; "Installed"]);
   ("Received", ["Installed"]);
   ("Installed", [])].

(** [d.get(k, default)] *)
Definition dict_get {V : Type} (d : list (string * V)) (k : string) (default : V) : V :=
  match find (fun kv => fst kv =? k) d with
  | Some kv => snd kv
  | None => default
  end.

(** [SELECT status FROM Part WHERE (key)] followed by [fetchone()]: the
    first matching row. *)
Definition lookup_part (db : Database) (order_number vendor_part_number : string)
  : option PartRow :=
  find (part_key_is order_number vendor_part_number) (Part db).

(** [update_part_status]: the result and the tables after the call. *)
Definition update_part_status
  (db : Database) (order_number vendor_part_number new_status : string)
  : bool * Database :=
  match lookup_part db order_number vendor_part_number with
  | None => (false, db)
  | Some row =>
      let current_status := p_status row in
      if py_in new_status (dict_get valid_status_transitions current_status [])
      then (true, update_status_stmt db order_number vendor_part_number new_status)
      else (false, db)
  end.

(** [update_status]: [result.rowcount] is the number of rows the WHERE
    clause matches. *)
Definition update_status
  (db : Database) (new_status vendor_part_number order_number : string)
  : bool * Database :=
  let rowcount :=
    List.length (filter (part_key_is order_number vendor_part_number) (Part db)) in
  ((0 <? rowcount)%nat,
   update_status_stmt db order_number vendor_part_number new_status).

(* ===================================================================== *)
(** * [add_parts_order] *)
(* ===================================================================== *)

(** [str(n)] of a non-negative integer. *)
Definition py_str (n : nat) : string := NilZero.string_of_uint (Nat.to_uint n).

Fixpoint zeros (n : nat) : string :=
  match n with
  | O => ""
  | S n' => String "0" (zeros n')
  end.

(** [s.zfill(width)]: zeros are inserted after a leading sign. *)
Definition zfill (width : nat) (s : string) : string :=
  if (width <=? String.length s)%nat then s
  else
    let pad := zeros (width - String.length s) in
    match s with
    | String c rest =>
        if Ascii.eqb c "+" || Ascii.eqb c "-"
        then String c (pad ++ rest)%string
        else (pad ++ s)%string
    | EmptyString => pad
    end.

(** [SELECT COUNT( * ) FROM PartsOrder WHERE vehicle_identification_number
    = :vin] *)
Definition count_orders (db : Database) (vin : string) : nat :=
  List.length (filter (fun po => po_vin po =? vin) (PartsOrder db)).

(** [f"{vin}-{str(sequential_number).zfill(3)}"] *)
Definition new_order_number (db : Database) (vin : string) : string :=
  let sequential_number := (count_orders db vin + 1)%nat in
  (vin ++ "-" ++ zfill 3 (py_str sequential_number))%string.

Section AddPartsOrder.

(** The numbers of a part dictionary are Python numbers ([float] unit
    price, [int] quantity); their arithmetic and the conversion of a
    bound parameter to the DECIMAL column are parameters. *)
Variable pynum : Type.
Variable py_zero : pynum.
Variable py_add : pynum -> pynum -> pynum.
Variable py_mul : pynum -> Z -> pynum.
Variable py_round : pynum -> Z -> pynum.
Variable to_decimal : pynum -> Q.

(** Whether the engine accepts an INSERT (keys, references, column
    types of the schema); a refused INSERT raises. *)
Variable parts_order_accepted : Database -> PartsOrderRow -> bool.
Variable part_accepted : Database -> PartRow -> bool.

Record part_dict := {
  vendor_part_number : string;
  part_description : string;
  quantity : Z;
  part_status : string;
  unit_price : pynum
}.

(** [sum(xs)] starts from 0 and adds from the left. *)
Definition py_sum (xs : list pynum) : pynum := fold_left py_add xs py_zero.

(** [round(sum(part["unit_price"] * part["quantity"] for part in parts), 2)] *)
Definition total_cost_of (parts : list part_dict) : pynum :=
  py_round (py_sum (map (fun part => py_mul (unit_price part) (quantity part)) parts)) 2.

Definition insert_parts_order (db : Database) (row : PartsOrderRow)
  : option Database :=
  if parts_order_accepted db row
  then Some (with_parts_orders db (PartsOrder db ++ [row]))
  else None.

Definition insert_part (db : Database) (row : PartRow) : option Database :=
  if part_accepted db row
  then Some (with_parts db (Part db ++ [row]))
  else None.

Definition part_row (order_number : string) (part : part_dict) : PartRow :=
  {| p_order_number := order_number;
     p_vendor_parts_number := vendor_part_number part;
     p_description := part_description part;
     p_quantity := quantity part;
     p_status := part_status part;
     p_unit_price := to_decimal (unit_price part) |}.

(** [for part in parts: session.execute(part_query, ...)] *)
Fixpoint insert_parts (db : Database) (order_number : string)
  (parts : list part_dict) : option Database :=
  match parts with
  | [] => Some db
  | part :: parts' =>
      match insert_part db (part_row order_number part) with
      | Some db' => insert_parts db' order_number parts'
      | None => None
      end
  end.

Definition parts_order_row (db : Database) (vin vendor_name : string)
  (parts : list part_dict) : PartsOrderRow :=
  {| po_vin := vin;
     po_vendor := vendor_name;
     po_order_number := new_order_number db vin;
     po_total_cost := to_decimal (total_cost_of parts) |}.

(** The [try] block as a computation that may raise. *)
Definition add_parts_order_body (db : Database) (vin vendor_name : string)
  (parts : list part_dict) : option Database :=
  match insert_parts_order db (parts_order_row db vin vendor_name parts) with
  | Some db1 => insert_parts db1 (new_order_number db vin) parts
  | None => None
  end.

(** [add_parts_order]: the result and the tables after the call; an
    exception rolls the session back and the handler returns [False]. *)
Definition add_parts_order (db : Database) (vin vendor_name : string)
  (parts : list part_dict) : bool * Database :=
  match add_parts_order_body db vin vendor_name parts with
  | Some db' => (true, db')
  | None => (false, db)
  end.

End AddPartsOrder.

Arguments vendor_part_number {pynum} _.
Arguments part_description {pynum} _.
Arguments quantity {pynum} _.
Arguments part_status {pynum} _.
Arguments unit_price {pynum} _.


(* ===================================================================== *)
(** * Notions of the specification *)
(* ===================================================================== *)

(** The transitions of the part state machine: Ordered to Received or
    Installed, Received to Installed, nothing from Installed. *)
Definition legal_transition (current new : string) : Prop :=
  (current = "Ordered" /\ new = "Received")
  \/ (current = "Ordered" /\ new = "Installed")
  \/ (current = "Received" /\ new = "Installed").

(** A vehicle is sold when a SaleTransaction row carries its VIN. *)
Definition has_sale (db : Database) (vin : string) : Prop :=
  exists st, In st (SaleTransaction db) /\ st_vin st = vin.

(** A part associated with a vehicle: a Part row of one of the vehicle's
    parts orders. *)
Definition part_of_vehicle (db : Database) (vin : string) (p : PartRow) : Prop :=
  In p (Part db) /\
  exists po, In po (PartsOrder db)
             /\ po_order_number po = p_order_number p /\ po_vin po = vin.

(** A vehicle has a pending part when an associated part is not
    Installed. *)
Definition has_pending_part (db : Database) (vin : string) : Prop :=
  exists p, part_of_vehicle db vin p /\ p_status p <> "Installed".

(** The parts cost of a vehicle: the sum of the total_cost of its parts
    orders, 0 when it has none. *)
Definition total_parts_cost (db : Database) (vin : string) : Q :=
  fold_right Qplus 0%Q
    (map po_total_cost (filter (fun po => po_vin po =? vin) (PartsOrder db))).

(** Text read without regard to the case of its letters: the capitals A
    to Z are replaced by their small letters. *)
Definition lower (c : ascii) : ascii :=
  let n := nat_of_ascii c in
  if (65 <=? n)%nat && (n <=? 90)%nat then ascii_of_nat (n + 32) else c.

Fixpoint lowercase (s : string) : string :=
  match s with
  | EmptyString => EmptyString
  | String c s' => String (lower c) (lowercase s')
  end.

Definition equal_ignoring_case (a b : string) : Prop :=
  lowercase a = lowercase b.

(** The amount in whole cents that is nearest to [x], a half cent going
    away from zero: with [x * 100 = n / d], the cents are
    [(2 |n| + d) / 2 d], rounded down, with the sign of [n]. *)
Definition nearest_cent (x : Q) : Q :=
  let n := (Qnum x * 100)%Z in
  let d := Zpos (Qden x) in
  Qmake (Z.sgn n * ((2 * Z.abs n + d) / (2 * d))) 100.

(** The asking price of an unsold vehicle:
    round(1.25 * purchase price + 1.1 * parts cost, 2). *)
Definition asking_price (purchase_price parts_cost : Q) : Q :=
  nearest_cent ((125 # 100) * purchase_price + (11 # 10) * parts_cost).

(** The five roles of the application. *)
Definition roles : list string :=
  ["Public"; "Salesperson"; "Inventory clerk"; "Manager"; "Owner"].

(* ===================================================================== *)
(** * A sample database *)
(* ===================================================================== *)

Definition sample_vehicle (vin type : string) (description : option string)
  : VehicleRow :=
  {| v_vin := vin; v_type := type; v_condition := "Good";
     v_manufacturer := "Honda"; v_model := "Accord"; v_year := 2003;
     v_fuel := "Gas"; v_horsepower := 160; v_description := description |}.

Definition sample_purchase (vin : string) (price : Q) (day : Z) : PurchaseRow :=
  {| pt_vin := vin; pt_username := "clerk1"; pt_customer := 1;
     pt_purchase_price := price; pt_purchased_on := day |}.

Definition sample_part (order part status : string) (qty : Z) (price : Q)
  : PartRow :=
  {| p_order_number := order; p_vendor_parts_number := part;
     p_description := "part"; p_quantity := qty; p_status := status;
     p_unit_price := price |}.

(** Three vehicles: an unsold sedan bought at 10000 whose single parts
    order of 500 is installed, an unsold SUV with a part still on order,
    and a sold sedan.  The type table also lists a type without
    vehicle. *)
Definition sample_db : Database :=
  {| Vehicle :=
       [sample_vehicle "1HGCM82633A004352" "Sedan" None;
        sample_vehicle "2T1BURHE5JC034461" "SUV" (Some "one owner");
        sample_vehicle "3FA6P0H73HR123456" "Sedan" None];
     VehicleColor :=
       [{| vc_vin := "1HGCM82633A004352"; vc_color := "Red" |};
        {| vc_vin := "1HGCM82633A004352"; vc_color := "Black" |};
        {| vc_vin := "3FA6P0H73HR123456"; vc_color := "Blue" |}];
     SaleTransaction :=
       [{| st_vin := "3FA6P0H73HR123456"; st_username := "sales1";
           st_customer := 2; st_sale_price := 21500; st_sold_on := 739010 |}];
     PurchaseTransaction :=
       [sample_purchase "1HGCM82633A004352" 10000 739000;
        sample_purchase "2T1BURHE5JC034461" 18000 739001;
        sample_purchase "3FA6P0H73HR123456" 16000 739000];
     PartsOrder :=
       [{| po_vin := "1HGCM82633A004352"; po_vendor := "Acme Parts";
           po_order_number := "1HGCM82633A004352-001"; po_total_cost := 500 |};
        {| po_vin := "2T1BURHE5JC034461"; po_vendor := "Acme Parts";
           po_order_number := "2T1BURHE5JC034461-001"; po_total_cost := 240 |}];
     Part :=
       [sample_part "1HGCM82633A004352-001" "BRK-100" "Installed" 2 250;
        sample_part "2T1BURHE5JC034461-001" "FLT-200" "Ordered" 4 60];
     VehicleType := ["Convertible"; "SUV"; "Sedan"] |}.

Definition no_filters (r : string) : search_args :=
  {| vehicle_type := None; manufacturer := None; year := None;
     fuel_type := None; color := None; keyword := None; vin := None;
     vehicle_status := None; role := r |}.

(** Modelled from the spec: the primary keys of PartsOrder (order_number)
    and of Part (order_number, vendor_part_number), as the checks an INSERT
    passes. *)
Definition order_number_free (db : Database) (row : PartsOrderRow) : bool :=
  negb (existsb (fun po => po_order_number po =? po_order_number row)
                (PartsOrder db)).

Definition part_key_free (db : Database) (row : PartRow) : bool :=
  negb (existsb (part_key_is (p_order_number row) (p_vendor_parts_number row))
                (Part db)).

(** Exact decimals in the place of the Python numbers. *)
Definition sample_part_dict (number : string) (qty : Z) (price : Q) : part_dict Q :=
  {| vendor_part_number := number; part_description := "part";
     quantity := qty; part_status := "Ordered"; unit_price := price |}.

Definition sample_add_parts_order
  (db : Database) (vin vendor_name : string) (parts : list (part_dict Q))
  : bool * Database :=
  add_parts_order Q 0%Q Qplus (fun x k => (x * inject_Z k)%Q)
    (fun x d => Sql.ROUND x (Z.to_nat d)) (fun x => x)
    order_number_free part_key_free db vin vendor_name parts.

(** The listing of sold vehicles: vehicle_status "Sold" and no filter. *)
Definition sold_listing (r : string) : search_args :=
  {| vehicle_type := None; manufacturer := None; year := None;
     fuel_type := None; color := None; keyword := None; vin := None;
     vehicle_status := Some "Sold"; role := r |}.

(** A search for SUVs under a role outside the enumeration. *)
Definition admin_suv_search : search_args :=
  {| vehicle_type := Some "SUV"; manufacturer := None; year := None;
     fuel_type := None; color := None; keyword := None; vin := None;
     vehicle_status := None; role := "Admin" |}.

(** The same search by an Owner, and a search for blue vehicles under a
    role outside the enumeration. *)
Definition owner_suv_search : search_args :=
  {| vehicle_type := Some "SUV"; manufacturer := None; year := None;
     fuel_type := None; color := None; keyword := None; vin := None;
     vehicle_status := None; role := "Owner" |}.

Definition admin_blue_search : search_args :=
  {| vehicle_type := None; manufacturer := None; year := None;
     fuel_type := None; color := Some "Blue"; keyword := None; vin := None;
     vehicle_status := None; role := "Admin" |}.

(** Every SaleTransaction row references a Vehicle row. *)
Definition sales_reference_vehicles (db : Database) : Prop :=
  forall st, In st (SaleTransaction db) ->
             In (st_vin st) (map v_vin (Vehicle db)).

(** The sale and the purchase of a vehicle (the first row with its VIN;
    the only one under the keys of the schema). *)
Definition sale_of (db : Database) (vin : string) : option SaleRow :=
  find (fun st => vin =? st_vin st) (SaleTransaction db).

Definition purchase_of (db : Database) (vin : string) : option PurchaseRow :=
  find (fun pt => vin =? pt_vin pt) (PurchaseTransaction db).

(** The days in inventory, both ends counted, of a sold vehicle of the
    given type; nothing for another vehicle. *)
Definition days_of_vehicle (db : Database) (type : string) (v : VehicleRow)
  : list Q :=
  if v_type v =? type then
    match sale_of db (v_vin v), purchase_of db (v_vin v) with
    | Some st, Some pt =>
        [inject_Z (Sql.DATEDIFF (st_sold_on st) (pt_purchased_on pt) + 1)]
    | _, _ => []
    end
  else [].

Definition sold_inventory_days (db : Database) (type : string) : list Q :=
  flat_map (days_of_vehicle db type) (Vehicle db).

(** The keys of the type table and of the two transaction tables. *)
Definition report_keys (db : Database) : Prop :=
  NoDup (VehicleType db)
  /\ NoDup (map pt_vin (PurchaseTransaction db))
  /\ NoDup (map st_vin (SaleTransaction db)).

(* ===================================================================== *)
(** * Sample calls *)
(* ===================================================================== *)

Definition manager_suv_search : search_args :=
  {| vehicle_type := Some "SUV"; manufacturer := None; year := None;
     fuel_type := None; color := None; keyword := None; vin := None;
     vehicle_status := None; role := "Manager" |}.

Definition owner_black_search : search_args :=
  {| vehicle_type := None; manufacturer := None; year := None;
     fuel_type := None; color := Some "Black"; keyword := None; vin := None;
     vehicle_status := None; role := "Owner" |}.

(** A search typed in small letters. *)
Definition manager_lowercase_search : search_args :=
  {| vehicle_type := Some "suv"; manufacturer := Some "HONDA"; year := None;
     fuel_type := Some "gas"; color := None; keyword := Some "accord";
     vin := Some "2t1burhe5jc034461";
     vehicle_status := None; role := "Manager" |}.

(** Three sedans whose VINs were typed in different letter case. *)
Definition mixed_case_db : Database :=
  {| Vehicle :=
       [sample_vehicle "JH4KA7561PC008269" "Sedan" None;
        sample_vehicle "jh4da9350ls000001" "Sedan" None;
        sample_vehicle "1hgcm82633a004352" "Sedan" None];
     VehicleColor := [];
     SaleTransaction := [];
     PurchaseTransaction :=
       [sample_purchase "JH4KA7561PC008269" 10000 739000;
        sample_purchase "jh4da9350ls000001" 10001 739001;
        sample_purchase "1hgcm82633a004352" 10001 739000];
     PartsOrder := [];
     Part := [];
     VehicleType := ["Sedan"] |}.

(** The same search under another role and vehicle status. *)
Definition with_role (r : string) (status : option string) (a : search_args)
  : search_args :=
  {| vehicle_type := vehicle_type a; manufacturer := manufacturer a;
     year := year a; fuel_type := fuel_type a; color := color a;
     keyword := keyword a; vin := vin a; vehicle_status := status;
     role := r |}.

(** The keys of Vehicle, SaleTransaction and PurchaseTransaction: one row
    per VIN. *)
Definition vehicle_keys (db : Database) : Prop :=
  NoDup (map v_vin (Vehicle db))
  /\ NoDup (map st_vin (SaleTransaction db))
  /\ NoDup (map pt_vin (PurchaseTransaction db)).

(* ===================================================================== *)
(** * The parts section of [pages/details.py] *)
(* ===================================================================== *)

(** The statuses the page offers for a part, from its displayed status
    ([status_options] in [vehicle_details_page]). *)
Definition status_options (part_status : string) : list string :=
  if part_status =? "Ordered" then ["Received"; "Installed"]
  else if part_status =? "Received" then ["Installed"]
  else [].

(* ===================================================================== *)
(** * Vehicle details: [get_vehicle_details_for_public],
      [get_vehicle_details], [get_vehicle_details_for_sale] *)
(* ===================================================================== *)

(** The three queries read the FROM clause of [search_vehicles]; they add
    [st.sold_on] to the select list and to the GROUP BY columns. *)
Definition same_detail_group (a b : jrow) : bool :=
  same_group a b
  && Sql.opt_same Z.eqb (option_map st_sold_on (j_st a))
                        (option_map st_sold_on (j_st b)).

(** A fetched row: the columns of [search_vehicles] and SaleDate. *)
Record DetailRow := {
  d_columns : ResultRow;
  SaleDate : option Z
}.

Definition detail_select (g : jrow * list jrow) : DetailRow :=
  {| d_columns := select_list g;
     SaleDate := option_map st_sold_on (j_st (fst g)) |}.

Definition detail_column_names : list string :=
  ["VIN"; "VehicleType"; "Manufacturer"; "Model"; "Year"; "FuelType";
   "Colors"; "Horsepower"; "SalePrice"; "SaleDate"; "PurchasePrice";
   "PurchaseDate"; "TotalPartsCost"; "Description"].

Definition detail_cells (r : DetailRow) : list cell :=
  let c := d_columns r in
  [Text (VIN c); Text (VehicleType_ c); Text (Manufacturer c); Text (Model c);
   Int (Year c); Text (FuelType c); opt_cell Text (Colors c);
   Int (Horsepower c); opt_cell Dec (SalePrice c); opt_cell Date (SaleDate r);
   opt_cell Dec (PurchasePrice c); opt_cell Date (PurchaseDate c);
   Dec (TotalPartsCost c); opt_cell Text (Description c)].

Definition detail_frame (rows : list DetailRow) : DataFrame :=
  {| columns := detail_column_names; data := map detail_cells rows |}.

(** [pd.melt(df, var_name="Attribute", value_name="Value")] without
    identifier columns: one row per column and per row of the frame, column
    by column. *)
Definition melt (df : DataFrame) : DataFrame :=
  {| columns := ["Attribute"; "Value"];
     data := flat_map (fun name =>
                         map (fun row => [Text name; cell_at (columns df) row name])
                             (data df))
                      (columns df) |}.

(** The rows fetched under a WHERE clause: GROUP BY and ORDER BY VIN. *)
Definition detail_rows (db : Database) (ws : list cond) : list DetailRow :=
  Sql.order_by (fun r => VIN (d_columns r))
    (map detail_select
       (Sql.group_by same_detail_group
          (where_rows db (Some ws) (from_clause db [])))).

(** [if vin: query += " AND v.vehicle_identification_number = :vin"] *)
Definition vin_conds (vin : option string) : list cond :=
  and_conds (plain_filter vin stored_vin_is).

Definition public_detail_columns : list string :=
  ["VIN"; "VehicleType"; "Manufacturer"; "Model"; "Year"; "FuelType";
   "Colors"; "Horsepower"; "Description"; "SalePrice"].

Definition full_detail_columns : list string :=
  ["VIN"; "VehicleType"; "Manufacturer"; "Model"; "Year"; "FuelType";
   "Colors"; "Horsepower"; "Description"; "TotalPartsCost"; "PurchasePrice";
   "PurchaseDate"; "SalePrice"; "SaleDate"].

(** The projection and [pd.melt] at the end of both functions. *)
Definition detail_view (r : string) (df : DataFrame) : DataFrame :=
  if (r =? "Public") || (r =? "Salesperson")
  then melt (select_columns public_detail_columns df)
  else melt (select_columns full_detail_columns df).

(** The role clause of [get_vehicle_details_for_public]. *)
Definition public_detail_where (r : string) : list cond :=
  if py_in r ["Public"; "Salesperson"] then
    [sale_price_is_null; no_pending_parts]
  else if py_in r ["Manager"; "Owner"] then [always]
  else [sale_price_is_null].

Definition get_vehicle_details_for_public_rows
  (db : Database) (vin : option string) (r : string) : list DetailRow :=
  detail_rows db (public_detail_where r ++ vin_conds vin).

Definition get_vehicle_details_for_public
  (db : Database) (vin : option string) (r : string) : DataFrame :=
  detail_view r (detail_frame (get_vehicle_details_for_public_rows db vin r)).

(** The role clause of [get_vehicle_details]. *)
Definition detail_where (r : string) : list cond :=
  if py_in r ["Public"; "Salesperson"] then
    [sale_price_is_null; no_pending_parts]
  else [sale_price_is_null].

Definition get_vehicle_details_rows
  (db : Database) (vin : option string) (r : string) : list DetailRow :=
  detail_rows db (detail_where r ++ vin_conds vin).

Definition get_vehicle_details
  (db : Database) (vin : option string) (r : string) : DataFrame :=
  detail_view r (detail_frame (get_vehicle_details_rows db vin r)).

(** [df.empty] *)
Definition frame_empty (df : DataFrame) : bool :=
  match data df with
  | [] => true
  | _ => match columns df with [] => true | _ => false end
  end.

(** ** [get_vehicle_details_for_sale] *)

(** [v.vehicle_identification_number NOT IN (SELECT ... FROM
    SaleTransaction)] on a joined row. *)
Definition vin_not_sold : cond :=
  fun db r => not_in_sales db (v_vin (j_v r)).

(** GROUP BY of the query: the columns of the details and [v.condition]. *)
Definition same_sale_group (a b : jrow) : bool :=
  same_detail_group a b && (v_condition (j_v a) =? v_condition (j_v b)).

(** The dictionary the function returns. *)
Record sale_details := {
  sd_VIN : string;
  sd_VehicleType : string;
  sd_Manufacturer : string;
  sd_Model : string;
  sd_Year : Z;
  sd_FuelType : string;
  sd_Horsepower : Z;
  sd_Colors : option string;
  sd_Condition : string;
  sd_Description : option string;
  sd_PurchasePrice : option Q;
  sd_PurchaseDate : option Z;
  sd_SalePrice : option Q
}.

Definition sale_details_of (g : jrow * list jrow) : sale_details :=
  let r := select_list g in
  {| sd_VIN := VIN r;
     sd_VehicleType := VehicleType_ r;
     sd_Manufacturer := Manufacturer r;
     sd_Model := Model r;
     sd_Year := Year r;
     sd_FuelType := FuelType r;
     sd_Horsepower := Horsepower r;
     sd_Colors := Colors r;
     sd_Condition := v_condition (j_v (fst g));
     sd_Description := Description r;
     sd_PurchasePrice := PurchasePrice r;
     sd_PurchaseDate := PurchaseDate r;
     sd_SalePrice := SalePrice r |}.

(** [fetchone()] on the grouped rows; [None] when there is none. *)
Definition get_vehicle_details_for_sale (db : Database) (vin : string)
  : option sale_details :=
  match Sql.group_by same_sale_group
          (where_rows db (Some [stored_vin_is vin; vin_not_sold]) (from_clause db []))
  with
  | [] => None
  | g :: _ => Some (sale_details_of g)
  end.

(* ===================================================================== *)
(** * [record_sale] *)
(* ===================================================================== *)

Definition with_sales (db : Database) (sales : list SaleRow) : Database :=
  {| Vehicle := Vehicle db;
     VehicleColor := VehicleColor db;
     SaleTransaction := sales;
     PurchaseTransaction := PurchaseTransaction db;
     PartsOrder := PartsOrder db;
     Part := Part db;
     VehicleType := VehicleType db |}.

Section RecordSale.

(** Whether the engine accepts the INSERT into SaleTransaction. *)
Variable sale_accepted : Database -> SaleRow -> bool.

(** [record_sale]: the result and the tables after the call.  The sale
    price and the date arrive as the decimal and the day they are stored
    as. *)
Definition record_sale
  (db : Database) (vin : string) (customer_identifier : Z) (username : string)
  (sale_date : Z) (sale_price : Q) : bool * Database :=
  let row := {| st_vin := vin; st_username := username;
                st_customer := customer_identifier;
                st_sale_price := sale_price; st_sold_on := sale_date |} in
  if sale_accepted db row
  then (true, with_sales db (SaleTransaction db ++ [row]))
  else (false, db).

End RecordSale.

(** Modelled from the spec: at most one SaleTransaction per vehicle, as the
    check an INSERT passes. *)
Definition sale_key_free (db : Database) (row : SaleRow) : bool :=
  not_in_sales db (st_vin row).

(* ===================================================================== *)
(** * [add_vehicle], [add_vehicle_colors], [add_purchase_transaction],
      [add_vehicle_and_related_data] *)
(* ===================================================================== *)

Definition with_vehicles (db : Database) (vs : list VehicleRow) : Database :=
  {| Vehicle := vs;
     VehicleColor := VehicleColor db;
     SaleTransaction := SaleTransaction db;
     PurchaseTransaction := PurchaseTransaction db;
     PartsOrder := PartsOrder db;
     Part := Part db;
     VehicleType := VehicleType db |}.

Definition with_colors (db : Database) (cs : list VehicleColorRow) : Database :=
  {| Vehicle := Vehicle db;
     VehicleColor := cs;
     SaleTransaction := SaleTransaction db;
     PurchaseTransaction := PurchaseTransaction db;
     PartsOrder := PartsOrder db;
     Part := Part db;
     VehicleType := VehicleType db |}.

Definition with_purchases (db : Database) (ps : list PurchaseRow) : Database :=
  {| Vehicle := Vehicle db;
     VehicleColor := VehicleColor db;
     SaleTransaction := SaleTransaction db;
     PurchaseTransaction := ps;
     PartsOrder := PartsOrder db;
     Part := Part db;
     VehicleType := VehicleType db |}.

Section AddVehicle.

(** The purchase price is a Python number; its conversion to the DECIMAL
    column and the engine's acceptance of each INSERT are parameters. *)
Variable pynum : Type.
Variable to_decimal : pynum -> Q.
Variable vehicle_accepted : Database -> VehicleRow -> bool.
Variable color_accepted : Database -> VehicleColorRow -> bool.
Variable purchase_accepted : Database -> PurchaseRow -> bool.

(** [add_vehicle].  The INSERT is executed before [customer_id] is looked
    at; leaving the [with] block by [return False] lets the session
    manager commit it. *)
Definition add_vehicle
  (db : Database) (customer_id : option Z)
  (vin vehicle_type manufacturer condition model : string) (year : Z)
  (fuel_type : string) (horsepower : Z) (description : string)
  : bool * Database :=
  let row := {| v_vin := vin; v_type := vehicle_type;
                v_condition := condition; v_manufacturer := manufacturer;
                v_model := model; v_year := year; v_fuel := fuel_type;
                v_horsepower := horsepower;
                v_description := Some description |} in
  if vehicle_accepted db row then
    match customer_id with
    | None => (false, with_vehicles db (Vehicle db ++ [row]))
    | Some _ => (true, with_vehicles db (Vehicle db ++ [row]))
    end
  else (false, db).

(** The loop of [add_vehicle_colors] as a computation that may raise. *)
Fixpoint insert_colors (db : Database) (vin : string) (colors : list string)
  : option Database :=
  match colors with
  | [] => Some db
  | color :: colors' =>
      let row := {| vc_vin := vin; vc_color := color |} in
      if color_accepted db row
      then insert_colors (with_colors db (VehicleColor db ++ [row])) vin colors'
      else None
  end.

Definition add_vehicle_colors (db : Database) (vin : string)
  (colors : list string) : bool * Database :=
  match insert_colors db vin colors with
  | Some db' => (true, db')
  | None => (false, db)
  end.

Definition add_purchase_transaction
  (db : Database) (vin : string) (customer_id : Z) (username : string)
  (purchase_price : pynum) (purchase_date : Z) : bool * Database :=
  let row := {| pt_vin := vin; pt_username := username;
                pt_customer := customer_id;
                pt_purchase_price := to_decimal purchase_price;
                pt_purchased_on := purchase_date |} in
  if purchase_accepted db row
  then (true, with_purchases db (PurchaseTransaction db ++ [row]))
  else (false, db).

(** [add_vehicle_and_related_data]: the three functions one after the
    other, each in a session of its own.  Where [add_vehicle] returned
    [True] the customer id is not [None]. *)
Definition add_vehicle_and_related_data
  (db : Database)
  (vin vehicle_type manufacturer condition model : string) (year : Z)
  (fuel_type : string) (horsepower : Z) (color : list string)
  (customer_id : option Z) (username : string) (purchase_price : pynum)
  (purchase_date : Z) (description : string) : bool * Database :=
  let (vehicle_success, db1) :=
    add_vehicle db customer_id vin vehicle_type manufacturer condition model
                year fuel_type horsepower description in
  if vehicle_success then
    let (color_success, db2) := add_vehicle_colors db1 vin color in
    match customer_id with
    | Some id =>
        let (purchase_success, db3) :=
          add_purchase_transaction db2 vin id username purchase_price
                                   purchase_date in
        (color_success && purchase_success, db3)
    | None => (false, db2)
    end
  else (false, db1).

End AddVehicle.

(** Modelled from the spec: the primary keys of Vehicle (VIN), of
    VehicleColor (VIN and colour) and of PurchaseTransaction (VIN), as the
    checks an INSERT passes. *)
Definition vin_free (db : Database) (row : VehicleRow) : bool :=
  negb (py_in (v_vin row) (map v_vin (Vehicle db))).

Definition color_free (db : Database) (row : VehicleColorRow) : bool :=
  negb (existsb (fun c => (vc_vin c =? vc_vin row) && (vc_color c =? vc_color row))
                (VehicleColor db)).

Definition purchase_free (db : Database) (row : PurchaseRow) : bool :=
  negb (py_in (pt_vin row) (map pt_vin (PurchaseTransaction db))).

(** A sample call: a coupe with two colours, exact decimals in the place
    of the Python numbers and the keys as the checks of the engine. *)
Definition sample_add_vehicle (db : Database) (customer_id : option Z)
  (color : list string) : bool * Database :=
  add_vehicle_and_related_data Q (fun x => x) vin_free color_free purchase_free
    db "5YJSA1E26HF000001" "Coupe" "Tesla" "Good" "Model S" 2017 "Hybrid" 300
    color customer_id "clerk1" 9000 739030 "".

(* ===================================================================== *)
(** * Customers, users and vendors *)
(* ===================================================================== *)

(** The tables of the parties the dealership deals with.  Modelled from
    the spec: the schema script is not part of the sources.  The columns
    are those the statements of the controller name; a column for which
    [add_customer] may be handed [None] is nullable here, and what the
    engine makes of a NULL is part of the acceptance of the INSERT. *)

Record CustomerRow := {
  c_id : Z;
  c_email : option string;
  c_phone_number : string;
  c_address_street : string;
  c_address_city : string;
  c_address_state : string;
  c_address_postal_code : string
}.

Record IndividualCustomerRow := {
  ic_customer_id : Z;
  ic_first_name : string;
  ic_last_name : string;
  ic_ssn : option string            (* social_security_number *)
}.

Record BusinessCustomerRow := {
  bc_customer_id : Z;
  bc_business_name : option string;
  bc_tax_id : option string;        (* tax_identification_number *)
  bc_primary_contact_first_name : option string;
  bc_primary_contact_last_name : option string;
  bc_primary_contact_title : option string
}.

Record UserRow := {
  u_username : string;
  u_password : string;
  u_first_name : string;
  u_last_name : string;
  u_role : string
}.

Record VendorRow := {
  vn_name : string;
  vn_phone_number : string;
  vn_address_street : string;
  vn_address_city : string;
  vn_address_state : string;
  vn_address_postal_code : string
}.

Record Parties := {
  Customer : list CustomerRow;
  IndividualCustomer : list IndividualCustomerRow;
  BusinessCustomer : list BusinessCustomerRow;
  User : list UserRow;
  Vendor : list VendorRow
}.

Definition with_customers (ps : Parties) (cs : list CustomerRow) : Parties :=
  {| Customer := cs;
     IndividualCustomer := IndividualCustomer ps;
     BusinessCustomer := BusinessCustomer ps;
     User := User ps;
     Vendor := Vendor ps |}.

Definition with_individuals (ps : Parties) (ics : list IndividualCustomerRow)
  : Parties :=
  {| Customer := Customer ps;
     IndividualCustomer := ics;
     BusinessCustomer := BusinessCustomer ps;
     User := User ps;
     Vendor := Vendor ps |}.

Definition with_businesses (ps : Parties) (bcs : list BusinessCustomerRow)
  : Parties :=
  {| Customer := Customer ps;
     IndividualCustomer := IndividualCustomer ps;
     BusinessCustomer := bcs;
     User := User ps;
     Vendor := Vendor ps |}.

(** [SELECT ... UNION SELECT ...]: the rows of both, duplicates removed. *)
Definition UNION {A : Type} (same : A -> A -> bool) (l r : list A) : list A :=
  Sql.distinct same (l ++ r).

(** [col = :value] on a nullable column: NULL is equal to nothing. *)
Definition column_is (col : option string) (value : string) : bool :=
  match col with
  | Some s => s =? value
  | None => false
  end.

(** The values of a column over the rows [WHERE col IS NOT NULL]. *)
Definition not_null_values {R T : Type} (col : R -> option T) (rows : list R)
  : list T :=
  flat_map (fun r => match col r with Some v => [v] | None => [] end) rows.

(** [lookup_customers]: the identifiers the customer select boxes offer. *)
Definition lookup_customers (ps : Parties) : list string :=
  UNION String.eqb
    (not_null_values ic_ssn (IndividualCustomer ps))
    (not_null_values bc_tax_id (BusinessCustomer ps)).

(** [fetch_customer_id] *)
Definition fetch_customer_id (ps : Parties) (customer : string) : list Z :=
  UNION Z.eqb
    (map ic_customer_id
         (filter (fun r => column_is (ic_ssn r) customer) (IndividualCustomer ps)))
    (map bc_customer_id
         (filter (fun r => column_is (bc_tax_id r) customer) (BusinessCustomer ps))).

Section AddCustomer.

(** The value AUTO_INCREMENT gives the next Customer row (what
    LAST_INSERT_ID() then returns) and the engine's acceptance of each
    INSERT are parameters. *)
Variable last_insert_id : Parties -> Z.
Variable customer_accepted : Parties -> CustomerRow -> bool.
Variable individual_accepted : Parties -> IndividualCustomerRow -> bool.
Variable business_accepted : Parties -> BusinessCustomerRow -> bool.

(** [add_customer]: the returned id ([None] after a rollback) and the
    tables after the call.  The parameters are in the order of the Python
    signature. *)
Definition add_customer
  (ps : Parties)
  (customer_type first_name last_name phone street city state postal_code : string)
  (email social_security_number business_name tax_id_number
   primary_contact_name primary_contact_title : option string)
  : option Z * Parties :=
  let customer_id := last_insert_id ps in
  let row := {| c_id := customer_id; c_email := email;
                c_phone_number := phone; c_address_street := street;
                c_address_city := city; c_address_state := state;
                c_address_postal_code := postal_code |} in
  if customer_accepted ps row then
    let ps1 := with_customers ps (Customer ps ++ [row]) in
    if customer_type =? "Individual" then
      let ic := {| ic_customer_id := customer_id;
                   ic_first_name := first_name;
                   ic_last_name := last_name;
                   ic_ssn := social_security_number |} in
      if individual_accepted ps1 ic
      then (Some customer_id,
            with_individuals ps1 (IndividualCustomer ps1 ++ [ic]))
      else (None, ps)
    else if customer_type =? "Business" then
      let bc := {| bc_customer_id := customer_id;
                   bc_business_name := business_name;
                   bc_tax_id := tax_id_number;
                   bc_primary_contact_first_name := primary_contact_name;
                   bc_primary_contact_last_name := primary_contact_name;
                   bc_primary_contact_title := primary_contact_title |} in
      if business_accepted ps1 bc
      then (Some customer_id,
            with_businesses ps1 (BusinessCustomer ps1 ++ [bc]))
      else (None, ps)
    else (Some customer_id, ps1)
  else (None, ps).

(** A Python [dict] with string keys and values; [d.get(k)] is [None] for
    a key that is absent. *)
Definition py_get (d : list (string * string)) (k : string) : option string :=
  option_map snd (find (fun kv => fst kv =? k) d).

(** [d[k]]: the same lookup, where [None] stands for the KeyError raised
    for a key that is absent. *)
Definition subscript (d : list (string * string)) (k : string) : option string :=
  py_get d k.

(** [d.update(u)]: the entries of [u] come to be found first. *)
Definition py_update (d u : list (string * string)) : list (string * string) :=
  u ++ d.

(** [add_new_customer] of [pages/add_vehicle.py]; the outer [None] is the
    KeyError of a subscript.  The arguments are handed to [add_customer] by
    position, in the order written in the call. *)
Definition add_new_customer
  (ps : Parties) (customer_type : string) (customer_data : list (string * string))
  : option (option Z * Parties) :=
  match subscript customer_data "first_name",
        subscript customer_data "last_name",
        subscript customer_data "email",
        subscript customer_data "phone",
        subscript customer_data "street",
        subscript customer_data "city",
        subscript customer_data "state",
        subscript customer_data "postal_code" with
  | Some a1, Some a2, Some a3, Some a4, Some a5, Some a6, Some a7, Some a8 =>
      Some (add_customer ps customer_type a1 a2 a3 a4 a5 a6 a7
              (Some a8)
              (py_get customer_data "social_security_number")
              (py_get customer_data "business_name")
              (py_get customer_data "tax_id_number")
              (py_get customer_data "primary_contact_name")
              (py_get customer_data "primary_contact_title"))
  | _, _, _, _, _, _, _, _ => None
  end.

(** The input fields of the expander "Add Customer" ("Add Buyer" on the
    sell page). *)
Record customer_form := {
  customer_email : string;
  customer_phone : string;
  address_street : string;
  address_city : string;
  address_state : string;
  address_postal_code : string;
  customer_type_ : string;
  first_name_ : string;
  last_name_ : string;
  social_security_number_ : string;
  business_name_ : string;
  tax_id_number_ : string;
  primary_contact_name_ : string;
  primary_contact_title_ : string
}.

(** The [customer_data] the two pages build when the button is pressed. *)
Definition customer_data_of (f : customer_form) : list (string * string) :=
  let customer_data :=
    [("customer_type", customer_type_ f);
     ("email", customer_email f);
     ("phone", customer_phone f);
     ("street", address_street f);
     ("city", address_city f);
     ("state", address_state f);
     ("postal_code", address_postal_code f)] in
  if customer_type_ f =? "Individual" then
    py_update customer_data
      [("first_name", first_name_ f);
       ("last_name", last_name_ f);
       ("social_security_number", social_security_number_ f)]
  else if customer_type_ f =? "Business" then
    py_update customer_data
      [("business_name", business_name_ f);
       ("tax_id_number", tax_id_number_ f);
       ("primary_contact_name", primary_contact_name_ f);
       ("primary_contact_title", primary_contact_title_ f)]
  else customer_data.

(** What pressing "Publish Customer" does to the tables: [None] when an
    exception leaves the page, otherwise the customer id of the page
    ([None] when a field is empty or the insert failed) and the tables. *)
Definition publish_customer (ps : Parties) (f : customer_form)
  : option (option Z * Parties) :=
  let customer_data := customer_data_of f in
  if forallb (fun kv => negb (snd kv =? "")) customer_data
  then add_new_customer ps (customer_type_ f) customer_data
  else Some (None, ps).

End AddCustomer.

(** Modelled from the spec: the keys of the customer tables, as the checks
    an INSERT passes (the id of Customer, the SSN and the tax id, both NOT
    NULL), and the next id as one more than the largest id. *)
Definition next_customer_id (ps : Parties) : Z :=
  fold_right Z.max 0%Z (map c_id (Customer ps)) + 1.

Definition customer_id_free (ps : Parties) (row : CustomerRow) : bool :=
  negb (existsb (fun c => (c_id c =? c_id row)%Z) (Customer ps)).

Definition ssn_free (ps : Parties) (row : IndividualCustomerRow) : bool :=
  match ic_ssn row with
  | Some s => negb (existsb (fun r => column_is (ic_ssn r) s) (IndividualCustomer ps))
  | None => false
  end.

Definition tax_id_free (ps : Parties) (row : BusinessCustomerRow) : bool :=
  match bc_tax_id row with
  | Some s => negb (existsb (fun r => column_is (bc_tax_id r) s) (BusinessCustomer ps))
  | None => false
  end.

(** The keys the resolution of an identifier depends on: no SSN and no
    tax id is stored twice, and no SSN is the tax id of a business. *)
Definition customer_keys (ps : Parties) : Prop :=
  NoDup (not_null_values ic_ssn (IndividualCustomer ps)
         ++ not_null_values bc_tax_id (BusinessCustomer ps)).

Definition sample_parties : Parties :=
  {| Customer :=
       [{| c_id := 1; c_email := Some "ann@example.org";
           c_phone_number := "555-0101"; c_address_street := "1 Elm St";
           c_address_city := "Atlanta"; c_address_state := "GA";
           c_address_postal_code := "30301" |};
        {| c_id := 2; c_email := None;
           c_phone_number := "555-0102"; c_address_street := "2 Oak Ave";
           c_address_city := "Macon"; c_address_state := "GA";
           c_address_postal_code := "31201" |}];
     IndividualCustomer :=
       [{| ic_customer_id := 1; ic_first_name := "Ann"; ic_last_name := "Lee";
           ic_ssn := Some "123-45-6789" |}];
     BusinessCustomer :=
       [{| bc_customer_id := 2; bc_business_name := Some "Peach Motors";
           bc_tax_id := Some "98-7654321";
           bc_primary_contact_first_name := Some "Bo";
           bc_primary_contact_last_name := Some "Ray";
           bc_primary_contact_title := Some "Buyer" |}];
     User :=
       [{| u_username := "clerk1"; u_password := "pw1"; u_first_name := "Cy";
           u_last_name := "Dunn"; u_role := "Inventory clerk" |};
        {| u_username := "sales1"; u_password := "pw2"; u_first_name := "Di";
           u_last_name := "Ents"; u_role := "Salesperson" |}];
     Vendor :=
       [{| vn_name := "Acme Parts"; vn_phone_number := "555-0200";
           vn_address_street := "9 Mill Rd"; vn_address_city := "Athens";
           vn_address_state := "GA"; vn_address_postal_code := "30601" |}] |}.

Definition sample_individual_form : customer_form :=
  {| customer_email := "eve@example.org"; customer_phone := "555-0103";
     address_street := "3 Pine Ct"; address_city := "Rome";
     address_state := "GA"; address_postal_code := "30161";
     customer_type_ := "Individual";
     first_name_ := "Eve"; last_name_ := "Finn";
     social_security_number_ := "222-33-4444";
     business_name_ := ""; tax_id_number_ := "";
     primary_contact_name_ := ""; primary_contact_title_ := "" |}.

Definition sample_business_form : customer_form :=
  {| customer_email := "cars@example.org"; customer_phone := "555-0104";
     address_street := "4 Bay Dr"; address_city := "Savannah";
     address_state := "GA"; address_postal_code := "31401";
     customer_type_ := "Business";
     first_name_ := ""; last_name_ := "";
     social_security_number_ := "";
     business_name_ := "Tidewater Autos"; tax_id_number_ := "11-2223334";
     primary_contact_name_ := "Gil Hart"; primary_contact_title_ := "Owner" |}.

(* ===================================================================== *)
(** * [get_purchase_details], [get_sale_details] *)
(* ===================================================================== *)

(** [CONCAT(address_street, ', ', address_city, ', ', address_state, ' ',
            address_postal_code)] *)
Definition FullAddress (c : CustomerRow) : string :=
  (c_address_street c ++ ", " ++ c_address_city c ++ ", "
   ++ c_address_state c ++ " " ++ c_address_postal_code c)%string.

(** [SELECT ... FROM Customer WHERE id = :customer_id] and [fetchone()]. *)
Definition customer_result (ps : Parties) (customer_id : Z) : option CustomerRow :=
  find (fun c => (c_id c =? customer_id)%Z) (Customer ps).

(** [SELECT ... FROM User WHERE username = :username] and [fetchone()]. *)
Definition user_result (ps : Parties) (username : string) : option UserRow :=
  find (fun u => u_username u =? username) (User ps).

(** [get_purchase_details]: the returned dict as its items in order. *)
Definition get_purchase_details (db : Database) (ps : Parties) (vin : string)
  : option (list (string * cell)) :=
  match find (fun pt => pt_vin pt =? vin) (PurchaseTransaction db) with
  | None => None
  | Some purchase_result =>
      match customer_result ps (pt_customer purchase_result),
            user_result ps (pt_username purchase_result) with
      | Some c, Some u =>
          Some [("External Seller Email", opt_cell Text (c_email c));
                ("External Seller Phone", Text (c_phone_number c));
                ("External Seller Address", Text (FullAddress c));
                ("Inventory Clerk First Name", Text (u_first_name u));
                ("Inventory Clerk Last Name", Text (u_last_name u));
                ("Inventory Clerk Username", Text (u_username u))]
      | _, _ => None
      end
  end.

(** [get_sale_details] *)
Definition get_sale_details (db : Database) (ps : Parties) (vin : string)
  : option (list (string * cell)) :=
  match find (fun st => st_vin st =? vin) (SaleTransaction db) with
  | None => None
  | Some sale_result =>
      match customer_result ps (st_customer sale_result),
            user_result ps (st_username sale_result) with
      | Some c, Some u =>
          Some [("Customer Email", opt_cell Text (c_email c));
                ("Customer Phone", Text (c_phone_number c));
                ("Customer Address", Text (FullAddress c));
                ("Seller First Name", Text (u_first_name u));
                ("Seller Last Name", Text (u_last_name u));
                ("Seller Username", Text (u_username u))]
      | _, _ => None
      end
  end.

(** Every transaction names a stored customer and a stored user. *)
Definition transactions_reference_parties (db : Database) (ps : Parties) : Prop :=
  (forall st, In st (SaleTransaction db) ->
              In (st_customer st) (map c_id (Customer ps))
              /\ In (st_username st) (map u_username (User ps)))
  /\ (forall pt, In pt (PurchaseTransaction db) ->
                 In (pt_customer pt) (map c_id (Customer ps))
                 /\ In (pt_username pt) (map u_username (User ps))).

(* ===================================================================== *)
(** * [get_vehicle_parts] and the parts section of the details page *)
(* ===================================================================== *)

(** A fetched row of [get_vehicle_parts], by the labels of its dict. *)
Record PartListing := {
  OrderNumber : string;
  VendorPartNumber : string;
  PartDescription : string;
  Quantity : Z;
  PartStatus : string;
  UnitPrice : Q;
  VendorName : string
}.

Definition get_vehicle_parts (db : Database) (ps : Parties) (vin : string)
  : list PartListing :=
  let j1 := Sql.inner_join (fun po p => po_order_number po =? p_order_number p)
                           (PartsOrder db) (Part db) in
  let j2 := Sql.inner_join (fun (l : PartsOrderRow * PartRow) v =>
                              po_vendor (fst l) =? vn_name v)
                           j1 (Vendor ps) in
  map (fun r : PartsOrderRow * PartRow * VendorRow =>
         let '(po, p, v) := r in
         {| OrderNumber := po_order_number po;
            VendorPartNumber := p_vendor_parts_number p;
            PartDescription := p_description p;
            Quantity := p_quantity p;
            PartStatus := p_status p;
            UnitPrice := p_unit_price p;
            VendorName := vn_name v |})
      (filter (fun r : PartsOrderRow * PartRow * VendorRow =>
                 po_vin (fst (fst r)) =? vin)
              j2).



(** The key of Part: order number and vendor part number. *)
Definition part_keys (db : Database) : Prop :=
  NoDup (map (fun p => (p_order_number p, p_vendor_parts_number p)) (Part db)).

(* ===================================================================== *)
(** * [price_per_condition_report] *)
(* ===================================================================== *)

(** A row of [Vehicle v LEFT JOIN PurchaseTransaction pt]. *)
Record ppc_jrow := {
  ppc_v : VehicleRow;
  ppc_pt : option PurchaseRow
}.

Definition ppc_from (db : Database) : list ppc_jrow :=
  map (fun r : VehicleRow * option PurchaseRow =>
         {| ppc_v := fst r; ppc_pt := snd r |})
      (Sql.left_join (fun v pt => v_vin v =? pt_vin pt)
                     (Vehicle db) (PurchaseTransaction db)).

(** The non-NULL values of
    [CASE WHEN v.condition = c THEN pt.purchase_price END] over a group. *)
Definition condition_prices (c : string) (g : list ppc_jrow) : list Q :=
  flat_map (fun r =>
              if v_condition (ppc_v r) =? c then
                match ppc_pt r with
                | Some pt => [pt_purchase_price pt]
                | None => []
                end
              else []) g.

Record PpcRow := {
  ppc_VehicleType : string;
  Excellent : Q;
  VeryGood : Q;
  Good : Q;
  Fair : Q
}.

(** Modelled from the spec: the schema script is not part of the sources;
    an amount of money is taken as a DECIMAL with two decimals, the
    decimals to which amounts are rounded throughout (the asking price,
    the total cost of a parts order). *)
Definition money_decimals : nat := 2.

(** [COALESCE(AVG(CASE ...), 0)], fetched with the decimals of the AVG
    column: those of the prices and four more. *)
Definition condition_average (c : string) (g : list ppc_jrow) : Q :=
  Sql.ROUND (Sql.IFNULL (Sql.AVG (condition_prices c g)) 0%Q)
            (money_decimals + 4).

Definition ppc_select (g : ppc_jrow * list ppc_jrow) : PpcRow :=
  {| ppc_VehicleType := v_type (ppc_v (fst g));
     Excellent := condition_average "Excellent" (snd g);
     VeryGood := condition_average "Very Good" (snd g);
     Good := condition_average "Good" (snd g);
     Fair := condition_average "Fair" (snd g) |}.

(** The rows fetched by [price_per_condition_report]. *)
Definition ppc_rows (db : Database) : list PpcRow :=
  Sql.order_by ppc_VehicleType
    (map ppc_select
       (Sql.group_by (fun a b => v_type (ppc_v a) =? v_type (ppc_v b))
                     (ppc_from db))).

Definition price_per_condition_report (db : Database) : DataFrame :=
  {| columns := ["Vehicle Type"; "Excellent"; "Very Good"; "Good"; "Fair"];
     data := map (fun r => [Text (ppc_VehicleType r); Dec (Excellent r);
                            Dec (VeryGood r); Dec (Good r); Dec (Fair r)])
                 (ppc_rows db) |}.

(** The mean of a list of amounts. *)
Definition mean (amounts : list Q) : Q :=
  fold_right Qplus 0%Q amounts / inject_Z (Z.of_nat (List.length amounts)).

(** A cell shows the mean of the prices to six decimals: it is a number
    of millionths, at most half a millionth away from the mean, and 0
    when there is no price. *)
Definition shows_mean (prices : list Q) (cell : Q) : Prop :=
  (exists n : Z, cell = n # 1000000)
  /\ match prices with
     | [] => (cell == 0)%Q
     | _ => (mean prices - (1 # 2000000) <= cell)%Q
            /\ (cell <= mean prices + (1 # 2000000))%Q
     end.

(** The purchase prices paid for the vehicles of a type in a condition:
    one value per purchase row of such a vehicle. *)
Definition purchase_prices (db : Database) (type condition : string) : list Q :=
  flat_map (fun v =>
              if (v_type v =? type) && (v_condition v =? condition)
              then map pt_purchase_price
                       (filter (fun pt => v_vin v =? pt_vin pt)
                               (PurchaseTransaction db))
              else [])
           (Vehicle db).

(* ===================================================================== *)
(** * The filters of the search page *)
(* ===================================================================== *)

(** [utils/constants.py] *)
Definition VIN_ACCESS_ROLES : list string :=
  ["Inventory Clerk"; "Salesperson"; "Manager"; "Owner"].

Definition STATUS_ACCESS_ROLES : list string := ["Manager"; "Owner"].

(** The values of the input widgets of [display_search_form]; a widget
    that is not shown leaves its value unused. *)
Record search_widgets := {
  w_vehicle_type : string;
  w_manufacturer : string;
  w_year : year_arg;
  w_fuel_type : string;
  w_color : string;
  w_keyword : string;
  w_vin : string;
  w_vehicle_status : string
}.

(** [display_search_form] followed by the call of [search_vehicles] in
    [search_page]: the arguments the page passes. *)
Definition search_page_args
  (w : search_widgets) (is_logged_in : bool) (user_role : string) : search_args :=
  let vin :=
    if is_logged_in && py_in user_role VIN_ACCESS_ROLES
    then Some (w_vin w) else None in
  let vehicle_status :=
    if is_logged_in && py_in user_role STATUS_ACCESS_ROLES
    then Some (w_vehicle_status w) else None in
  {| vehicle_type := Some (w_vehicle_type w);
     manufacturer := Some (w_manufacturer w);
     year := Some (w_year w);
     fuel_type := Some (w_fuel_type w);
     color := Some (w_color w);
     keyword := Some (w_keyword w);
     vin := if truthy vin then vin else None;
     vehicle_status := if truthy vehicle_status then vehicle_status else None;
     role := user_role |}.

Definition sample_widgets : search_widgets :=
  {| w_vehicle_type := "Any"; w_manufacturer := "Any"; w_year := YearAny;
     w_fuel_type := "Any"; w_color := "Any"; w_keyword := "";
     w_vin := "1HGCM82633A004352"; w_vehicle_status := "All Vehicles" |}.

(* ===================================================================== *)
(** * [monthly_sales_summary] *)
(* ===================================================================== *)

Section OrderByLe.
Context {A : Type} (le : A -> A -> bool).

Fixpoint insert_by (x : A) (l : list A) : list A :=
  match l with
  | [] => [x]
  | y :: l' => if le x y then x :: l else y :: insert_by x l'
  end.

(** [ORDER BY] on keys compared by [le]. *)
Definition order_by_le (l : list A) : list A := fold_right insert_by [] l.
End OrderByLe.

(** A row of [SaleTransaction st JOIN PurchaseTransaction pt LEFT JOIN
    (... GROUP BY po.vehicle_identification_number) po]; the derived table
    is the one of [search_vehicles]. *)
Record ms_jrow := {
  ms_st : SaleRow;
  ms_pt : PurchaseRow;
  ms_po : option PoAggRow
}.

Definition ms_from (db : Database) : list ms_jrow :=
  let j1 := Sql.inner_join (fun st pt => st_vin st =? pt_vin pt)
                           (SaleTransaction db) (PurchaseTransaction db) in
  let j2 := Sql.left_join (fun (l : SaleRow * PurchaseRow) po =>
                             st_vin (fst l) =? agg_vin po)
                          j1 (po_aggregated db) in
  map (fun r : SaleRow * PurchaseRow * option PoAggRow =>
         let '(st, pt, po) := r in
         {| ms_st := st; ms_pt := pt; ms_po := po |})
      j2.

Record MonthlyRow := {
  ms_Year : Z;
  ms_Month : Z;
  VehiclesSold : nat;
  GrossSalesIncome : option Q;
  NetIncome : option Q
}.

(** [st.sale_price - pt.purchase_price - IFNULL(po.total_cost, 0)] *)
Definition net_income (r : ms_jrow) : Q :=
  st_sale_price (ms_st r) - pt_purchase_price (ms_pt r)
  - Sql.IFNULL (match ms_po r with
                | Some po => agg_TotalPartsCost po
                | None => None
                end) 0.

(** [ORDER BY Year DESC, Month DESC]: [a] is not after [b]. *)
Definition month_desc (a b : MonthlyRow) : bool :=
  (ms_Year b <? ms_Year a)%Z
  || ((ms_Year a =? ms_Year b)%Z && (ms_Month b <=? ms_Month a)%Z).

Section MonthlySales.

(** The calendar of the day numbers: [YEAR(d)] and [MONTH(d)]. *)
Variable YEAR : Z -> Z.
Variable MONTH : Z -> Z.

Definition in_month (y m : Z) (st : SaleRow) : bool :=
  (YEAR (st_sold_on st) =? y)%Z && (MONTH (st_sold_on st) =? m)%Z.

(** [GROUP BY Year, Month] *)
Definition same_month (a b : ms_jrow) : bool :=
  in_month (YEAR (st_sold_on (ms_st a))) (MONTH (st_sold_on (ms_st a))) (ms_st b).

Definition ms_select (g : ms_jrow * list ms_jrow) : MonthlyRow :=
  {| ms_Year := YEAR (st_sold_on (ms_st (fst g)));
     ms_Month := MONTH (st_sold_on (ms_st (fst g)));
     VehiclesSold := List.length (snd g);
     GrossSalesIncome :=
       Sql.SUM (map (fun r => st_sale_price (ms_st r)) (snd g));
     NetIncome := Sql.SUM (map net_income (snd g)) |}.

(** The rows fetched by [monthly_sales_summary]. *)
Definition monthly_sales_rows (db : Database) : list MonthlyRow :=
  order_by_le month_desc
    (filter (fun r => (0 <? VehiclesSold r)%nat)
       (map ms_select (Sql.group_by same_month (ms_from db)))).

Definition monthly_sales_summary (db : Database) : DataFrame :=
  {| columns := ["Year"; "Month"; "Vehicles Sold"; "Gross Sales Income";
                 "Net Income"];
     data := map (fun r => [Int (ms_Year r); Int (ms_Month r);
                            Int (Z.of_nat (VehiclesSold r));
                            opt_cell Dec (GrossSalesIncome r);
                            opt_cell Dec (NetIncome r)])
                 (monthly_sales_rows db) |}.


End MonthlySales.


(* ===================================================================== *)
(** * [parts_statistics_report] *)
(* ===================================================================== *)

(** A row of [Vendor v JOIN PartsOrder po JOIN Part p]. *)
Record pst_jrow := {
  pst_v : VendorRow;
  pst_po : PartsOrderRow;
  pst_p : PartRow
}.

Definition pst_from (db : Database) (ps : Parties) : list pst_jrow :=
  let j1 := Sql.inner_join (fun v po => vn_name v =? po_vendor po)
                           (Vendor ps) (PartsOrder db) in
  let j2 := Sql.inner_join (fun (l : VendorRow * PartsOrderRow) p =>
                              po_order_number (snd l) =? p_order_number p)
                           j1 (Part db) in
  map (fun r : VendorRow * PartsOrderRow * PartRow =>
         let '(v, po, p) := r in
         {| pst_v := v; pst_po := po; pst_p := p |})
      j2.

Record PartsStatisticsRow := {
  pst_VendorName : string;
  TotalPartsQuantity : option Z;
  TotalAmountSpent : option Q
}.

(** [SUM(col)] over non-NULL integers; NULL on the empty bag. *)
Definition SUM_int (vals : list Z) : option Z :=
  match vals with
  | [] => None
  | _ => Some (fold_right Z.add 0%Z vals)
  end.

Definition pst_select (g : pst_jrow * list pst_jrow) : PartsStatisticsRow :=
  {| pst_VendorName := vn_name (pst_v (fst g));
     TotalPartsQuantity := SUM_int (map (fun r => p_quantity (pst_p r)) (snd g));
     TotalAmountSpent :=
       Sql.SUM (map (fun r => p_unit_price (pst_p r)
                              * inject_Z (p_quantity (pst_p r)))%Q (snd g)) |}.

(** [ORDER BY TotalAmountSpent DESC]: [a] is not after [b]; NULL sorts
    last. *)
Definition amount_desc (a b : PartsStatisticsRow) : bool :=
  match TotalAmountSpent a, TotalAmountSpent b with
  | Some x, Some y => Qle_bool y x
  | Some _, None => true
  | None, Some _ => false
  | None, None => true
  end.

(** The rows fetched by [parts_statistics_report]. *)
Definition parts_statistics_rows (db : Database) (ps : Parties)
  : list PartsStatisticsRow :=
  order_by_le amount_desc
    (map pst_select
       (Sql.group_by (fun a b => vn_name (pst_v a) =? vn_name (pst_v b))
                     (pst_from db ps))).

Definition parts_statistics_report (db : Database) (ps : Parties) : DataFrame :=
  {| columns := ["Vendor Name"; "Total Parts Quantity"; "Total Amount Spent"];
     data := map (fun r => [Text (pst_VendorName r);
                            opt_cell Int (TotalPartsQuantity r);
                            opt_cell Dec (TotalAmountSpent r)])
                 (parts_statistics_rows db ps) |}.

(** The parts ordered from a vendor: the parts of each of its orders. *)
Definition vendor_parts (db : Database) (name : string) : list PartRow :=
  flat_map (fun po => filter (fun p => po_order_number po =? p_order_number p)
                             (Part db))
           (filter (fun po => name =? po_vendor po) (PartsOrder db)).
(* ===================================================================== *)
(** * Properties of the relational operators *)
(* ===================================================================== *)

Module SqlFacts.
Import Sql.

(** ROUND returns a nearest value: its result is within half a unit of
    the last place. *)
Lemma round_half_away_close (y : Q) :
  (inject_Z (round_half_away y) - (1 # 2) <= y)%Q
  /\ (y <= inject_Z (round_half_away y) + (1 # 2))%Q.
Proof.
  unfold round_half_away. destruct (Qle_bool 0 y).
  - pose proof (Qfloor_le (y + (1 # 2))) as H1.
    pose proof (Qlt_floor (y + (1 # 2))) as H2.
    rewrite inject_Z_plus in H2. change (inject_Z 1) with 1%Q in H2.
    split; lra.
  - pose proof (Qfloor_le (- y + (1 # 2))) as H1.
    pose proof (Qlt_floor (- y + (1 # 2))) as H2.
    rewrite inject_Z_plus in H2. rewrite inject_Z_opp.
    change (inject_Z 1) with 1%Q in H2. split; lra.
Qed.

Lemma ROUND_2_close (x : Q) :
  (ROUND x 2 - (1 # 200) <= x)%Q /\ (x <= ROUND x 2 + (1 # 200))%Q.
Proof.
  change (ROUND x 2) with (round_half_away (x * inject_Z 100) # 100).
  destruct (round_half_away_close (x * inject_Z 100)) as (H1 & H2).
  set (r := round_half_away (x * inject_Z 100)) in *.
  assert (E : (r # 100 == inject_Z r * (1 # 100))%Q).
  { unfold Qeq, inject_Z, Qmult. simpl. lia. }
  change (inject_Z 100) with (100 # 1) in *. split.
  - apply Qle_trans with (inject_Z r * (1 # 100) - (1 # 200))%Q;
      [setoid_rewrite E; lra|lra].
  - apply Qle_trans with (inject_Z r * (1 # 100) + (1 # 200))%Q;
      [lra|setoid_rewrite E; lra].
Qed.

Lemma ROUND_6_close (x : Q) :
  (ROUND x 6 - (1 # 2000000) <= x)%Q /\ (x <= ROUND x 6 + (1 # 2000000))%Q.
Proof.
  change (ROUND x 6) with (round_half_away (x * inject_Z 1000000) # 1000000).
  destruct (round_half_away_close (x * inject_Z 1000000)) as (H1 & H2).
  set (r := round_half_away (x * inject_Z 1000000)) in *.
  assert (E : (r # 1000000 == inject_Z r * (1 # 1000000))%Q).
  { unfold Qeq, inject_Z, Qmult. simpl. lia. }
  change (inject_Z 1000000) with (1000000 # 1) in *. split.
  - apply Qle_trans with (inject_Z r * (1 # 1000000) - (1 # 2000000))%Q;
      [setoid_rewrite E; lra|lra].
  - apply Qle_trans with (inject_Z r * (1 # 1000000) + (1 # 2000000))%Q;
      [lra|setoid_rewrite E; lra].
Qed.

(** Halves go away from zero. *)
Lemma ROUND_half_examples :
  ROUND (5 # 1000) 2 = 1 # 100 /\ ROUND (- 5 # 1000) 2 = (- 1) # 100
  /\ ROUND (4 # 1000) 2 = 0 # 100.
Proof. repeat split; reflexivity. Qed.

Section Joins.
Context {A B : Type} (on : A -> B -> bool).

Lemma in_left_join (l : list A) (r : list B) (a : A) (ob : option B) :
  In (a, ob) (left_join on l r) <->
  In a l /\
  match ob with
  | Some b => In b r /\ on a b = true
  | None => forall b, In b r -> on a b = false
  end.
Proof.
  unfold left_join. rewrite in_flat_map. split.
  - intros (a' & Ha' & Hin).
    destruct (filter (on a') r) as [|b0 bs] eqn:E.
    + destruct Hin as [Heq|[]]. inversion Heq; subst. split; [assumption|].
      intros b Hb. destruct (on a b) eqn:Hon; [|reflexivity].
      assert (In b (filter (on a) r)) as Hf by (apply filter_In; auto).
      rewrite E in Hf. destruct Hf.
    + apply in_map_iff in Hin. destruct Hin as (b & Heq & Hb).
      inversion Heq; subst. split; [assumption|].
      rewrite <- E in Hb. apply filter_In in Hb. exact Hb.
  - intros (Ha & Hob). exists a. split; [assumption|].
    destruct ob as [b|].
    + destruct Hob as (Hb & Hon).
      assert (In b (filter (on a) r)) as Hf by (apply filter_In; auto).
      destruct (filter (on a) r) as [|b0 bs] eqn:E; [destruct Hf|].
      apply in_map_iff. exists b. split; [reflexivity|assumption].
    + destruct (filter (on a) r) as [|b0 bs] eqn:E; [left; reflexivity|].
      assert (In b0 (filter (on a) r)) as Hf by (rewrite E; left; reflexivity).
      apply filter_In in Hf. destruct Hf as (Hb0 & Hon).
      rewrite (Hob b0 Hb0) in Hon. discriminate.
Qed.

(** A LEFT JOIN loses no left row. *)
Lemma left_join_total (l : list A) (r : list B) (a : A) :
  In a l -> exists ob, In (a, ob) (left_join on l r).
Proof.
  intros Ha. destruct (filter (on a) r) as [|b0 bs] eqn:E.
  - exists None. apply in_left_join. split; [assumption|].
    intros b Hb. destruct (on a b) eqn:Hon; [|reflexivity].
    assert (In b (filter (on a) r)) as Hf by (apply filter_In; auto).
    rewrite E in Hf. destruct Hf.
  - exists (Some b0). apply in_left_join. split; [assumption|].
    assert (In b0 (filter (on a) r)) as Hf by (rewrite E; left; reflexivity).
    apply filter_In in Hf. exact Hf.
Qed.

Lemma in_inner_join (l : list A) (r : list B) (a : A) (b : B) :
  In (a, b) (inner_join on l r) <-> In a l /\ In b r /\ on a b = true.
Proof.
  unfold inner_join. rewrite in_flat_map. split.
  - intros (a' & Ha' & Hin). apply in_map_iff in Hin.
    destruct Hin as (b' & Heq & Hb'). inversion Heq; subst.
    apply filter_In in Hb'. tauto.
  - intros (Ha & Hb & Hon). exists a. split; [assumption|].
    apply in_map_iff. exists b. split; [reflexivity|].
    apply filter_In. auto.
Qed.
End Joins.

Section DistinctFacts.
Context {A : Type} (same : A -> A -> bool).

Lemma distinct_incl (l : list A) (x : A) : In x (distinct same l) -> In x l.
Proof.
  induction l as [|y l IH]; simpl; [tauto|].
  intros [H|H]; [left; assumption|].
  apply filter_In in H. right. apply IH. apply H.
Qed.

(** Every row is represented on any column the grouping columns
    determine. *)
Lemma distinct_covers {K : Type} (f : A -> K) (l : list A) (x : A) :
  (forall a b, same a b = true -> f a = f b) ->
  In x l -> exists rep, In rep (distinct same l) /\ f rep = f x.
Proof.
  intros Hf. induction l as [|y l IH]; simpl; [tauto|].
  intros [H|H].
  - subst. exists x. auto.
  - destruct (IH H) as (rep & Hrep & Heq).
    destruct (same y rep) eqn:E.
    + exists y. split; [left; reflexivity|].
      rewrite (Hf _ _ E). assumption.
    + exists rep. split; [|assumption].
      right. apply filter_In. rewrite E. auto.
Qed.

Lemma in_group_by (l : list A) (rep : A) (g : list A) :
  In (rep, g) (group_by same l) ->
  In rep l /\ g = filter (same rep) l.
Proof.
  unfold group_by. intros H. apply in_map_iff in H.
  destruct H as (x & Heq & Hx). inversion Heq; subst.
  split; [apply distinct_incl; assumption|reflexivity].
Qed.
End DistinctFacts.

Section DistinctByKey.
Context {A : Type} (key : A -> string).

Lemma distinct_key_fresh (l : list A) (x : A) :
  ~ In (key x) (map key l) ->
  ~ In (key x) (map key (filter (fun y => negb (key x =? key y)) l)) .
Proof.
  intros H Hin. apply H. apply in_map_iff in Hin.
  destruct Hin as (y & Hy & Hin). apply filter_In in Hin.
  apply in_map_iff. exists y. tauto.
Qed.

Lemma NoDup_map_filter (p : A -> bool) (l : list A) :
  NoDup (map key l) -> NoDup (map key (filter p l)).
Proof.
  induction l as [|y l IH]; simpl; intros H; [constructor|].
  inversion H; subst. destruct (p y); simpl; [|auto].
  constructor; [|auto]. intros Hin. apply H2.
  apply in_map_iff in Hin. destruct Hin as (z & Hz & Hin).
  apply filter_In in Hin. apply in_map_iff. exists z. tauto.
Qed.

(** The representatives of a grouping on one column have pairwise
    different values in it. *)
Lemma distinct_key_NoDup (l : list A) :
  NoDup (map key (distinct (fun a b => key a =? key b) l)).
Proof.
  induction l as [|x l IH]; simpl; [constructor|].
  constructor.
  - intros Hin. apply in_map_iff in Hin. destruct Hin as (y & Hy & Hin).
    apply filter_In in Hin. destruct Hin as (_ & Hneg).
    simpl in Hneg. rewrite <- Hy, String.eqb_refl in Hneg. discriminate.
  - apply NoDup_map_filter. assumption.
Qed.

Lemma in_distinct_key (l : list A) (k : string) :
  In k (map key (distinct (fun a b => key a =? key b) l)) <-> In k (map key l).
Proof.
  split; intros H; apply in_map_iff in H; destruct H as (x & Hx & Hin).
  - apply in_map_iff. exists x. split; [assumption|].
    apply (distinct_incl (fun a b => key a =? key b)). assumption.
  - destruct (distinct_covers (fun a b => key a =? key b) key l x) as (rep & Hrep & Heq).
    + intros a b Hab. apply String.eqb_eq. exact Hab.
    + assumption.
    + apply in_map_iff. exists rep. split; [congruence|assumption].
Qed.
End DistinctByKey.

Section OrderByFacts.
Context {A : Type} (key : A -> string).

Lemma insert_sorted_perm (x : A) (l : list A) :
  Permutation (insert_sorted key x l) (x :: l).
Proof.
  induction l as [|y l IH]; simpl; [reflexivity|].
  destruct (text_leb (key x) (key y)); [reflexivity|].
  rewrite IH. apply perm_swap.
Qed.

Lemma order_by_perm (l : list A) : Permutation (order_by key l) l.
Proof.
  induction l as [|x l IH]; simpl; [reflexivity|].
  rewrite insert_sorted_perm. constructor. assumption.
Qed.

Lemma in_order_by (l : list A) (x : A) : In x (order_by key l) <-> In x l.
Proof.
  split; apply Permutation_in;
    [apply order_by_perm | apply Permutation_sym, order_by_perm].
Qed.

Lemma insert_sorted_hd (x a : A) (l : list A) :
  key_le key a x -> HdRel (key_le key) a l -> HdRel (key_le key) a (insert_sorted key x l).
Proof.
  intros Hax Hl. destruct l as [|y l]; simpl; [constructor; assumption|].
  destruct (text_leb (key x) (key y)); constructor;
    [assumption | inversion Hl; assumption].
Qed.

Lemma insert_sorted_sorted (x : A) (l : list A) :
  Sorted (key_le key) l -> Sorted (key_le key) (insert_sorted key x l).
Proof.
  induction l as [|y l IH]; simpl; intros H.
  - repeat constructor.
  - destruct (text_leb (key x) (key y)) eqn:E.
    + constructor; [assumption|]. constructor. exact E.
    + inversion H; subst. constructor; [auto|].
      apply insert_sorted_hd; [|assumption].
      unfold key_le, text_leb in *.
      destruct (String.leb_total (collate (key x)) (collate (key y)))
        as [Hle|Hle]; [congruence|exact Hle].
Qed.

(** ORDER BY delivers its rows in ascending order of the key. *)
Lemma order_by_sorted (l : list A) : Sorted (key_le key) (order_by key l).
Proof.
  induction l as [|x l IH]; simpl; [constructor|].
  apply insert_sorted_sorted. assumption.
Qed.
End OrderByFacts.

Lemma same_text_refl (a : string) : same_text a a = true.
Proof. apply String.eqb_refl. Qed.

Lemma same_text_sym (a b : string) : same_text a b = same_text b a.
Proof. apply String.eqb_sym. Qed.

Lemma same_text_eq (a b : string) : same_text a b = true <-> collate a = collate b.
Proof. apply String.eqb_eq. Qed.

(** Text that is equal is the same text to the collation. *)
Lemma same_text_of_eq (a b : string) : a = b -> same_text a b = true.
Proof. intros ->. apply same_text_refl. Qed.

(** The written form of a number is not the text N/A. *)
Lemma decimal_text_not_NA (d : nat) (x : Q) : decimal_text d x <> "N/A".
Proof.
  unfold decimal_text, digits.
  destruct (round_half_away (x * inject_Z (10 ^ Z.of_nat d)) <? 0)%Z;
    [discriminate|].
  cbn [append].
  destruct (Z.to_int (Z.abs (round_half_away (x * inject_Z (10 ^ Z.of_nat d)))
                      / 10 ^ Z.of_nat d)) as [u|u].
  - destruct u; discriminate.
  - discriminate.
Qed.

End SqlFacts.

(** ROUND to two decimals yields the nearest amount in cents. *)
Lemma ROUND_2_nearest_cent (x : Q) : Sql.ROUND x 2 = nearest_cent x.
Proof.
  destruct x as [a b]. unfold nearest_cent, Sql.ROUND, Sql.round_half_away.
  cbn [Qnum Qden]. change (Pos.pow 10 (Pos.of_nat 2)) with 100%positive.
  f_equal.
  unfold Qle_bool, Qmult, Qplus, Qopp, Qfloor, inject_Z. cbn [Qnum Qden].
  rewrite Pos.mul_1_r, !Pos2Z.inj_mul.
  destruct (Z.leb_spec (0 * Z.pos b) (a * 100 * 1)) as [H|H].
  - assert (0 <= a)%Z as Ha by lia.
    destruct (Z.eq_dec a 0) as [->|N].
    + change (Z.sgn (0 * 100)) with 0%Z. rewrite Z.mul_0_l.
      apply Z.div_small. lia.
    + assert (0 < a * 100)%Z as Hp by lia.
      rewrite (Z.sgn_pos _ Hp), (Z.abs_eq (a * 100)) by lia.
      replace (a * 100 * 2 + 1 * Z.pos b)%Z
        with (2 * (a * 100) + Z.pos b)%Z by lia.
      replace (Z.pos b * 2)%Z with (2 * Z.pos b)%Z by lia. lia.
  - assert (a * 100 < 0)%Z as Hn by lia.
    rewrite (Z.sgn_neg _ Hn), (Z.abs_neq (a * 100)) by lia.
    replace (- (a * 100) * 2 + 1 * Z.pos b)%Z
      with (2 * - (a * 100) + Z.pos b)%Z by lia.
    replace (Z.pos b * 2)%Z with (2 * Z.pos b)%Z by lia. lia.
Qed.

(** The nearest amount in cents is within half a cent of the amount. *)
Lemma nearest_cent_close (x : Q) :
  (nearest_cent x - (1 # 200) <= x)%Q /\ (x <= nearest_cent x + (1 # 200))%Q.
Proof. rewrite <- ROUND_2_nearest_cent. apply SqlFacts.ROUND_2_close. Qed.

Lemma nearest_cent_examples :
  nearest_cent (13050 # 1) = 1305000 # 100
  /\ nearest_cent (12345 # 1000) = 1235 # 100
  /\ nearest_cent (12344 # 1000) = 1234 # 100
  /\ nearest_cent (- 12345 # 1000) = (- 1235) # 100.
Proof. repeat split; reflexivity. Qed.

(* ===================================================================== *)
(** * Part status: [update_part_status] and [update_status] *)
(* ===================================================================== *)

Lemma py_in_spec (x : string) (l : list string) : py_in x l = true <-> In x l.
Proof.
  unfold py_in. rewrite existsb_exists. split.
  - intros (y & Hy & E). apply String.eqb_eq in E. subst. assumption.
  - intros H. exists x. split; [assumption|apply String.eqb_refl].
Qed.

(** The dictionary of the controller holds exactly the transitions of the
    state machine. *)
Lemma valid_status_transitions_spec (current new : string) :
  py_in new (dict_get valid_status_transitions current []) = true
  <-> legal_transition current new.
Proof.
  unfold dict_get, valid_status_transitions, legal_transition.
  cbn [find fst snd]. rewrite py_in_spec.
  destruct (String.eqb_spec "Ordered" current) as [E1|N1];
    [|destruct (String.eqb_spec "Received" current) as [E2|N2];
      [|destruct (String.eqb_spec "Installed" current) as [E3|N3]]];
    cbn [snd In]; subst; split.
  - intros [H|[H|[]]]; subst; [left|right; left]; auto.
  - intros [[_ H]|[[_ H]|[H _]]]; try discriminate; subst; auto.
  - intros [H|[]]; subst. right; right; auto.
  - intros [[H _]|[[H _]|[_ H]]]; try discriminate; subst; auto.
  - tauto.
  - intros [[H _]|[[H _]|[H _]]]; discriminate.
  - tauto.
  - intros [[H _]|[[H _]|[H _]]]; congruence.
Qed.

Lemma part_key_is_set_status (o n new : string) (p : PartRow) :
  part_key_is o n (set_status new p) = part_key_is o n p.
Proof. reflexivity. Qed.

Lemma part_key_is_eq (o n : string) (p : PartRow) :
  part_key_is o n p = true <-> p_order_number p = o /\ p_vendor_parts_number p = n.
Proof.
  unfold part_key_is. rewrite andb_true_iff, !String.eqb_eq. tauto.
Qed.

(** The UPDATE rewrites the status of the addressed part. *)
Lemma lookup_part_updated (db : Database) (o n new : string) :
  lookup_part (update_status_stmt db o n new) o n
  = option_map (set_status new) (lookup_part db o n).
Proof.
  unfold lookup_part, update_status_stmt. simpl.
  induction (Part db) as [|p ps IH]; simpl; [reflexivity|].
  destruct (part_key_is o n p) eqn:E.
  - rewrite part_key_is_set_status, E. reflexivity.
  - rewrite E. exact IH.
Qed.

(** The UPDATE leaves every other part as it was. *)
Lemma lookup_part_other (db : Database) (o n new o' n' : string) :
  (o', n') <> (o, n) ->
  lookup_part (update_status_stmt db o n new) o' n' = lookup_part db o' n'.
Proof.
  intros Hne. unfold lookup_part, update_status_stmt. simpl.
  induction (Part db) as [|p ps IH]; simpl; [reflexivity|].
  destruct (part_key_is o n p) eqn:E.
  - rewrite part_key_is_set_status.
    destruct (part_key_is o' n' p) eqn:E'; [|exact IH].
    apply part_key_is_eq in E, E'. exfalso. apply Hne.
    destruct E as [<- <-], E' as [<- <-]. reflexivity.
  - destruct (part_key_is o' n' p); [reflexivity|exact IH].
Qed.




(** [update_status] asks only whether the part exists: on a stored part it
    reports success for any requested status and writes it. *)
Lemma update_status_unchecked
  (db : Database) (new_status vendor_part_number order_number : string)
  (row : PartRow) :
  lookup_part db order_number vendor_part_number = Some row ->
  fst (update_status db new_status vendor_part_number order_number) = true
  /\ lookup_part (snd (update_status db new_status vendor_part_number order_number))
       order_number vendor_part_number
     = Some (set_status new_status row).
Proof.
  intros Hrow. unfold update_status. simpl. split.
  - unfold lookup_part in Hrow. apply find_some in Hrow.
    destruct Hrow as (Hin & Hk).
    assert (In row (filter (part_key_is order_number vendor_part_number) (Part db)))
      as Hf by (apply filter_In; auto).
    destruct (filter (part_key_is order_number vendor_part_number) (Part db));
      [destruct Hf|reflexivity].
  - rewrite lookup_part_updated, Hrow. reflexivity.
Qed.


(** C3. The part "BRK-100" of the sample database is Installed.  Asked
    to set it to Received, [update_part_status] refuses and changes
    nothing, while [update_status] reports success and stores Received:
    it applies the change without consulting the state machine. *)
Theorem update_status_ignores_state_machine :
  option_map p_status (lookup_part sample_db "1HGCM82633A004352-001" "BRK-100")
  = Some "Installed"
  /\ ~ legal_transition "Installed" "Received"
  /\ update_part_status sample_db "1HGCM82633A004352-001" "BRK-100" "Received"
     = (false, sample_db)
  /\ fst (update_status sample_db "Received" "BRK-100" "1HGCM82633A004352-001")
     = true
  /\ option_map p_status
       (lookup_part
          (snd (update_status sample_db "Received" "BRK-100" "1HGCM82633A004352-001"))
          "1HGCM82633A004352-001" "BRK-100")
     = Some "Received".
Proof.
  split; [reflexivity|]. split.
  - intros [[E _]|[[E _]|[E _]]]; discriminate E.
  - repeat split; reflexivity.
Qed.

(* ===================================================================== *)
(** * [add_parts_order] *)
(* ===================================================================== *)





Lemma count_orders_app (db : Database) (row : PartsOrderRow) (vin : string) :
  count_orders (with_parts_orders db (PartsOrder db ++ [row])) vin
  = (count_orders db vin + (if (po_vin row =? vin)%string then 1 else 0))%nat.
Proof.
  unfold count_orders. simpl. rewrite filter_app, length_app. simpl.
  destruct (po_vin row =? vin); reflexivity.
Qed.

Section AddPartsOrderFacts.
Variable pynum : Type.
Variable py_zero : pynum.
Variable py_add : pynum -> pynum -> pynum.
Variable py_mul : pynum -> Z -> pynum.
Variable py_round : pynum -> Z -> pynum.
Variable to_decimal : pynum -> Q.
Variable parts_order_accepted : Database -> PartsOrderRow -> bool.
Variable part_accepted : Database -> PartRow -> bool.


(** The loop over the parts appends their rows to Part and touches no
    other table. *)
Lemma insert_parts_Some (parts : list (part_dict pynum)) :
  forall (db db' : Database) (order_number : string),
    insert_parts pynum to_decimal part_accepted db order_number parts = Some db' ->
    Part db' = Part db ++ map (part_row pynum to_decimal order_number) parts
    /\ PartsOrder db' = PartsOrder db.
Proof.
  induction parts as [|part parts IH]; simpl; intros db db' o H.
  - inversion H; subst. rewrite app_nil_r. auto.
  - unfold insert_part in H.
    destruct (part_accepted db (part_row pynum to_decimal o part)); [|discriminate].
    apply IH in H. simpl in H. destruct H as (H1 & H2).
    rewrite H1, <- app_assoc. auto.
Qed.



End AddPartsOrderFacts.


(* ===================================================================== *)
(** * [search_vehicles]: the sentinel "Any" *)
(* ===================================================================== *)

(** C7. For each of the equality filters vehicle_type, manufacturer,
    year, fuel_type and color, [search_vehicles] returns the same result
    with the filter set to "Any" as with the filter absent, whatever the
    tables, the role and the other arguments are; neither adds a predicate
    to the query text. *)
Theorem search_vehicles_any_is_absent
  (db : Database)
  (t m : option string) (y : option year_arg) (f c k v s : option string)
  (r : string) :
  search_vehicles db
    {| vehicle_type := Some "Any"; manufacturer := m; year := y; fuel_type := f;
       color := c; keyword := k; vin := v; vehicle_status := s; role := r |}
  = search_vehicles db
      {| vehicle_type := None; manufacturer := m; year := y; fuel_type := f;
         color := c; keyword := k; vin := v; vehicle_status := s; role := r |}
  /\ search_vehicles db
       {| vehicle_type := t; manufacturer := Some "Any"; year := y; fuel_type := f;
          color := c; keyword := k; vin := v; vehicle_status := s; role := r |}
     = search_vehicles db
         {| vehicle_type := t; manufacturer := None; year := y; fuel_type := f;
            color := c; keyword := k; vin := v; vehicle_status := s; role := r |}
  /\ search_vehicles db
       {| vehicle_type := t; manufacturer := m; year := Some YearAny; fuel_type := f;
          color := c; keyword := k; vin := v; vehicle_status := s; role := r |}
     = search_vehicles db
         {| vehicle_type := t; manufacturer := m; year := None; fuel_type := f;
            color := c; keyword := k; vin := v; vehicle_status := s; role := r |}
  /\ search_vehicles db
       {| vehicle_type := t; manufacturer := m; year := y; fuel_type := Some "Any";
          color := c; keyword := k; vin := v; vehicle_status := s; role := r |}
     = search_vehicles db
         {| vehicle_type := t; manufacturer := m; year := y; fuel_type := None;
            color := c; keyword := k; vin := v; vehicle_status := s; role := r |}
  /\ search_vehicles db
       {| vehicle_type := t; manufacturer := m; year := y; fuel_type := f;
          color := Some "Any"; keyword := k; vin := v; vehicle_status := s; role := r |}
     = search_vehicles db
         {| vehicle_type := t; manufacturer := m; year := y; fuel_type := f;
            color := None; keyword := k; vin := v; vehicle_status := s; role := r |}
  /\ string_filter (Some "Any") vehicle_type_is = []
  /\ string_filter None vehicle_type_is = []
  /\ string_filter (Some "Any") manufacturer_is = []
  /\ string_filter None manufacturer_is = []
  /\ year_filter (Some YearAny) = []
  /\ year_filter None = []
  /\ string_filter (Some "Any") fuel_type_is = []
  /\ string_filter None fuel_type_is = []
  /\ string_filter (Some "Any") color_is = []
  /\ string_filter None color_is = [].
Proof.
  repeat split; reflexivity.
Qed.

(* ===================================================================== *)
(** * [search_vehicles]: the statement and its rows *)
(* ===================================================================== *)

Lemma parse_fragments_ands (fs : list fragment) :
  forall acc,
    forallb is_and fs = true ->
    parse_fragments fs acc
    = Some match where_clause acc with
           | None => {| on_extra := on_extra acc ++ and_conds fs;
                        where_clause := None |}
           | Some w => {| on_extra := on_extra acc;
                          where_clause := Some (w ++ and_conds fs) |}
           end.
Proof.
  induction fs as [|f fs IH]; intros acc H.
  - simpl. destruct acc as [o [w|]]; simpl; rewrite app_nil_r; reflexivity.
  - destruct f as [c|c]; [discriminate|]. simpl in H. simpl.
    destruct (where_clause acc) as [w|] eqn:E; rewrite IH by assumption; simpl;
      rewrite <- app_assoc; reflexivity.
Qed.

Lemma filter_fragments_ands (a : search_args) :
  forallb is_and (filter_fragments a) = true.
Proof.
  unfold filter_fragments, string_filter, year_filter, plain_filter.
  rewrite !forallb_app.
  destruct (vehicle_type a), (manufacturer a), (year a) as [[|y]|],
    (fuel_type a), (color a), (keyword a), (vin a);
    repeat match goal with
           | |- context [if ?b then _ else _] => destruct b
           end; reflexivity.
Qed.

(** The role clause is empty or one WHERE followed by ANDs. *)
Lemma role_fragments_shape (a : search_args) :
  (In (role a) roles /\
   exists c rest, role_fragments a = WHERE c :: rest /\ forallb is_and rest = true)
  \/ (~ In (role a) roles /\ role_fragments a = []).
Proof.
  unfold role_fragments, roles.
  destruct (py_in (role a) ["Public"; "Salesperson"]) eqn:E1.
  - left. apply py_in_spec in E1. split.
    + simpl in *. tauto.
    + eauto.
  - destruct (String.eqb_spec (role a) "Inventory clerk") as [E2|N2].
    + left. split; [simpl; auto|]. eauto.
    + destruct (py_in (role a) ["Manager"; "Owner"]) eqn:E3.
      * left. apply py_in_spec in E3. split; [simpl in *; tauto|].
        destruct (vehicle_status a) as [s|]; [|eauto].
        destruct (String.eqb_spec s "Sold") as [->|]; [eauto|].
        destruct (String.eqb_spec s "Unsold") as [->|]; [eauto|].
        exists always, [].
        split; [|reflexivity].
        repeat match goal with
               | |- context [match ?x with _ => _ end] =>
                   destruct x; try reflexivity; try congruence
               end.
      * right. split; [|reflexivity].
        intros H. simpl in H.
        assert (py_in (role a) ["Public"; "Salesperson"] = true
                \/ py_in (role a) ["Manager"; "Owner"] = true) as [H'|H'].
        { rewrite !py_in_spec. simpl. intuition congruence. }
        -- congruence.
        -- congruence.
Qed.

(** The statement built by [search_vehicles] always parses. *)
Lemma parse_query_fragments (a : search_args) :
  parse (query_fragments a)
  = Some match role_fragments a with
         | WHERE c :: rest =>
             {| on_extra := [];
                where_clause :=
                  Some (c :: and_conds rest ++ and_conds (filter_fragments a)) |}
         | _ => {| on_extra := and_conds (filter_fragments a);
                   where_clause := None |}
         end.
Proof.
  unfold parse, query_fragments.
  destruct (role_fragments_shape a) as [(_ & c & rest & -> & Hrest)|(_ & ->)].
  - simpl. rewrite parse_fragments_ands.
    + simpl. unfold and_conds. rewrite flat_map_app. reflexivity.
    + rewrite forallb_app, Hrest, filter_fragments_ands. reflexivity.
  - simpl. rewrite parse_fragments_ands by apply filter_fragments_ands.
    reflexivity.
Qed.

Lemma has_sale_dec_none (db : Database) (vin : string) :
  (forall st, In st (SaleTransaction db) -> (vin =? st_vin st) = false) ->
  ~ has_sale db vin.
Proof.
  intros H (st & Hin & Heq). specialize (H st Hin).
  rewrite <- Heq, String.eqb_refl in H. discriminate.
Qed.

(** What a row of the FROM clause carries. *)
Lemma in_from_clause (db : Database) (extra : list cond) (r : jrow) :
  In r (from_clause db extra) ->
  In (j_v r) (Vehicle db)
  /\ match j_st r with
     | Some st => In st (SaleTransaction db) /\ st_vin st = v_vin (j_v r)
     | None => ~ has_sale db (v_vin (j_v r))
     end
  /\ match j_pt r with
     | Some pt => In pt (PurchaseTransaction db) /\ pt_vin pt = v_vin (j_v r)
     | None => forall pt, In pt (PurchaseTransaction db) ->
                          pt_vin pt <> v_vin (j_v r)
     end
  /\ match j_po r with
     | Some po => In po (po_aggregated db) /\ agg_vin po = v_vin (j_v r)
                  /\ forallb (fun c : cond => c db r) extra = true
     | None => forall po, In po (po_aggregated db) ->
                          agg_vin po = v_vin (j_v r) ->
                          forallb (fun c : cond =>
                                     c db {| j_v := j_v r; j_vc := j_vc r;
                                             j_st := j_st r; j_pt := j_pt r;
                                             j_po := Some po |}) extra = false
     end.
Proof.
  unfold from_clause. intros H. apply in_map_iff in H.
  destruct H as (((((v & vc) & st) & pt) & po) & <- & H). simpl.
  apply SqlFacts.in_left_join in H. destruct H as (H3 & Hpo).
  apply SqlFacts.in_left_join in H3. destruct H3 as (H2 & Hpt).
  apply SqlFacts.in_left_join in H2. destruct H2 as (H1 & Hst).
  apply SqlFacts.in_left_join in H1. destruct H1 as (Hv & Hvc).
  simpl in *. split; [assumption|]. split; [|split].
  - destruct st as [st|].
    + destruct Hst as (Hin & E). apply String.eqb_eq in E. auto.
    + apply has_sale_dec_none. assumption.
  - destruct pt as [pt|].
    + destruct Hpt as (Hin & E). apply String.eqb_eq in E. auto.
    + intros pt Hin E. specialize (Hpt pt Hin).
      rewrite E, String.eqb_refl in Hpt. discriminate.
  - destruct po as [po|].
    + destruct Hpo as (Hin & E). apply andb_true_iff in E.
      destruct E as (E1 & E2). apply String.eqb_eq in E1. auto.
    + intros po Hin E. specialize (Hpo po Hin).
      rewrite <- E, String.eqb_refl in Hpo. exact Hpo.
Qed.

(** The FROM clause keeps every vehicle, whatever its ON conditions. *)
Lemma from_clause_total (db : Database) (extra : list cond) (v : VehicleRow) :
  In v (Vehicle db) -> exists r, In r (from_clause db extra) /\ j_v r = v.
Proof.
  intros Hv. unfold from_clause.
  destruct (SqlFacts.left_join_total
              (fun v vc => v_vin v =? vc_vin vc) _ (VehicleColor db) v Hv)
    as (vc & H1).
  destruct (SqlFacts.left_join_total
              (fun (l : VehicleRow * option VehicleColorRow) st =>
                 v_vin (fst l) =? st_vin st) _ (SaleTransaction db) _ H1)
    as (st & H2).
  destruct (SqlFacts.left_join_total
              (fun (l : VehicleRow * option VehicleColorRow * option SaleRow) pt =>
                 v_vin (fst (fst l)) =? pt_vin pt) _ (PurchaseTransaction db) _ H2)
    as (pt & H3).
  match goal with
  | |- context [Sql.left_join ?on ?l (po_aggregated db)] =>
      destruct (SqlFacts.left_join_total on l (po_aggregated db) _ H3)
        as (po & H4)
  end.
  eexists. split.
  - apply in_map_iff. eexists. split; [reflexivity|exact H4].
  - reflexivity.
Qed.

(** The derived table sums the orders of each VIN that has one. *)
Lemma in_po_aggregated (db : Database) (po : PoAggRow) :
  In po (po_aggregated db) ->
  agg_TotalPartsCost po = Some (total_parts_cost db (agg_vin po))
  /\ exists o, In o (PartsOrder db) /\ po_vin o = agg_vin po.
Proof.
  unfold po_aggregated. intros H. apply in_map_iff in H.
  destruct H as ((rep & g) & <- & H). apply SqlFacts.in_group_by in H.
  destruct H as (Hrep & ->). simpl. split.
  - unfold total_parts_cost.
    assert (filter (fun b => po_vin rep =? po_vin b) (PartsOrder db)
            = filter (fun po0 => po_vin po0 =? po_vin rep) (PartsOrder db)) as ->.
    { apply filter_ext. intros x. apply String.eqb_sym. }
    assert (In rep (filter (fun po0 => po_vin po0 =? po_vin rep) (PartsOrder db)))
      as Hin by (apply filter_In; split; [assumption|apply String.eqb_refl]).
    destruct (filter (fun po0 => po_vin po0 =? po_vin rep) (PartsOrder db));
      [destruct Hin|reflexivity].
  - exists rep. auto.
Qed.

Lemma po_aggregated_covers (db : Database) (o : PartsOrderRow) :
  In o (PartsOrder db) ->
  exists po, In po (po_aggregated db) /\ agg_vin po = po_vin o.
Proof.
  intros Ho. unfold po_aggregated, Sql.group_by.
  destruct (SqlFacts.distinct_covers
              (fun a b => po_vin a =? po_vin b) po_vin (PartsOrder db) o)
    as (rep & Hrep & E).
  - intros a b Hab. apply String.eqb_eq. exact Hab.
  - assumption.
  - eexists. split.
    + apply in_map_iff. eexists. split; [reflexivity|].
      apply in_map_iff. exists rep. split; [reflexivity|exact Hrep].
    + simpl. exact E.
Qed.

(** With the plain ON condition, the aggregate column of a joined row is
    the parts cost of its vehicle, NULL standing for 0. *)
Lemma parts_cost_plain (db : Database) (r : jrow) :
  In r (from_clause db []) ->
  Sql.IFNULL (parts_cost r) 0%Q = total_parts_cost db (v_vin (j_v r)).
Proof.
  intros H. apply in_from_clause in H. destruct H as (_ & _ & _ & Hpo).
  unfold parts_cost. destruct (j_po r) as [po|].
  - destruct Hpo as (Hin & E & _). apply in_po_aggregated in Hin.
    destruct Hin as (-> & _). rewrite E. reflexivity.
  - unfold total_parts_cost.
    destruct (filter (fun po => po_vin po =? v_vin (j_v r)) (PartsOrder db))
      as [|o os] eqn:E; [reflexivity|].
    assert (In o (filter (fun po => po_vin po =? v_vin (j_v r)) (PartsOrder db)))
      as Hin by (rewrite E; left; reflexivity).
    apply filter_In in Hin. destruct Hin as (Hin & Hv). apply String.eqb_eq in Hv.
    destruct (po_aggregated_covers db o Hin) as (po & Hpo' & E').
    specialize (Hpo po Hpo' (eq_trans E' Hv)). discriminate.
Qed.

(** The rows fetched for a parsed statement. *)
Lemma in_executed_rows (db : Database) (q : clauses) (row : ResultRow) :
  In row (Sql.order_by VIN
            (map select_list
               (Sql.group_by same_group
                  (where_rows db (where_clause q)
                     (from_clause db (on_extra q)))))) ->
  exists rep g,
    In rep (where_rows db (where_clause q) (from_clause db (on_extra q)))
    /\ row = select_list (rep, g).
Proof.
  intros H. apply SqlFacts.in_order_by in H. apply in_map_iff in H.
  destruct H as ((rep & g) & <- & H). apply SqlFacts.in_group_by in H.
  exists rep, g. tauto.
Qed.

Lemma same_group_vin (a b : jrow) :
  same_group a b = true -> v_vin (j_v a) = v_vin (j_v b).
Proof.
  unfold same_group. rewrite !andb_true_iff. intros H.
  apply String.eqb_eq. tauto.
Qed.

(** Every VIN that passes WHERE is the VIN of a fetched row. *)
Lemma executed_rows_cover (db : Database) (q : clauses) (r : jrow) :
  In r (where_rows db (where_clause q) (from_clause db (on_extra q))) ->
  In (v_vin (j_v r))
     (map VIN
        (Sql.order_by VIN
           (map select_list
              (Sql.group_by same_group
                 (where_rows db (where_clause q)
                    (from_clause db (on_extra q))))))).
Proof.
  intros H.
  destruct (SqlFacts.distinct_covers same_group (fun x => v_vin (j_v x)) _ r
              same_group_vin H) as (rep & Hrep & E).
  apply in_map_iff.
  exists (select_list
            (rep, filter (same_group rep)
                    (where_rows db (where_clause q)
                       (from_clause db (on_extra q))))).
  split; [exact E|].
  apply SqlFacts.in_order_by. apply in_map_iff. eexists. split; [reflexivity|].
  unfold Sql.group_by. apply in_map_iff. exists rep. auto.
Qed.

(** The VIN column survives every projection. *)
Lemma column_VIN (r : string) (rows : list ResultRow) :
  column "VIN" (project_for_role r (frame_of rows))
  = map (fun row => Text (VIN row)) rows.
Proof.
  unfold project_for_role.
  destruct ((r =? "Public") || (r =? "Salesperson"));
    [|destruct (r =? "Inventory clerk"); [|destruct (py_in r ["Manager"; "Owner"])]];
    unfold column, select_columns, frame_of; simpl;
    rewrite ?map_map; apply map_ext; intros row; reflexivity.
Qed.

Lemma in_column_VIN (r : string) (rows : list ResultRow) (vin : string) :
  In (Text vin) (column "VIN" (project_for_role r (frame_of rows)))
  <-> In vin (map VIN rows).
Proof.
  rewrite column_VIN, !in_map_iff. split.
  - intros (row & E & H). inversion E. eauto.
  - intros (row & E & H). exists row. subst. auto.
Qed.

(** The correlated subquery finds a row exactly for a vehicle with a
    pending part. *)
Lemma pending_part_exists_spec (db : Database) (vin : string) :
  pending_part_exists db vin = true <-> has_pending_part db vin.
Proof.
  unfold pending_part_exists, Sql.EXISTS, has_pending_part, part_of_vehicle.
  rewrite existsb_exists. split.
  - intros ((p & po) & Hin & H). apply SqlFacts.in_inner_join in Hin.
    destruct Hin as (Hp & Hpo & Hon). simpl in H.
    apply andb_true_iff in H. destruct H as (Hv & Hs).
    apply String.eqb_eq in Hon, Hv. apply negb_true_iff, String.eqb_neq in Hs.
    exists p. split; [|assumption]. split; [assumption|].
    exists po. auto.
  - intros (p & (Hp & po & Hpo & Hon & Hv) & Hs).
    exists (p, po). split.
    + apply SqlFacts.in_inner_join. rewrite Hon, String.eqb_refl. auto.
    + simpl. rewrite Hv, String.eqb_refl. simpl.
      apply negb_true_iff, String.eqb_neq. assumption.
Qed.

Lemma role_fragments_public (a : search_args) :
  role a = "Public" \/ role a = "Salesperson" ->
  role_fragments a = [WHERE sale_price_is_null; AND no_pending_parts].
Proof.
  intros [E|E]; unfold role_fragments; rewrite E; reflexivity.
Qed.

(** C4. For every database and every choice of filters, the frame
    [search_vehicles] returns to the role Public or Salesperson lists no
    vehicle that has a SaleTransaction row and no vehicle that has an
    associated part whose status is not Installed. *)
Theorem search_vehicles_public_available
  (db : Database) (a : search_args) :
  role a = "Public" \/ role a = "Salesperson" ->
  exists df,
    search_vehicles db a = Some df
    /\ forall vin, In (Text vin) (column "VIN" df) ->
                   ~ has_sale db vin /\ ~ has_pending_part db vin.
Proof.
  intros Hrole. unfold search_vehicles, search_vehicles_rows, execute_search.
  rewrite parse_query_fragments, (role_fragments_public a Hrole).
  eexists. split; [reflexivity|].
  intros vin Hin. apply in_column_VIN in Hin. apply in_map_iff in Hin.
  destruct Hin as (row & <- & Hrow).
  apply in_executed_rows in Hrow. destruct Hrow as (rep & g & Hrep & ->).
  simpl in Hrep. apply filter_In in Hrep. destruct Hrep as (Hfrom & Hwhere).
  simpl in Hwhere. apply andb_true_iff in Hwhere. destruct Hwhere as (Hsale & Hw).
  apply andb_true_iff in Hw. destruct Hw as (Hpend & _).
  apply in_from_clause in Hfrom. destruct Hfrom as (_ & Hst & _).
  simpl. split.
  - unfold sale_price_is_null in Hsale.
    destruct (j_st rep); [discriminate|assumption].
  - unfold no_pending_parts in Hpend. apply negb_true_iff in Hpend.
    rewrite <- pending_part_exists_spec. congruence.
Qed.

Lemma search_vehicles_public_available_witness :
  exists df,
    search_vehicles sample_db (no_filters "Public") = Some df
    /\ forall vin, In (Text vin) (column "VIN" df) ->
                   ~ has_sale sample_db vin /\ ~ has_pending_part sample_db vin.
Proof.
  apply (search_vehicles_public_available sample_db (no_filters "Public")).
  left. reflexivity.
Defined.

(** Under WHERE st.sale_price IS NOT NULL and no filter, the fetched
    VINs are those of the vehicles with a SaleTransaction row. *)
Lemma sold_listing_rows (db : Database) (r : string) :
  r = "Owner" \/ r = "Manager" ->
  exists rows,
    search_vehicles_rows db (sold_listing r) = Some rows
    /\ forall vin, In vin (map VIN rows)
                   <-> has_sale db vin /\ In vin (map v_vin (Vehicle db)).
Proof.
  intros Hrole. unfold search_vehicles_rows, execute_search.
  rewrite parse_query_fragments.
  assert (role_fragments (sold_listing r) = [WHERE sale_price_is_not_null]) as ->
      by (destruct Hrole as [-> | ->]; reflexivity).
  eexists. split; [reflexivity|]. intros vin. split.
  - intros Hin. apply in_map_iff in Hin. destruct Hin as (row & <- & Hrow).
    apply in_executed_rows in Hrow. destruct Hrow as (rep & g & Hrep & ->).
    simpl in Hrep. apply filter_In in Hrep. destruct Hrep as (Hfrom & Hwhere).
    simpl in Hwhere. rewrite andb_true_r in Hwhere.
    apply in_from_clause in Hfrom. destruct Hfrom as (Hv & Hst & _).
    unfold sale_price_is_not_null in Hwhere. simpl.
    destruct (j_st rep) as [st|]; [|discriminate].
    split.
    + exists st. exact Hst.
    + apply in_map. assumption.
  - intros (Hsale & Hv). apply in_map_iff in Hv. destruct Hv as (v & <- & Hv).
    destruct (from_clause_total db [] v Hv) as (jr & Hjr & <-).
    apply executed_rows_cover with
      (q := {| on_extra := [];
               where_clause :=
                 Some (sale_price_is_not_null
                         :: and_conds [] ++ and_conds (filter_fragments (sold_listing r))) |}).
    simpl. apply filter_In. split; [assumption|].
    simpl. rewrite andb_true_r. unfold sale_price_is_not_null.
    apply in_from_clause in Hjr. destruct Hjr as (_ & Hst & _).
    destruct (j_st jr); [reflexivity|contradiction].
Qed.

(** C5. For every database in which the sales reference vehicles,
    [search_vehicles] called by the Owner or the Manager with
    vehicle_status "Sold" and no other filter returns exactly the VINs
    that have a SaleTransaction row; the parts play no role. *)
Theorem search_vehicles_sold_exact (db : Database) (r : string) :
  r = "Owner" \/ r = "Manager" ->
  sales_reference_vehicles db ->
  exists df,
    search_vehicles db (sold_listing r) = Some df
    /\ forall vin, In (Text vin) (column "VIN" df) <-> has_sale db vin.
Proof.
  intros Hrole Hfk. unfold search_vehicles.
  destruct (sold_listing_rows db r Hrole) as (rows & -> & Hrows).
  eexists. split; [reflexivity|]. intros vin.
  rewrite in_column_VIN, Hrows. split; [tauto|].
  intros Hsale. split; [assumption|].
  destruct Hsale as (st & Hst & <-). apply Hfk. assumption.
Qed.

Lemma search_vehicles_sold_exact_witness :
  exists df,
    search_vehicles sample_db (sold_listing "Owner") = Some df
    /\ forall vin, In (Text vin) (column "VIN" df) <-> has_sale sample_db vin.
Proof.
  apply (search_vehicles_sold_exact sample_db "Owner").
  - left. reflexivity.
  - intros st Hst. simpl in Hst. destruct Hst as [<-|[]]. simpl. tauto.
Defined.

(* ===================================================================== *)
(** * [search_vehicles]: the SalePrice column *)
(* ===================================================================== *)

Lemma where_rows_incl (db : Database) (w : option (list cond))
  (rows : list jrow) (r : jrow) :
  In r (where_rows db w rows) -> In r rows.
Proof.
  destruct w as [cs|]; simpl; [|tauto]. intros H. apply filter_In in H. tauto.
Qed.

Lemma column_SalePrice (r : string) (rows : list ResultRow) :
  r <> "Inventory clerk" ->
  column "SalePrice" (project_for_role r (frame_of rows))
  = map (fun row => opt_cell Dec (SalePrice row)) rows.
Proof.
  intros Hr. unfold project_for_role.
  destruct ((r =? "Public") || (r =? "Salesperson"));
    [|destruct (String.eqb_spec r "Inventory clerk"); [contradiction|];
      destruct (py_in r ["Manager"; "Owner"])];
    unfold column, select_columns, frame_of; simpl;
    rewrite ?map_map; apply map_ext; intros row; reflexivity.
Qed.

(** The scenario of the specification: bought at 10000 with parts orders
    of 500, the asking price is 13050.00. *)
Lemma asking_price_scenario : asking_price 10000 500 = 1305000 # 100.
Proof. reflexivity. Qed.

(** For a caller with one of the five roles (or any caller that
    supplies no filter), every row fetched by [search_vehicles] whose
    vehicle has no SaleTransaction row has
    SalePrice = round(1.25 * purchase_price + 1.1 * total_parts_cost, 2),
    the parts cost being the sum of the total_cost of the vehicle's parts
    orders and 0 without any (the price is NULL when the vehicle has no
    purchase row); every row whose vehicle has a SaleTransaction row
    carries the sale_price of such a row.  The frame returned to every
    role but the inventory clerk shows these values in its SalePrice
    column. *)
Lemma search_vehicles_sale_price_known_role (db : Database) (a : search_args) :
  In (role a) roles \/ filter_fragments a = [] ->
  exists rows,
    search_vehicles_rows db a = Some rows
    /\ search_vehicles db a = Some (project_for_role (role a) (frame_of rows))
    /\ (role a <> "Inventory clerk" ->
        column "SalePrice" (project_for_role (role a) (frame_of rows))
        = map (fun row => opt_cell Dec (SalePrice row)) rows)
    /\ forall row,
        In row rows ->
        (~ has_sale db (VIN row) ->
         SalePrice row
         = option_map (fun purchase_price =>
                         asking_price purchase_price
                                      (total_parts_cost db (VIN row)))
                      (PurchasePrice row))
        /\ (has_sale db (VIN row) ->
            exists st, In st (SaleTransaction db) /\ st_vin st = VIN row
                       /\ SalePrice row = Some (st_sale_price st))
        /\ match PurchasePrice row with
           | Some price =>
               exists pt, In pt (PurchaseTransaction db) /\ pt_vin pt = VIN row
                          /\ pt_purchase_price pt = price
           | None =>
               forall pt, In pt (PurchaseTransaction db) -> pt_vin pt <> VIN row
           end.
Proof.
  intros Hrole. unfold search_vehicles, search_vehicles_rows, execute_search.
  rewrite parse_query_fragments.
  assert (Hplain :
            on_extra
              match role_fragments a with
              | WHERE c :: rest =>
                  {| on_extra := [];
                     where_clause :=
                       Some (c :: and_conds rest
                               ++ and_conds (filter_fragments a)) |}
              | _ => {| on_extra := and_conds (filter_fragments a);
                        where_clause := None |}
              end = []).
  { destruct (role_fragments_shape a) as [(_ & c & rest & -> & _)|(Hn & ->)];
      [reflexivity|].
    destruct Hrole as [Hrole|Hnone]; [contradiction|].
    simpl. rewrite Hnone. reflexivity. }
  eexists. split; [reflexivity|]. split; [reflexivity|].
  split; [apply column_SalePrice|].
  intros row Hrow. apply in_executed_rows in Hrow.
  destruct Hrow as (rep & g & Hrep & ->).
  apply where_rows_incl in Hrep. rewrite Hplain in Hrep.
  pose proof (parts_cost_plain db rep Hrep) as Hcost.
  apply in_from_clause in Hrep. destruct Hrep as (_ & Hst & Hpt & _).
  unfold select_list, sale_price_expr. simpl.
  split; [|split].
  - intros Hunsold. destruct (j_st rep) as [st|].
    + exfalso. apply Hunsold. exists st. exact Hst.
    + rewrite Hcost. destruct (j_pt rep) as [pt|]; [|reflexivity].
      simpl. unfold asking_price. rewrite <- ROUND_2_nearest_cent.
      reflexivity.
  - intros Hsold. destruct (j_st rep) as [st|]; [|contradiction].
    exists st. destruct Hst. auto.
  - destruct (j_pt rep) as [pt|]; simpl; [|assumption].
    exists pt. destruct Hpt. auto.
Qed.

(** On the sample database an Owner who sets no filter is shown the
    three prices 13050.00, 22764.00 and 21500. *)
Lemma search_vehicles_sale_price_known_role_example :
  exists rows,
    search_vehicles_rows sample_db (no_filters "Owner") = Some rows
    /\ map SalePrice rows
       = [Some (1305000 # 100); Some (2276400 # 100); Some 21500%Q].
Proof.
  destruct (search_vehicles_sale_price_known_role sample_db (no_filters "Owner"))
    as (rows & Hrows & _).
  - left. simpl. tauto.
  - exists rows. split; [exact Hrows|].
    vm_compute in Hrows. inversion Hrows. reflexivity.
Qed.

(** C1 at a role outside the five.  The sedan 1HGCM82633A004352 of the
    sample database has no SaleTransaction row, was bought at 10000 and
    has parts orders of 500, so that
    round(1.25 * purchase_price + 1.1 * total_parts_cost, 2) is 13050.00.
    Searched for by role Admin with vehicle_type SUV, it is listed with
    the SalePrice 12500.00: the filter has become part of the ON
    condition of the join with the parts cost, which no longer finds the
    cost of a vehicle that is not an SUV.  The unsold SUV is listed with
    22764.00 and the sold sedan with its sale_price. *)
Theorem search_vehicles_sale_price_unknown_role :
  ~ In (role admin_suv_search) roles
  /\ ~ has_sale sample_db "1HGCM82633A004352"
  /\ (exists pt, In pt (PurchaseTransaction sample_db)
                 /\ pt_vin pt = "1HGCM82633A004352"
                 /\ pt_purchase_price pt = 10000)
  /\ total_parts_cost sample_db "1HGCM82633A004352" = 500
  /\ asking_price 10000 (total_parts_cost sample_db "1HGCM82633A004352")
     = 1305000 # 100
  /\ exists rows,
      search_vehicles_rows sample_db admin_suv_search = Some rows
      /\ search_vehicles sample_db admin_suv_search = Some (frame_of rows)
      /\ map (fun row => (VIN row, PurchasePrice row, SalePrice row)) rows
         = [("1HGCM82633A004352", Some 10000, Some (1250000 # 100));
            ("2T1BURHE5JC034461", Some 18000, Some (2276400 # 100));
            ("3FA6P0H73HR123456", Some 16000, Some 21500)]
      /\ column "SalePrice" (frame_of rows)
         = [Dec (1250000 # 100); Dec (2276400 # 100); Dec 21500].
Proof.
  split; [|split; [|split; [|split; [|split]]]].
  - simpl. intros [H|[H|[H|[H|[H|[]]]]]]; discriminate H.
  - intros (st & Hst & E). simpl in Hst.
    destruct Hst as [<-|[]]. discriminate E.
  - eexists. split; [left; reflexivity|]. split; reflexivity.
  - reflexivity.
  - reflexivity.
  - eexists. split; [vm_compute; reflexivity|].
    split; [vm_compute; reflexivity|]. split; reflexivity.
Qed.

(* ===================================================================== *)
(** * [search_vehicles]: roles outside the enumeration *)
(* ===================================================================== *)

Lemma project_for_role_unknown (r : string) (df : DataFrame) :
  ~ In r roles -> project_for_role r df = df.
Proof.
  intros H. unfold project_for_role, roles in *. simpl in H.
  destruct (String.eqb_spec r "Public"); [subst; tauto|].
  destruct (String.eqb_spec r "Salesperson"); [subst; tauto|].
  destruct (String.eqb_spec r "Inventory clerk"); [subst; tauto|].
  simpl. destruct ((r =? "Manager") || ((r =? "Owner") || false)); reflexivity.
Qed.

(** For a role outside the five, no WHERE clause is appended; the AND
    pieces of the supplied filters continue the ON condition of the last
    LEFT JOIN, the statement parses and is executed, and with or without
    filters the result lists every vehicle, sold or not, under the full
    set of thirteen columns, PurchasePrice and TotalPartsCost included. *)
Lemma search_vehicles_unknown_role_lists_all (db : Database) (a : search_args) :
  ~ In (role a) roles ->
  role_fragments a = []
  /\ parse (query_fragments a)
     = Some {| on_extra := and_conds (filter_fragments a);
               where_clause := None |}
  /\ exists rows,
      search_vehicles_rows db a = Some rows
      /\ search_vehicles db a = Some (frame_of rows)
      /\ columns (frame_of rows) = all_columns
      /\ In "PurchasePrice" (columns (frame_of rows))
      /\ In "TotalPartsCost" (columns (frame_of rows))
      /\ forall vin, In (Text vin) (column "VIN" (frame_of rows))
                     <-> In vin (map v_vin (Vehicle db)).
Proof.
  intros Hrole.
  destruct (role_fragments_shape a) as [(H & _)|(_ & Hfr)]; [contradiction|].
  split; [assumption|].
  pose proof (parse_query_fragments a) as Hparse. rewrite Hfr in Hparse.
  split; [assumption|].
  unfold search_vehicles, search_vehicles_rows, execute_search.
  rewrite Hparse. eexists. split; [reflexivity|].
  rewrite (project_for_role_unknown _ _ Hrole).
  split; [reflexivity|]. split; [reflexivity|].
  split; [simpl; tauto|]. split; [simpl; tauto|].
  intros vin.
  rewrite <- (project_for_role_unknown (role a) (frame_of _) Hrole) at 1.
  rewrite in_column_VIN. split.
  - intros Hin. apply in_map_iff in Hin. destruct Hin as (row & <- & Hrow).
    apply in_executed_rows in Hrow. destruct Hrow as (rep & g & Hrep & ->).
    simpl in Hrep. apply in_from_clause in Hrep. destruct Hrep as (Hv & _).
    simpl. apply in_map. assumption.
  - intros Hin. apply in_map_iff in Hin. destruct Hin as (v & <- & Hv).
    destruct (from_clause_total db (and_conds (filter_fragments a)) v Hv)
      as (jr & Hjr & <-).
    apply executed_rows_cover with
      (q := {| on_extra := and_conds (filter_fragments a);
               where_clause := None |}).
    exact Hjr.
Qed.

(** C9 on the sample database.  Role Admin is outside the five and
    vehicle_type SUV is supplied: the text of the query has the AND piece
    and no WHERE, it parses with the piece in the ON condition of the last
    join, and the call does not raise but returns a frame of the thirteen
    columns that lists all three vehicles, the two sedans included, so
    the filter has selected nothing.  The same search by an Owner lists
    the SUV alone.  A colour filter is ignored alike. *)
Theorem search_vehicles_unknown_role_ignores_filter :
  ~ In (role admin_suv_search) roles
  /\ query_fragments admin_suv_search = [AND (vehicle_type_is "SUV")]
  /\ parse (query_fragments admin_suv_search)
     = Some {| on_extra := [vehicle_type_is "SUV"]; where_clause := None |}
  /\ search_vehicles sample_db admin_suv_search <> None
  /\ option_map (fun df => (columns df, column "VIN" df,
                            column "VehicleType" df))
       (search_vehicles sample_db admin_suv_search)
     = Some (all_columns,
             [Text "1HGCM82633A004352"; Text "2T1BURHE5JC034461";
              Text "3FA6P0H73HR123456"],
             [Text "Sedan"; Text "SUV"; Text "Sedan"])
  /\ option_map (fun df => (column "VIN" df, column "VehicleType" df))
       (search_vehicles sample_db owner_suv_search)
     = Some ([Text "2T1BURHE5JC034461"], [Text "SUV"])
  /\ query_fragments admin_blue_search = [AND (color_is "Blue")]
  /\ option_map (column "VIN") (search_vehicles sample_db admin_blue_search)
     = Some [Text "1HGCM82633A004352"; Text "2T1BURHE5JC034461";
             Text "3FA6P0H73HR123456"].
Proof.
  split; [|split; [|split; [|split; [|split; [|split; [|split]]]]]].
  - simpl. intros [H|[H|[H|[H|[H|[]]]]]]; discriminate H.
  - reflexivity.
  - reflexivity.
  - vm_compute. discriminate.
  - vm_compute. reflexivity.
  - vm_compute. reflexivity.
  - reflexivity.
  - vm_compute. reflexivity.
Qed.

(* ===================================================================== *)
(** * [get_vehicle_counts] *)
(* ===================================================================== *)

Lemma in_distinct_eqb (l : list string) (x : string) :
  In x (Sql.distinct String.eqb l) <-> In x l.
Proof.
  pose proof (SqlFacts.in_distinct_key (fun s : string => s) l x) as H.
  rewrite !map_id in H. exact H.
Qed.

Lemma NoDup_distinct_eqb (l : list string) : NoDup (Sql.distinct String.eqb l).
Proof.
  pose proof (SqlFacts.distinct_key_NoDup (fun s : string => s) l) as H.
  rewrite map_id in H. exact H.
Qed.

Lemma not_in_sales_spec (db : Database) (vin : string) :
  not_in_sales db vin = true <-> ~ has_sale db vin.
Proof.
  unfold not_in_sales, has_sale. rewrite negb_true_iff.
  rewrite <- not_true_iff_false, py_in_spec, in_map_iff. split.
  - intros H (st & Hin & E). apply H. eauto.
  - intros H (st & E & Hin). apply H. eauto.
Qed.

Lemma pending_part_exists_false (db : Database) (vin : string) :
  pending_part_exists db vin = false <-> ~ has_pending_part db vin.
Proof.
  rewrite <- pending_part_exists_spec. symmetry. apply not_true_iff_false.
Qed.

(** The VINs counted as available. *)
Lemma available_vins (db : Database) (vin : string) :
  In vin
     (map (fun r : VehicleRow * option PartsOrderRow => v_vin (fst r))
        (filter (fun r : VehicleRow * option PartsOrderRow =>
                   negb (pending_part_exists db (v_vin (fst r)))
                   && not_in_sales db (v_vin (fst r)))
           (Sql.left_join (fun v po => v_vin v =? po_vin po)
                          (Vehicle db) (PartsOrder db))))
  <-> In vin (map v_vin (Vehicle db))
      /\ ~ has_sale db vin /\ ~ has_pending_part db vin.
Proof.
  rewrite in_map_iff. split.
  - intros ((v & po) & <- & H). apply filter_In in H. destruct H as (Hin & Hp).
    apply SqlFacts.in_left_join in Hin. destruct Hin as (Hv & _). simpl in *.
    apply andb_true_iff in Hp. destruct Hp as (Hp & Hs).
    apply negb_true_iff, pending_part_exists_false in Hp.
    apply not_in_sales_spec in Hs. split; [apply in_map; assumption|tauto].
  - intros (Hv & Hs & Hp). apply in_map_iff in Hv. destruct Hv as (v & <- & Hv).
    destruct (SqlFacts.left_join_total
                (fun v po => v_vin v =? po_vin po) _ (PartsOrder db) v Hv)
      as (po & Hin).
    exists (v, po). split; [reflexivity|]. apply filter_In. split; [assumption|].
    simpl. apply andb_true_iff. split.
    + apply negb_true_iff, pending_part_exists_false. assumption.
    + apply not_in_sales_spec. assumption.
Qed.

(** The VINs counted as having pending parts. *)
Lemma pending_vins (db : Database) (vin : string) :
  In vin
     (map (fun r : VehicleRow * PartsOrderRow * PartRow => v_vin (fst (fst r)))
        (filter (fun r : VehicleRow * PartsOrderRow * PartRow =>
                   negb (p_status (snd r) =? "Installed")
                   && not_in_sales db (v_vin (fst (fst r))))
           (Sql.inner_join
              (fun (l : VehicleRow * PartsOrderRow) p =>
                 po_order_number (snd l) =? p_order_number p)
              (Sql.inner_join (fun v po => v_vin v =? po_vin po)
                              (Vehicle db) (PartsOrder db))
              (Part db))))
  <-> In vin (map v_vin (Vehicle db))
      /\ ~ has_sale db vin /\ has_pending_part db vin.
Proof.
  rewrite in_map_iff. split.
  - intros (((v & po) & p) & <- & H). apply filter_In in H.
    destruct H as (Hin & Hc). apply SqlFacts.in_inner_join in Hin.
    destruct Hin as (Hvpo & Hp & Hon). apply SqlFacts.in_inner_join in Hvpo.
    destruct Hvpo as (Hv & Hpo & Hon'). simpl in *.
    apply andb_true_iff in Hc. destruct Hc as (Hs & Hns).
    apply String.eqb_eq in Hon, Hon'.
    apply negb_true_iff, String.eqb_neq in Hs.
    apply not_in_sales_spec in Hns.
    split; [apply in_map; assumption|]. split; [assumption|].
    exists p. split; [|assumption]. split; [assumption|].
    exists po. auto.
  - intros (Hv & Hns & p & (Hp & po & Hpo & Hon & Hvin) & Hs).
    apply in_map_iff in Hv. destruct Hv as (v & <- & Hv).
    exists (v, po, p). split; [reflexivity|]. apply filter_In. split.
    + apply SqlFacts.in_inner_join. simpl. rewrite Hon, String.eqb_refl.
      split; [|auto]. apply SqlFacts.in_inner_join.
      rewrite Hvin, String.eqb_refl. auto.
    + simpl. apply andb_true_iff. split.
      * apply negb_true_iff, String.eqb_neq. assumption.
      * apply not_in_sales_spec. assumption.
Qed.


(* ===================================================================== *)
(** * [average_inventory_time_report] *)
(* ===================================================================== *)

Lemma in_avt_from (db : Database) (r : avt_jrow) :
  In r (avt_from db) ->
  In (a_v r) (Vehicle db)
  /\ In (a_vt r) (VehicleType db)
  /\ v_type (a_v r) = a_vt r
  /\ match a_st r with
     | Some st => In st (SaleTransaction db) /\ st_vin st = v_vin (a_v r)
     | None => ~ has_sale db (v_vin (a_v r))
     end.
Proof.
  unfold avt_from. intros H. apply in_map_iff in H.
  destruct H as ((((v & vt) & pt) & st) & <- & H). simpl.
  apply SqlFacts.in_left_join in H. destruct H as (H2 & Hst).
  apply SqlFacts.in_left_join in H2. destruct H2 as (H1 & _).
  apply SqlFacts.in_inner_join in H1. destruct H1 as (Hv & Hvt & Hon).
  simpl in *. apply String.eqb_eq in Hon. repeat split; try assumption.
  destruct st as [st|].
  - destruct Hst as (Hin & E). apply String.eqb_eq in E. auto.
  - apply has_sale_dec_none. assumption.
Qed.

Lemma avt_from_total (db : Database) (v : VehicleRow) :
  In v (Vehicle db) -> In (v_type v) (VehicleType db) ->
  exists r, In r (avt_from db) /\ a_v r = v /\ a_vt r = v_type v.
Proof.
  intros Hv Hvt. unfold avt_from.
  assert (In (v, v_type v)
             (Sql.inner_join (fun v vt => v_type v =? vt)
                             (Vehicle db) (VehicleType db))) as H1
      by (apply SqlFacts.in_inner_join; rewrite String.eqb_refl; auto).
  destruct (SqlFacts.left_join_total
              (fun (l : VehicleRow * string) pt => v_vin (fst l) =? pt_vin pt)
              _ (PurchaseTransaction db) _ H1) as (pt & H2).
  destruct (SqlFacts.left_join_total
              (fun (l : VehicleRow * string * option PurchaseRow) st =>
                 v_vin (fst (fst l)) =? st_vin st)
              _ (SaleTransaction db) _ H2) as (st & H3).
  eexists. split.
  - apply in_map_iff. eexists. split; [reflexivity|exact H3].
  - simpl. auto.
Qed.

Lemma count_sold_on_zero (g : list avt_jrow) :
  (count_sold_on g =? 0)%nat = true <-> forall r, In r g -> a_st r = None.
Proof.
  unfold count_sold_on. rewrite Nat.eqb_eq, length_zero_iff_nil. split.
  - intros H r Hr. destruct (a_st r) as [st|] eqn:E; [|reflexivity].
    assert (In r (filter (fun r => negb (Sql.is_null (a_st r))) g)) as Hin
        by (apply filter_In; rewrite E; auto).
    rewrite H in Hin. destruct Hin.
  - intros H. destruct (filter (fun r => negb (Sql.is_null (a_st r))) g)
      as [|r rs] eqn:E; [reflexivity|].
    assert (In r (filter (fun r => negb (Sql.is_null (a_st r))) g)) as Hin
        by (rewrite E; left; reflexivity).
    apply filter_In in Hin. destruct Hin as (Hr & Hs).
    rewrite (H r Hr) in Hs. discriminate.
Qed.

(** The rows of the report: ascending and pairwise different type names,
    one for each type of the type table that some vehicle has, and the
    text N/A exactly for the types none of whose vehicles is sold. *)
Lemma average_inventory_time_rows (db : Database) :
  Sorted (Sql.key_le avt_VehicleType) (avt_rows db)
  /\ NoDup (map avt_VehicleType (avt_rows db))
  /\ (forall ty, In ty (map avt_VehicleType (avt_rows db)) <->
                 In ty (VehicleType db)
                 /\ exists v, In v (Vehicle db) /\ v_type v = ty)
  /\ (forall row, In row (avt_rows db) ->
                  avt_AvgInventoryTime row = Text "N/A" <->
                  ~ exists v, In v (Vehicle db)
                              /\ v_type v = avt_VehicleType row
                              /\ has_sale db (v_vin v)).
Proof.
  unfold avt_rows. split; [apply SqlFacts.order_by_sorted|].
  assert (Hperm : Permutation
                    (map avt_VehicleType
                       (Sql.order_by avt_VehicleType
                          (map avt_select
                             (Sql.group_by (fun a b => a_vt a =? a_vt b)
                                           (avt_from db)))))
                    (map a_vt (Sql.distinct (fun a b => a_vt a =? a_vt b)
                                            (avt_from db)))).
  { rewrite SqlFacts.order_by_perm. unfold Sql.group_by.
    rewrite !map_map. simpl. reflexivity. }
  split; [|split].
  - eapply Permutation_NoDup; [apply Permutation_sym; exact Hperm|].
    apply SqlFacts.distinct_key_NoDup.
  - intros ty. split.
    + intros H. apply (Permutation_in _ Hperm) in H.
      apply (proj1 (SqlFacts.in_distinct_key a_vt (avt_from db) ty)) in H.
      apply in_map_iff in H.
      destruct H as (r & <- & Hr). apply in_avt_from in Hr.
      destruct Hr as (Hv & Hvt & E & _). eauto.
    + intros (Hty & v & Hv & <-).
      destruct (avt_from_total db v Hv Hty) as (r & Hr & _ & E).
      apply (Permutation_in _ (Permutation_sym Hperm)).
      apply (proj2 (SqlFacts.in_distinct_key a_vt (avt_from db) (v_type v))).
      rewrite <- E. apply in_map. assumption.
  - intros row Hrow. apply SqlFacts.in_order_by in Hrow.
    apply in_map_iff in Hrow. destruct Hrow as ((rep & g) & <- & Hg).
    apply SqlFacts.in_group_by in Hg. destruct Hg as (Hrep & ->).
    unfold avt_select. simpl.
    pose proof (count_sold_on_zero
                  (filter (fun b => a_vt rep =? a_vt b) (avt_from db))) as Hz.
    destruct (Nat.eqb (count_sold_on
                         (filter (fun b => a_vt rep =? a_vt b) (avt_from db))) 0).
    + split; [|reflexivity]. intros _ (v & Hv & Hty & Hsale).
      apply in_avt_from in Hrep. destruct Hrep as (_ & Hvt & _).
      rewrite <- Hty in Hvt.
      destruct (avt_from_total db v Hv Hvt) as (r & Hr & <- & E).
      assert (a_st r = None) as Hnone.
      { apply (proj1 Hz eq_refl). apply filter_In. split; [assumption|].
        rewrite E, Hty. apply String.eqb_refl. }
      apply in_avt_from in Hr. rewrite Hnone in Hr. tauto.
    + split.
      * destruct (Sql.AVG _); simpl; [|discriminate].
        intros H. exfalso. inversion H as [H'].
        exact (SqlFacts.decimal_text_not_NA _ _ H').
      * intros Hnone. exfalso.
        assert (forall r, In r (filter (fun b => a_vt rep =? a_vt b) (avt_from db))
                          -> a_st r = None) as Hall.
        { intros r Hr. apply filter_In in Hr. destruct Hr as (Hr & E).
          apply String.eqb_eq in E.
          destruct (a_st r) as [st|] eqn:Est; [|reflexivity].
          exfalso. apply Hnone. apply in_avt_from in Hr. rewrite Est in Hr.
          destruct Hr as (Hv & _ & Hty & Hin & Hvin).
          exists (a_v r). split; [assumption|]. split; [congruence|].
          exists st. auto. }
        apply Hz in Hall. discriminate.
Qed.

Section UniqueKey.
Context {A : Type} (key : A -> string).

(** Under a key, the rows matching a key value are the one [find]
    returns. *)
Lemma filter_by_key (k : string) (l : list A) :
  NoDup (map key l) ->
  filter (fun x => k =? key x) l
  = match find (fun x => k =? key x) l with
    | Some x => [x]
    | None => []
    end.
Proof.
  induction l as [|x l IH]; simpl; intros H; [reflexivity|].
  inversion H as [|? ? Hnotin Hnodup]; subst.
  destruct (String.eqb_spec k (key x)) as [E|N]; [|apply IH; assumption].
  f_equal. destruct (filter (fun y => k =? key y) l) as [|y ys] eqn:Ef;
    [reflexivity|].
  assert (In y (filter (fun y => k =? key y) l)) as Hy
      by (rewrite Ef; left; reflexivity).
  apply filter_In in Hy. destruct Hy as (Hy & Ek). apply String.eqb_eq in Ek.
  exfalso. apply Hnotin. rewrite <- E, Ek. apply in_map. assumption.
Qed.
End UniqueKey.

Lemma left_join_one {A B : Type} (on : A -> B -> bool) (a : A) (r : list B) :
  filter (on a) r = match find (on a) r with Some x => [x] | None => [] end ->
  Sql.left_join on [a] r = [(a, find (on a) r)].
Proof.
  intros H. unfold Sql.left_join. simpl. rewrite H.
  destruct (find (on a) r); reflexivity.
Qed.

Lemma left_join_app {A B : Type} (on : A -> B -> bool) (l1 l2 : list A)
  (r : list B) :
  Sql.left_join on (l1 ++ l2) r = Sql.left_join on l1 r ++ Sql.left_join on l2 r.
Proof. unfold Sql.left_join. apply flat_map_app. Qed.

Lemma inventory_days_app (g1 g2 : list avt_jrow) :
  inventory_days (g1 ++ g2) = inventory_days g1 ++ inventory_days g2.
Proof. unfold inventory_days. apply flat_map_app. Qed.

(** Under the keys, the values averaged for a type are the days in
    inventory of its sold vehicles, vehicle by vehicle. *)
Lemma inventory_days_by_vehicle (db : Database) (type : string)
  (vehicles : list VehicleRow) :
  report_keys db ->
  In type (VehicleType db) ->
  inventory_days
    (filter (fun b => type =? a_vt b)
       (map (fun r : VehicleRow * string * option PurchaseRow * option SaleRow =>
               let '(v, vt, pt, st) := r in
               {| a_v := v; a_vt := vt; a_pt := pt; a_st := st |})
          (Sql.left_join
             (fun (l : VehicleRow * string * option PurchaseRow) st =>
                v_vin (fst (fst l)) =? st_vin st)
             (Sql.left_join
                (fun (l : VehicleRow * string) pt => v_vin (fst l) =? pt_vin pt)
                (Sql.inner_join (fun v vt => v_type v =? vt)
                                vehicles (VehicleType db))
                (PurchaseTransaction db))
             (SaleTransaction db))))
  = flat_map (days_of_vehicle db type) vehicles.
Proof.
  intros (Ktype & Kpt & Kst) Htype.
  induction vehicles as [|v vs IH]; [reflexivity|].
  change (Sql.inner_join (fun v vt => v_type v =? vt) (v :: vs) (VehicleType db))
    with (map (fun vt => (v, vt))
              (filter (fun vt => v_type v =? vt) (VehicleType db))
          ++ Sql.inner_join (fun v vt => v_type v =? vt) vs (VehicleType db)).
  rewrite !left_join_app, map_app, filter_app, inventory_days_app, IH.
  simpl flat_map. f_equal.
  rewrite (filter_by_key (fun s : string => s)) by (rewrite map_id; exact Ktype).
  unfold days_of_vehicle, sale_of, purchase_of.
  destruct (find (fun vt => v_type v =? vt) (VehicleType db)) as [vt|] eqn:Ef.
  - apply find_some in Ef. destruct Ef as (_ & Evt). apply String.eqb_eq in Evt.
    subst vt.
    change (map (fun vt : string => (v, vt)) _) with [(v, v_type v)].
    rewrite (left_join_one _ (v, v_type v) (PurchaseTransaction db))
      by (apply (filter_by_key pt_vin); exact Kpt).
    rewrite (left_join_one _ (v, v_type v, _) (SaleTransaction db))
      by (apply (filter_by_key st_vin); exact Kst).
    simpl. rewrite (String.eqb_sym type (v_type v)).
    destruct (v_type v =? type); [|reflexivity].
    simpl.
    destruct (find (fun st => v_vin v =? st_vin st) (SaleTransaction db));
      destruct (find (fun pt => v_vin v =? pt_vin pt) (PurchaseTransaction db));
      reflexivity.
  - simpl.
    destruct (String.eqb_spec (v_type v) type) as [E|N]; [|reflexivity].
    exfalso. rewrite <- E in Htype.
    pose proof (find_none _ _ Ef _ Htype) as Hn.
    rewrite String.eqb_refl in Hn. discriminate.
Qed.

(** Under the keys, a row that is not N/A shows the mean over the sold
    vehicles of its type of the days between purchase and sale plus one,
    rounded to two decimals and written as text, the CASE expression
    having a text branch. *)
Lemma average_inventory_time_mean (db : Database) (row : AvtRow) :
  report_keys db ->
  In row (avt_rows db) ->
  avt_AvgInventoryTime row <> Text "N/A" ->
  avt_AvgInventoryTime row
  = opt_cell Text
      (option_map (fun x => Sql.decimal_text 2 (nearest_cent x))
                  (Sql.AVG (sold_inventory_days db (avt_VehicleType row)))).
Proof.
  intros Hkeys Hrow Hna. unfold avt_rows in Hrow.
  apply SqlFacts.in_order_by in Hrow. apply in_map_iff in Hrow.
  destruct Hrow as ((rep & g) & <- & Hg).
  apply SqlFacts.in_group_by in Hg. destruct Hg as (Hrep & ->).
  unfold avt_select in *. simpl in *.
  destruct (Nat.eqb (count_sold_on
                       (filter (fun b => a_vt rep =? a_vt b) (avt_from db))) 0);
    [contradiction|].
  apply in_avt_from in Hrep. destruct Hrep as (_ & Hvt & _).
  unfold sold_inventory_days.
  rewrite <- (inventory_days_by_vehicle db (a_vt rep) (Vehicle db) Hkeys Hvt).
  destruct (Sql.AVG _); [|reflexivity].
  simpl. rewrite <- ROUND_2_nearest_cent. reflexivity.
Qed.

(** C8 on the sample database.  The type table lists Convertible, SUV
    and Sedan and no vehicle is a convertible: the report has a row for
    Sedan (one sale after 10 days, the text 11.00) and then a row for SUV
    (no sale, N/A), in the order of the collation, and no row for
    Convertible, a type with zero sold vehicles. *)
Theorem average_inventory_time_skips_types_without_vehicle :
  In "Convertible" (VehicleType sample_db)
  /\ (forall v, In v (Vehicle sample_db) -> v_type v <> "Convertible")
  /\ average_inventory_time_report sample_db
     = {| columns := ["Vehicle Type"; "Avg Inventory Time"];
          data := [[Text "Sedan"; Text "11.00"];
                   [Text "SUV"; Text "N/A"]] |}
  /\ ~ In (Text "Convertible")
          (column "Vehicle Type" (average_inventory_time_report sample_db)).
Proof.
  split; [simpl; tauto|]. split.
  - intros v Hv. simpl in Hv.
    destruct Hv as [<-|[<-|[<-|[]]]]; discriminate.
  - split; [vm_compute; reflexivity|].
    vm_compute. intros [H|[H|[]]]; discriminate H.
Qed.

(* ===================================================================== *)
(** * Further properties of [search_vehicles] *)
(* ===================================================================== *)

Lemma and_conds_app (fs gs : list fragment) :
  and_conds (fs ++ gs) = and_conds fs ++ and_conds gs.
Proof. unfold and_conds. apply flat_map_app. Qed.

(** The rows fetched for a role of the enumeration come from joined rows
    that satisfy every condition appended for a filter. *)
Lemma known_role_rows (db : Database) (a : search_args) :
  In (role a) roles ->
  exists rows,
    search_vehicles_rows db a = Some rows
    /\ forall row, In row rows ->
         exists rep g,
           row = select_list (rep, g)
           /\ In rep (from_clause db [])
           /\ (forall r, In r g ->
                 In r (from_clause db [])
                 /\ forall c : cond,
                      In c (and_conds (filter_fragments a)) -> c db r = true)
           /\ In rep g.
Proof.
  intros Hrole. unfold search_vehicles_rows, execute_search.
  rewrite parse_query_fragments.
  destruct (role_fragments_shape a) as [(_ & c & rest & -> & _)|(Hn & _)];
    [|contradiction].
  eexists. split; [reflexivity|]. intros row Hrow.
  apply SqlFacts.in_order_by in Hrow. apply in_map_iff in Hrow.
  destruct Hrow as ((rep & g) & <- & Hg).
  pose proof (SqlFacts.in_group_by _ _ _ _ Hg) as (Hrep & Hgeq).
  exists rep, g. split; [reflexivity|].
  simpl in Hrep. apply filter_In in Hrep. destruct Hrep as (Hfrom & Hw).
  split; [assumption|]. split.
  - intros r Hr. rewrite Hgeq in Hr. apply filter_In in Hr.
    destruct Hr as (Hr & _). simpl in Hr. apply filter_In in Hr.
    destruct Hr as (Hr & Hwr). split; [assumption|].
    intros c0 Hc0. simpl in Hwr. apply andb_true_iff in Hwr.
    destruct Hwr as (_ & Hwr). rewrite forallb_forall in Hwr.
    apply Hwr. apply in_or_app. right. assumption.
  - rewrite Hgeq. apply filter_In. split.
    + simpl. apply filter_In. auto.
    + unfold same_group. rewrite !String.eqb_refl, !Z.eqb_refl. simpl.
      assert (forall o : option Q, Sql.opt_same Qeq_bool o o = true) as HQ
          by (intros [q|]; simpl; [apply Qeq_bool_refl|reflexivity]).
      assert (forall o : option Z, Sql.opt_same Z.eqb o o = true) as HZ
          by (intros [z|]; simpl; [apply Z.eqb_refl|reflexivity]).
      assert (forall o : option string, Sql.opt_same String.eqb o o = true) as HS
          by (intros [s|]; simpl; [apply String.eqb_refl|reflexivity]).
      rewrite !HQ, HZ, HS. reflexivity.
Qed.

Lemma filter_conds_of (a : search_args) :
  (forall t, vehicle_type a = Some t -> t <> "" -> t <> "Any" ->
             In (vehicle_type_is t) (and_conds (filter_fragments a)))
  /\ (forall m, manufacturer a = Some m -> m <> "" -> m <> "Any" ->
                In (manufacturer_is m) (and_conds (filter_fragments a)))
  /\ (forall y, year a = Some (YearIs y) -> y <> 0%Z ->
                In (year_is y) (and_conds (filter_fragments a)))
  /\ (forall f, fuel_type a = Some f -> f <> "" -> f <> "Any" ->
                In (fuel_type_is f) (and_conds (filter_fragments a)))
  /\ (forall c, color a = Some c -> c <> "" -> c <> "Any" ->
                In (color_is c) (and_conds (filter_fragments a)))
  /\ (forall k, keyword a = Some k -> k <> "" ->
                In (keyword_matches k) (and_conds (filter_fragments a)))
  /\ (forall v, vin a = Some v -> v <> "" ->
                In (vin_is v) (and_conds (filter_fragments a))).
Proof.
  unfold filter_fragments. rewrite !and_conds_app.
  assert (Hs : forall (x : option string) (c : string -> cond) s,
             x = Some s -> s <> "" -> s <> "Any" ->
             In (c s) (and_conds (string_filter x c))).
  { intros x c s -> H1 H2. unfold string_filter, truthy, not_any.
    apply String.eqb_neq in H1, H2. rewrite H1, H2. simpl. auto. }
  assert (Hp : forall (x : option string) (c : string -> cond) s,
             x = Some s -> s <> "" ->
             In (c s) (and_conds (plain_filter x c))).
  { intros x c s -> H1. unfold plain_filter, truthy.
    apply String.eqb_neq in H1. rewrite H1. simpl. auto. }
  assert (Hy : forall (x : option year_arg) y,
             x = Some (YearIs y) -> y <> 0%Z ->
             In (year_is y) (and_conds (year_filter x))).
  { intros x y -> H1. unfold year_filter. apply Z.eqb_neq in H1.
    rewrite H1. simpl. auto. }
  repeat split; intros;
    repeat (apply in_or_app;
            first [ left; solve [ eapply Hs; eassumption
                                | eapply Hp; eassumption
                                | eapply Hy; eassumption ]
                  | right ]);
    solve [ eapply Hp; eassumption ].
Qed.

(** The collation takes two texts for the same exactly when they are
    equal without regard to the case of their letters. *)
Lemma lower_upcase (c : ascii) : lower (Sql.upcase c) = lower c.
Proof. destruct c as [[] [] [] [] [] [] [] []]; reflexivity. Qed.

Lemma upcase_lower (c : ascii) : Sql.upcase (lower c) = Sql.upcase c.
Proof. destruct c as [[] [] [] [] [] [] [] []]; reflexivity. Qed.

Lemma lowercase_collate (s : string) : lowercase (Sql.collate s) = lowercase s.
Proof.
  induction s as [|c s IH]; simpl; [reflexivity|].
  rewrite lower_upcase, IH. reflexivity.
Qed.

Lemma collate_lowercase (s : string) : Sql.collate (lowercase s) = Sql.collate s.
Proof.
  induction s as [|c s IH]; simpl; [reflexivity|].
  rewrite upcase_lower, IH. reflexivity.
Qed.

Lemma same_text_spec (a b : string) :
  Sql.same_text a b = true <-> equal_ignoring_case a b.
Proof.
  unfold equal_ignoring_case. rewrite SqlFacts.same_text_eq. split; intros H.
  - rewrite <- (lowercase_collate a), <- (lowercase_collate b), H. reflexivity.
  - rewrite <- (collate_lowercase a), <- (collate_lowercase b), H. reflexivity.
Qed.

Lemma search_vehicles_rows_respect_filters
  (db : Database) (a : search_args) (rows : list ResultRow) (row : ResultRow) :
  In (role a) roles ->
  search_vehicles_rows db a = Some rows ->
  In row rows ->
  (forall t, vehicle_type a = Some t -> t <> "" -> t <> "Any" ->
             equal_ignoring_case (VehicleType_ row) t)
  /\ (forall m, manufacturer a = Some m -> m <> "" -> m <> "Any" ->
                equal_ignoring_case (Manufacturer row) m)
  /\ (forall y, year a = Some (YearIs y) -> y <> 0%Z -> Year row = y)
  /\ (forall f, fuel_type a = Some f -> f <> "" -> f <> "Any" ->
                equal_ignoring_case (FuelType row) f)
  /\ (forall v, vin a = Some v -> v <> "" -> equal_ignoring_case (VIN row) v)
  /\ (forall k, keyword a = Some k -> k <> "" ->
                let pat := ("%" ++ k ++ "%")%string in
                Sql.LIKE (Manufacturer row) pat
                || Sql.LIKE (Model row) pat
                || Sql.LIKE (Sql.CAST_CHAR (Year row)) pat
                || match Description row with
                   | Some d => Sql.LIKE d pat
                   | None => false
                   end = true).
Proof.
  intros Hrole Hrows Hrow.
  destruct (known_role_rows db a Hrole) as (rows' & Hrows' & Hall).
  rewrite Hrows in Hrows'. inversion Hrows'; subst rows'.
  destruct (Hall row Hrow) as (rep & g & -> & _ & Hg & Hrep).
  destruct (Hg rep Hrep) as (_ & Hconds).
  destruct (filter_conds_of a) as (Ht & Hm & Hy & Hf & _ & Hk & Hv).
  simpl. repeat split.
  - intros t H1 H2 H3. apply same_text_spec. exact (Hconds _ (Ht t H1 H2 H3)).
  - intros m H1 H2 H3. apply same_text_spec. exact (Hconds _ (Hm m H1 H2 H3)).
  - intros y H1 H2. apply Z.eqb_eq. exact (Hconds _ (Hy y H1 H2)).
  - intros f H1 H2 H3. apply same_text_spec. exact (Hconds _ (Hf f H1 H2 H3)).
  - intros v H1 H2. apply same_text_spec. exact (Hconds _ (Hv v H1 H2)).
  - intros k H1 H2. exact (Hconds _ (Hk k H1 H2)).
Qed.

(** X1. For a caller with one of the five roles, no fetched row
    contradicts a supplied filter: the row has the requested vehicle type,
    manufacturer, fuel type and VIN, each without regard to the case of
    the letters, and the requested year, and the pattern of the keyword
    matches its manufacturer, model, year or description. *)
Theorem search_vehicles_respects_filters
  (db : Database) (a : search_args) (rows : list ResultRow) (row : ResultRow) :
  In (role a) roles ->
  search_vehicles_rows db a = Some rows ->
  In row rows ->
  (forall t, vehicle_type a = Some t -> t <> "" -> t <> "Any" ->
             equal_ignoring_case (VehicleType_ row) t)
  /\ (forall m, manufacturer a = Some m -> m <> "" -> m <> "Any" ->
                equal_ignoring_case (Manufacturer row) m)
  /\ (forall y, year a = Some (YearIs y) -> y <> 0%Z -> Year row = y)
  /\ (forall f, fuel_type a = Some f -> f <> "" -> f <> "Any" ->
                equal_ignoring_case (FuelType row) f)
  /\ (forall v, vin a = Some v -> v <> "" -> equal_ignoring_case (VIN row) v)
  /\ (forall k, keyword a = Some k -> k <> "" ->
                let pat := ("%" ++ k ++ "%")%string in
                Sql.LIKE (Manufacturer row) pat
                || Sql.LIKE (Model row) pat
                || Sql.LIKE (Sql.CAST_CHAR (Year row)) pat
                || match Description row with
                   | Some d => Sql.LIKE d pat
                   | None => false
                   end = true).
Proof. apply search_vehicles_rows_respect_filters. Qed.

Lemma search_vehicles_respects_filters_witness :
  exists rows row,
    search_vehicles_rows sample_db manager_lowercase_search = Some rows
    /\ map (fun r => (VIN r, VehicleType_ r, Manufacturer r, Model r, FuelType r))
           rows
       = [("2T1BURHE5JC034461", "SUV", "Honda", "Accord", "Gas")]
    /\ In row rows
    /\ equal_ignoring_case (VehicleType_ row) "suv"
    /\ equal_ignoring_case (Manufacturer row) "HONDA"
    /\ equal_ignoring_case (FuelType row) "gas"
    /\ equal_ignoring_case (VIN row) "2t1burhe5jc034461"
    /\ Sql.LIKE (Model row) "%accord%" = true
    /\ Sql.LIKE (Manufacturer row) "%accord%" = false.
Proof.
  eexists. eexists. split; [vm_compute; reflexivity|].
  split; [reflexivity|]. split; [left; reflexivity|].
  destruct (search_vehicles_respects_filters
              sample_db manager_lowercase_search _ _
              (or_intror (or_intror (or_intror (or_introl eq_refl))))
              eq_refl (or_introl eq_refl))
    as (Ht & Hm & _ & Hf & Hv & _).
  split; [apply Ht; [reflexivity|discriminate|discriminate]|].
  split; [apply Hm; [reflexivity|discriminate|discriminate]|].
  split; [apply Hf; [reflexivity|discriminate|discriminate]|].
  split; [apply Hv; [reflexivity|discriminate]|].
  split; reflexivity.
Defined.

Lemma distinct_constant (c : string) (l : list string) :
  l <> [] -> (forall x, In x l -> x = c) -> Sql.distinct String.eqb l = [c].
Proof.
  induction l as [|x l IH]; intros Hne Hall; [contradiction|].
  simpl. rewrite (Hall x (or_introl eq_refl)). f_equal.
  destruct l as [|y l]; [reflexivity|].
  rewrite IH; [|discriminate|intros z Hz; apply Hall; right; assumption].
  simpl. rewrite String.eqb_refl. reflexivity.
Qed.

(** X2. Under a colour filter, the Colors column of every fetched
    row shows that colour alone, whatever other colours the vehicle has:
    the filter is applied to the joined rows before they are grouped. *)
Theorem search_vehicles_color_filter_hides_other_colors
  (db : Database) (a : search_args) (rows : list ResultRow) (row : ResultRow)
  (c : string) :
  In (role a) roles ->
  color a = Some c -> c <> "" -> c <> "Any" ->
  search_vehicles_rows db a = Some rows ->
  In row rows ->
  Colors row = Some c.
Proof.
  intros Hrole Hc Hne Hany Hrows Hrow.
  destruct (known_role_rows db a Hrole) as (rows' & Hrows' & Hall).
  rewrite Hrows in Hrows'. inversion Hrows'; subst rows'.
  destruct (Hall row Hrow) as (rep & g & -> & _ & Hg & Hrep).
  destruct (filter_conds_of a) as (_ & _ & _ & _ & Hcol & _).
  specialize (Hcol c Hc Hne Hany).
  simpl. unfold group_colors.
  rewrite (distinct_constant c).
  - reflexivity.
  - destruct (Hg rep Hrep) as (_ & Hconds). specialize (Hconds _ Hcol).
    unfold color_is in Hconds.
    intros Hnil.
    assert (In c (flat_map (fun r => match j_vc r with
                                     | Some vc => [vc_color vc]
                                     | None => []
                                     end) g)) as Hin.
    { apply in_flat_map. exists rep. split; [assumption|].
      destruct (j_vc rep) as [vc|]; [|discriminate].
      apply String.eqb_eq in Hconds. left. assumption. }
    rewrite Hnil in Hin. destruct Hin.
  - intros x Hx. apply in_flat_map in Hx. destruct Hx as (r & Hr & Hx).
    destruct (Hg r Hr) as (_ & Hconds). specialize (Hconds _ Hcol).
    unfold color_is in Hconds.
    destruct (j_vc r) as [vc|]; [|discriminate].
    apply String.eqb_eq in Hconds. destruct Hx as [<-|[]]. assumption.
Qed.

Lemma search_vehicles_color_filter_hides_other_colors_witness :
  exists rows row,
    search_vehicles_rows sample_db owner_black_search = Some rows
    /\ In row rows /\ VIN row = "1HGCM82633A004352"
    /\ Colors row = Some "Black".
Proof.
  eexists. eexists. split; [vm_compute; reflexivity|].
  split; [left; reflexivity|]. split; [reflexivity|].
  eapply (search_vehicles_color_filter_hides_other_colors
            sample_db owner_black_search).
  - simpl. tauto.
  - reflexivity.
  - discriminate.
  - discriminate.
  - vm_compute. reflexivity.
  - left. reflexivity.
Defined.

Lemma NoDup_map_eq {A : Type} (f : A -> string) (l : list A) (x y : A) :
  NoDup (map f l) -> In x l -> In y l -> f x = f y -> x = y.
Proof.
  induction l as [|z l IH]; simpl; intros Hnd Hx Hy E; [contradiction|].
  inversion Hnd as [|? ? Hnotin Hnd']; subst.
  destruct Hx as [<-|Hx], Hy as [<-|Hy]; auto.
  - exfalso. apply Hnotin. rewrite E. apply in_map. assumption.
  - exfalso. apply Hnotin. rewrite <- E. apply in_map. assumption.
Qed.

(** Representatives are pairwise different on a column that determines
    the grouping columns. *)
Lemma distinct_NoDup_on {A : Type} (same : A -> A -> bool) (f : A -> string)
  (l : list A) :
  (forall a b, In a l -> In b l -> f a = f b -> same a b = true) ->
  NoDup (map f (Sql.distinct same l)).
Proof.
  induction l as [|x l IH]; simpl; intros H; [constructor|].
  constructor.
  - intros Hin. apply in_map_iff in Hin. destruct Hin as (y & Ey & Hy).
    apply filter_In in Hy. destruct Hy as (Hy & Hneg).
    apply SqlFacts.distinct_incl in Hy.
    rewrite (H x y) in Hneg; [discriminate|left; reflexivity|right; assumption|].
    symmetry. assumption.
  - apply SqlFacts.NoDup_map_filter. apply IH.
    intros a b Ha Hb. apply H; right; assumption.
Qed.

Lemma opt_same_refl {T : Type} (eqb : T -> T -> bool) (o : option T) :
  (forall x, eqb x x = true) -> Sql.opt_same eqb o o = true.
Proof. intros H. destruct o; simpl; auto. Qed.

(** Under the keys, two joined rows of one vehicle fall in one group. *)
Lemma same_vin_same_group (db : Database) (extra : list cond) (a b : jrow) :
  vehicle_keys db ->
  In a (from_clause db extra) -> In b (from_clause db extra) ->
  v_vin (j_v a) = v_vin (j_v b) -> same_group a b = true.
Proof.
  intros (Kv & Kst & Kpt) Ha Hb E.
  apply in_from_clause in Ha, Hb.
  destruct Ha as (Hva & Hsa & Hpa & _), Hb as (Hvb & Hsb & Hpb & _).
  assert (j_v a = j_v b) as Ev by (eapply NoDup_map_eq; eassumption).
  assert (j_st a = j_st b) as Es.
  { destruct (j_st a) as [sa|], (j_st b) as [sb|]; try reflexivity.
    - f_equal. apply (NoDup_map_eq st_vin (SaleTransaction db)); try tauto.
      destruct Hsa as (_ & ->), Hsb as (_ & ->). assumption.
    - exfalso. apply Hsb. exists sa. rewrite <- E. exact Hsa.
    - exfalso. apply Hsa. exists sb. rewrite E. exact Hsb. }
  assert (j_pt a = j_pt b) as Ep.
  { destruct (j_pt a) as [pa|], (j_pt b) as [pb|]; try reflexivity.
    - f_equal. apply (NoDup_map_eq pt_vin (PurchaseTransaction db)); try tauto.
      destruct Hpa as (_ & ->), Hpb as (_ & ->). assumption.
    - exfalso. destruct Hpa as (Hin & Ea). apply (Hpb pa Hin). congruence.
    - exfalso. destruct Hpb as (Hin & Eb). apply (Hpa pb Hin). congruence. }
  unfold same_group. rewrite Ev, Es, Ep.
  rewrite !String.eqb_refl, !Z.eqb_refl. simpl.
  rewrite !(opt_same_refl Qeq_bool) by apply Qeq_bool_refl.
  rewrite (opt_same_refl Z.eqb) by apply Z.eqb_refl.
  rewrite (opt_same_refl String.eqb) by apply String.eqb_refl.
  reflexivity.
Qed.

Lemma fetched_rows_sorted_unique
  (db : Database) (a : search_args) (rows : list ResultRow) :
  search_vehicles_rows db a = Some rows ->
  Sorted (Sql.key_le VIN) rows
  /\ (vehicle_keys db -> NoDup (map VIN rows)).
Proof.
  unfold search_vehicles_rows, execute_search.
  destruct (parse (query_fragments a)) as [q|]; [|discriminate].
  intros H. inversion H; subst rows. clear H.
  split; [apply SqlFacts.order_by_sorted|].
  intros Hkeys.
  eapply Permutation_NoDup.
  - apply Permutation_map. apply Permutation_sym. apply SqlFacts.order_by_perm.
  - unfold Sql.group_by. rewrite !map_map. simpl.
    apply (distinct_NoDup_on same_group (fun r => v_vin (j_v r))).
    intros x y Hx Hy E.
    apply where_rows_incl in Hx, Hy.
    eapply same_vin_same_group; eassumption.
Qed.

(** X3. Whatever the arguments, the fetched rows are in ascending
    order of VIN by the collation, which takes letters without regard to
    case, and under the keys of Vehicle, SaleTransaction and
    PurchaseTransaction no VIN is listed twice. *)
Theorem search_vehicles_sorted_one_row_per_vin
  (db : Database) (a : search_args) (rows : list ResultRow) :
  search_vehicles_rows db a = Some rows ->
  Sorted (fun r1 r2 =>
            String.leb (Sql.collate (VIN r1)) (Sql.collate (VIN r2)) = true)
         rows
  /\ (vehicle_keys db -> NoDup (map VIN rows)).
Proof. apply fetched_rows_sorted_unique. Qed.

Lemma search_vehicles_sorted_one_row_per_vin_witness :
  exists rows,
    search_vehicles_rows mixed_case_db (no_filters "Owner") = Some rows
    /\ map VIN rows
       = ["1hgcm82633a004352"; "jh4da9350ls000001"; "JH4KA7561PC008269"]
    /\ map Sql.collate (map VIN rows)
       = ["1HGCM82633A004352"; "JH4DA9350LS000001"; "JH4KA7561PC008269"]
    /\ Sorted (fun r1 r2 =>
                 String.leb (Sql.collate (VIN r1)) (Sql.collate (VIN r2)) = true)
              rows
    /\ NoDup (map VIN rows).
Proof.
  eexists. split; [vm_compute; reflexivity|].
  split; [reflexivity|]. split; [reflexivity|].
  destruct (search_vehicles_sorted_one_row_per_vin
              mixed_case_db (no_filters "Owner") _ eq_refl) as (Hs & Hn).
  split; [exact Hs|]. apply Hn.
  repeat split; simpl;
    repeat (constructor; [simpl; intros H;
                          repeat (destruct H as [H|H]; [discriminate H|]);
                          exact H|]);
    constructor.
Defined.

(** The VINs fetched under a WHERE clause are those of the joined rows
    that satisfy it. *)
Lemma listed_vins (db : Database) (ws : list cond) (vin : string) :
  In vin
     (map VIN
        (Sql.order_by VIN
           (map select_list
              (Sql.group_by same_group
                 (where_rows db (Some ws) (from_clause db []))))))
  <-> exists r, In r (from_clause db [])
                /\ forallb (fun c : cond => c db r) ws = true
                /\ v_vin (j_v r) = vin.
Proof.
  split.
  - intros H. apply in_map_iff in H. destruct H as (row & <- & Hrow).
    apply (in_executed_rows db {| on_extra := []; where_clause := Some ws |})
      in Hrow.
    destruct Hrow as (rep & g & Hrep & ->). simpl in Hrep.
    apply filter_In in Hrep. exists rep. tauto.
  - intros (r & Hr & Hw & <-).
    apply (executed_rows_cover db {| on_extra := []; where_clause := Some ws |}).
    simpl. apply filter_In. auto.
Qed.

Lemma search_rows_known (db : Database) (a : search_args) (c : cond)
  (rest : list fragment) :
  role_fragments a = WHERE c :: rest ->
  search_vehicles_rows db a
  = Some (Sql.order_by VIN
            (map select_list
               (Sql.group_by same_group
                  (where_rows db
                     (Some (c :: and_conds rest ++ and_conds (filter_fragments a)))
                     (from_clause db []))))).
Proof.
  intros H. unfold search_vehicles_rows, execute_search.
  rewrite parse_query_fragments, H. reflexivity.
Qed.

Lemma listings_nested
  (db : Database) (a : search_args) (r1 r3 : string) (s1 s2 : option string)
  (public clerk manager : list ResultRow) :
  r1 = "Public" \/ r1 = "Salesperson" ->
  r3 = "Manager" \/ r3 = "Owner" ->
  search_vehicles_rows db (with_role r1 s1 a) = Some public ->
  search_vehicles_rows db (with_role "Inventory clerk" s2 a) = Some clerk ->
  search_vehicles_rows db (with_role r3 None a) = Some manager ->
  incl (map VIN public) (map VIN clerk)
  /\ incl (map VIN clerk) (map VIN manager).
Proof.
  intros H1 H3.
  rewrite (search_rows_known db (with_role r1 s1 a)
             sale_price_is_null [AND no_pending_parts])
    by (destruct H1 as [->| ->]; reflexivity).
  rewrite (search_rows_known db (with_role "Inventory clerk" s2 a)
             sale_price_is_null []) by reflexivity.
  rewrite (search_rows_known db (with_role r3 None a) always [])
    by (destruct H3 as [->| ->]; reflexivity).
  change (filter_fragments (with_role r1 s1 a)) with (filter_fragments a).
  change (filter_fragments (with_role "Inventory clerk" s2 a))
    with (filter_fragments a).
  change (filter_fragments (with_role r3 None a)) with (filter_fragments a).
  intros HP HC HM. injection HP as <-. injection HC as <-. injection HM as <-.
  split; intros vin Hin.
  - apply (proj1 (listed_vins db
                    (sale_price_is_null :: no_pending_parts
                       :: and_conds (filter_fragments a)) vin)) in Hin.
    apply (proj2 (listed_vins db
                    (sale_price_is_null :: and_conds (filter_fragments a)) vin)).
    destruct Hin as (r & Hr & Hw & E). exists r. split; [assumption|].
    split; [|assumption]. simpl in *.
    apply andb_true_iff in Hw. destruct Hw as (Hs & Hw).
    apply andb_true_iff in Hw. destruct Hw as (_ & Hw).
    rewrite Hs. exact Hw.
  - apply (proj1 (listed_vins db
                    (sale_price_is_null :: and_conds (filter_fragments a)) vin))
      in Hin.
    apply (proj2 (listed_vins db (always :: and_conds (filter_fragments a)) vin)).
    destruct Hin as (r & Hr & Hw & E). exists r. split; [assumption|].
    split; [|assumption]. simpl in *.
    apply andb_true_iff in Hw. destruct Hw as (_ & Hw). exact Hw.
Qed.

(** X4. Visibility is nested: with the same filters, every VIN
    listed for the role Public or Salesperson is listed for the inventory
    clerk, and every VIN listed for the inventory clerk is listed for the
    Manager or Owner whose vehicle_status is not set. *)
Theorem search_vehicles_roles_nested
  (db : Database) (a : search_args) (r1 r3 : string) (s1 s2 : option string)
  (public clerk manager : list ResultRow) :
  r1 = "Public" \/ r1 = "Salesperson" ->
  r3 = "Manager" \/ r3 = "Owner" ->
  search_vehicles_rows db (with_role r1 s1 a) = Some public ->
  search_vehicles_rows db (with_role "Inventory clerk" s2 a) = Some clerk ->
  search_vehicles_rows db (with_role r3 None a) = Some manager ->
  incl (map VIN public) (map VIN clerk)
  /\ incl (map VIN clerk) (map VIN manager).
Proof. apply listings_nested. Qed.

Lemma search_vehicles_roles_nested_witness :
  exists public clerk manager,
    search_vehicles_rows sample_db (with_role "Salesperson" None (no_filters ""))
    = Some public
    /\ search_vehicles_rows sample_db
         (with_role "Inventory clerk" None (no_filters "")) = Some clerk
    /\ search_vehicles_rows sample_db (with_role "Owner" None (no_filters ""))
       = Some manager
    /\ map VIN public = ["1HGCM82633A004352"]
    /\ map VIN clerk = ["1HGCM82633A004352"; "2T1BURHE5JC034461"]
    /\ map VIN manager
       = ["1HGCM82633A004352"; "2T1BURHE5JC034461"; "3FA6P0H73HR123456"]
    /\ incl (map VIN public) (map VIN clerk)
    /\ incl (map VIN clerk) (map VIN manager).
Proof.
  do 3 eexists.
  split; [vm_compute; reflexivity|].
  split; [vm_compute; reflexivity|].
  split; [vm_compute; reflexivity|].
  split; [reflexivity|]. split; [reflexivity|]. split; [reflexivity|].
  apply (search_vehicles_roles_nested sample_db (no_filters "")
           "Salesperson" "Owner" None None).
  - right. reflexivity.
  - right. reflexivity.
  - vm_compute. reflexivity.
  - vm_compute. reflexivity.
  - vm_compute. reflexivity.
Defined.


Lemma visibility_by_role (db : Database) :
  exists public clerk manager manager_unsold,
    search_vehicles_rows db (no_filters "Public") = Some public
    /\ search_vehicles_rows db (no_filters "Inventory clerk") = Some clerk
    /\ search_vehicles_rows db (no_filters "Manager") = Some manager
    /\ search_vehicles_rows db (with_role "Manager" (Some "Unsold") (no_filters ""))
       = Some manager_unsold
    /\ (forall vin, In vin (map VIN public) <->
                    In vin (map v_vin (Vehicle db))
                    /\ ~ has_sale db vin /\ ~ has_pending_part db vin)
    /\ (forall vin, In vin (map VIN clerk) <->
                    In vin (map v_vin (Vehicle db)) /\ ~ has_sale db vin)
    /\ (forall vin, In vin (map VIN manager) <-> In vin (map v_vin (Vehicle db)))
    /\ (forall vin, In vin (map VIN manager_unsold) <->
                    In vin (map v_vin (Vehicle db)) /\ ~ has_sale db vin).
Proof.
  rewrite (search_rows_known db (no_filters "Public")
             sale_price_is_null [AND no_pending_parts]) by reflexivity.
  rewrite (search_rows_known db (no_filters "Inventory clerk")
             sale_price_is_null []) by reflexivity.
  rewrite (search_rows_known db (no_filters "Manager") always []) by reflexivity.
  rewrite (search_rows_known db
             (with_role "Manager" (Some "Unsold") (no_filters ""))
             sale_price_is_null []) by reflexivity.
  do 4 eexists. do 4 (split; [reflexivity|]).
  assert (Hnull : forall r, In r (from_clause db []) ->
                    (sale_price_is_null db r = true
                     <-> ~ has_sale db (v_vin (j_v r)))).
  { intros r Hr. apply in_from_clause in Hr. destruct Hr as (_ & Hst & _).
    unfold sale_price_is_null. destruct (j_st r) as [st|]; simpl.
    - split; [discriminate|]. intros H. exfalso. apply H. exists st. exact Hst.
    - tauto. }
  assert (Hveh : forall vin, In vin (map v_vin (Vehicle db)) ->
                   exists r, In r (from_clause db []) /\ v_vin (j_v r) = vin).
  { intros vin H. apply in_map_iff in H. destruct H as (v & <- & Hv).
    destruct (from_clause_total db [] v Hv) as (r & Hr & <-). eauto. }
  assert (Hin : forall r, In r (from_clause db []) ->
                  In (v_vin (j_v r)) (map v_vin (Vehicle db))).
  { intros r Hr. apply in_from_clause in Hr. apply in_map. tauto. }
  assert (Hunsold : forall x,
             (exists r, In r (from_clause db [])
                        /\ forallb (fun c : cond => c db r) [sale_price_is_null]
                           = true
                        /\ v_vin (j_v r) = x)
             <-> In x (map v_vin (Vehicle db)) /\ ~ has_sale db x).
  { intros x. split.
    - intros (r & Hr & Hw & <-). split; [auto|].
      simpl in Hw. apply andb_true_iff in Hw. apply (Hnull r Hr). tauto.
    - intros (Hv & Hs). destruct (Hveh x Hv) as (r & Hr & <-). exists r.
      split; [assumption|]. split; [|reflexivity]. simpl.
      rewrite (proj2 (Hnull r Hr) Hs). reflexivity. }
  split; [|split; [|split]]; intros x.
  - rewrite (listed_vins db [sale_price_is_null; no_pending_parts] x). split.
    + intros (r & Hr & Hw & <-). simpl in Hw.
      apply andb_true_iff in Hw. destruct Hw as (Hs & Hw).
      apply andb_true_iff in Hw. destruct Hw as (Hp & _).
      split; [auto|]. split; [apply (Hnull r Hr); assumption|].
      unfold no_pending_parts in Hp. apply negb_true_iff in Hp.
      apply pending_part_exists_false. assumption.
    + intros (Hv & Hs & Hp). destruct (Hveh x Hv) as (r & Hr & <-). exists r.
      split; [assumption|]. split; [|reflexivity]. simpl.
      rewrite (proj2 (Hnull r Hr) Hs). unfold no_pending_parts.
      rewrite (proj2 (pending_part_exists_false db _) Hp). reflexivity.
  - rewrite (listed_vins db [sale_price_is_null] x). apply Hunsold.
  - rewrite (listed_vins db [always] x). split.
    + intros (r & Hr & _ & <-). auto.
    + intros Hv. destruct (Hveh x Hv) as (r & Hr & <-). exists r. auto.
  - rewrite (listed_vins db [sale_price_is_null] x). apply Hunsold.
Qed.


Lemma COUNT_DISTINCT_ext (l1 l2 : list string) :
  (forall x, In x l1 <-> In x l2) ->
  Sql.COUNT_DISTINCT l1 = Sql.COUNT_DISTINCT l2.
Proof.
  intros H. unfold Sql.COUNT_DISTINCT. apply Permutation_length.
  apply NoDup_Permutation; try apply NoDup_distinct_eqb.
  intros x. rewrite !in_distinct_eqb. apply H.
Qed.

Lemma COUNT_DISTINCT_partition (l1 l2 l : list string) :
  (forall x, In x l <-> In x l1 \/ In x l2) ->
  (forall x, In x l1 -> ~ In x l2) ->
  (Sql.COUNT_DISTINCT l1 + Sql.COUNT_DISTINCT l2 = Sql.COUNT_DISTINCT l)%nat.
Proof.
  intros Hu Hd. unfold Sql.COUNT_DISTINCT. rewrite <- length_app.
  apply Permutation_length. apply NoDup_Permutation.
  - apply NoDup_app; try apply NoDup_distinct_eqb.
    intros x. rewrite !in_distinct_eqb. apply Hd.
  - apply NoDup_distinct_eqb.
  - intros x. rewrite in_app_iff, !in_distinct_eqb. symmetry. apply Hu.
Qed.

Lemma distinct_NoDup_id (l : list string) :
  NoDup l -> Sql.distinct String.eqb l = l.
Proof.
  induction l as [|x l IH]; simpl; intros H; [reflexivity|].
  inversion H as [|? ? Hnotin Hnd]; subst. rewrite (IH Hnd). f_equal.
  clear IH H Hnd. induction l as [|y l IH]; simpl; [reflexivity|].
  destruct (String.eqb_spec x y) as [->|N].
  - exfalso. apply Hnotin. left. reflexivity.
  - simpl. f_equal. apply IH. intros Hin. apply Hnotin. right. assumption.
Qed.

(** X6. The two figures of the search page agree with its listings:
    the count of vehicles available for sale is the number of VINs the
    role Public is shown without filters, and the two counts together are
    the number of VINs the inventory clerk is shown; under the keys these
    are the numbers of rows of the two listings. *)
Theorem vehicle_counts_match_listings (db : Database) :
  exists public clerk,
    search_vehicles_rows db (no_filters "Public") = Some public
    /\ search_vehicles_rows db (no_filters "Inventory clerk") = Some clerk
    /\ fst (get_vehicle_counts db) = Sql.COUNT_DISTINCT (map VIN public)
    /\ (fst (get_vehicle_counts db) + snd (get_vehicle_counts db)
        = Sql.COUNT_DISTINCT (map VIN clerk))%nat
    /\ (vehicle_keys db ->
        fst (get_vehicle_counts db) = List.length public
        /\ (fst (get_vehicle_counts db) + snd (get_vehicle_counts db)
            = List.length clerk)%nat).
Proof.
  destruct (visibility_by_role db)
    as (public & clerk & mgr & mgru & HP & HC & _ & _ & HvP & HvC & _).
  exists public, clerk. split; [assumption|]. split; [assumption|].
  assert (E1 : fst (get_vehicle_counts db) = Sql.COUNT_DISTINCT (map VIN public)).
  { unfold get_vehicle_counts, count_available_cars. simpl.
    apply COUNT_DISTINCT_ext. intros x. rewrite available_vins, HvP. tauto. }
  assert (E2 : (fst (get_vehicle_counts db) + snd (get_vehicle_counts db)
                = Sql.COUNT_DISTINCT (map VIN clerk))%nat).
  { unfold get_vehicle_counts, count_available_cars,
      count_cars_with_pending_parts. simpl.
    apply COUNT_DISTINCT_partition.
    - intros x. rewrite available_vins, pending_vins, HvC.
      destruct (pending_part_exists db x) eqn:E.
      + apply pending_part_exists_spec in E. tauto.
      + apply pending_part_exists_false in E. tauto.
    - intros x. rewrite available_vins, pending_vins. tauto. }
  split; [assumption|]. split; [assumption|].
  intros Hkeys.
  pose proof (proj2 (fetched_rows_sorted_unique db _ _ HP) Hkeys) as NP.
  pose proof (proj2 (fetched_rows_sorted_unique db _ _ HC) Hkeys) as NC.
  split; [rewrite E1|rewrite E2]; unfold Sql.COUNT_DISTINCT;
    rewrite distinct_NoDup_id by assumption; apply length_map.
Qed.

Lemma vehicle_counts_match_listings_witness :
  exists public clerk,
    search_vehicles_rows sample_db (no_filters "Public") = Some public
    /\ search_vehicles_rows sample_db (no_filters "Inventory clerk") = Some clerk
    /\ get_vehicle_counts sample_db = (List.length public, 1%nat)
    /\ List.length clerk = 2%nat.
Proof.
  destruct (vehicle_counts_match_listings sample_db)
    as (public & clerk & HP & HC & _ & _ & Hk).
  exists public, clerk. split; [exact HP|]. split; [exact HC|].
  destruct Hk as (E1 & E2).
  - repeat split; simpl;
      repeat (constructor; [simpl; intros H;
                            repeat (destruct H as [H|H]; [discriminate H|]);
                            exact H|]);
      constructor.
  - vm_compute in HP, HC. inversion HP. inversion HC. subst.
    split; reflexivity.
Defined.

(* ===================================================================== *)
(** * Further properties of the part status operations *)
(* ===================================================================== *)

Lemma status_options_spec (s new : string) :
  In new (status_options s) <-> legal_transition s new.
Proof.
  unfold status_options, legal_transition.
  destruct (String.eqb_spec s "Ordered") as [->|N1];
    [|destruct (String.eqb_spec s "Received") as [->|N2]]; simpl; split.
  - intros [<-|[<-|[]]]; auto.
  - intros [[_ ->]|[[_ ->]|[E _]]]; auto. discriminate.
  - intros [<-|[]]. auto.
  - intros [[E _]|[[E _]|[_ ->]]]; try discriminate. auto.
  - tauto.
  - intros [[E _]|[[E _]|[E _]]]; congruence.
Qed.

(** X7. The details page offers for a part exactly the transitions
    of the state machine out of its displayed status: Received and
    Installed for an Ordered part, Installed for a Received part, nothing
    for an Installed part or for any other status text. *)
Theorem status_options_are_legal_transitions (s new : string) :
  (In new (status_options s) <-> legal_transition s new)
  /\ status_options "Installed" = []
  /\ (s <> "Ordered" -> s <> "Received" -> status_options s = []).
Proof.
  split; [apply status_options_spec|]. split; [reflexivity|].
  intros N1 N2. unfold status_options.
  apply String.eqb_neq in N1, N2. rewrite N1, N2. reflexivity.
Qed.

Lemma rowcount_positive (db : Database) (o n : string) (row : PartRow) :
  lookup_part db o n = Some row ->
  (0 <? List.length (filter (part_key_is o n) (Part db)))%nat = true.
Proof.
  unfold lookup_part. intros H. apply find_some in H. destruct H as (Hin & Hk).
  assert (In row (filter (part_key_is o n) (Part db))) as Hf
      by (apply filter_In; auto).
  destruct (filter (part_key_is o n) (Part db)); [destruct Hf|reflexivity].
Qed.



Lemma update_part_status_tables (db : Database) (o n new : string) :
  let db' := snd (update_part_status db o n new) in
  Vehicle db' = Vehicle db
  /\ SaleTransaction db' = SaleTransaction db
  /\ PartsOrder db' = PartsOrder db
  /\ PurchaseTransaction db' = PurchaseTransaction db.
Proof.
  unfold update_part_status.
  destruct (lookup_part db o n) as [row|]; [|simpl; auto].
  destruct (py_in new (dict_get valid_status_transitions (p_status row) []));
    simpl; auto.
Qed.

(** No call of [update_part_status] creates a pending part. *)
Lemma update_part_status_pending (db : Database) (o n new vin : string) :
  has_pending_part (snd (update_part_status db o n new)) vin ->
  has_pending_part db vin.
Proof.
  unfold update_part_status.
  destruct (lookup_part db o n) as [row|] eqn:Hrow; [|simpl; auto].
  destruct (py_in new (dict_get valid_status_transitions (p_status row) []))
    eqn:Hlegal; [|simpl; auto].
  simpl. intros (p' & (Hin & po & Hpo & Hon & Hvin) & Hs).
  unfold update_status_stmt in Hin. simpl in Hin, Hpo.
  apply in_map_iff in Hin. destruct Hin as (p & Ep & Hp).
  destruct (part_key_is o n p) eqn:Hk.
  - subst p'. simpl in Hs, Hon.
    apply valid_status_transitions_spec in Hlegal.
    assert (p_status row = "Ordered") as Hcur.
    { destruct Hlegal as [[H _]|[[H _]|[_ H]]]; auto. contradiction. }
    unfold lookup_part in Hrow. apply find_some in Hrow.
    destruct Hrow as (Hrin & Hrk).
    apply part_key_is_eq in Hk, Hrk.
    exists row. split.
    + split; [assumption|]. exists po. split; [assumption|].
      split; [|assumption]. destruct Hk as (E1 & _), Hrk as (E2 & _). congruence.
    + rewrite Hcur. discriminate.
  - subst p'. exists p. split; [|assumption]. split; [assumption|].
    exists po. auto.
Qed.

(** X9. [update_part_status] never takes a part out of Installed
    and never gives a vehicle a pending part: after any call, a part that
    was Installed is Installed, a vehicle that had no pending part has
    none, and every VIN the role Public was shown is still shown. *)
Theorem update_part_status_keeps_available
  (db : Database) (order_number vendor_part_number new_status : string) :
  let db' :=
    snd (update_part_status db order_number vendor_part_number new_status) in
  (forall o n row,
      lookup_part db o n = Some row -> p_status row = "Installed" ->
      option_map p_status (lookup_part db' o n) = Some "Installed")
  /\ (forall vin, ~ has_pending_part db vin -> ~ has_pending_part db' vin)
  /\ exists before after,
      search_vehicles_rows db (no_filters "Public") = Some before
      /\ search_vehicles_rows db' (no_filters "Public") = Some after
      /\ incl (map VIN before) (map VIN after).
Proof.
  intros db'. split; [|split].
  - intros o n row Hrow Hinst. subst db'. unfold update_part_status.
    destruct (lookup_part db order_number vendor_part_number) as [cur|] eqn:Hcur;
      [|simpl; rewrite Hrow; simpl; congruence].
    destruct (py_in new_status
                (dict_get valid_status_transitions (p_status cur) [])) eqn:Hl;
      [|simpl; rewrite Hrow; simpl; congruence].
    simpl.
    destruct (String.eqb_spec o order_number) as [->|No];
      [destruct (String.eqb_spec n vendor_part_number) as [->|Nn]|].
    + exfalso. rewrite Hrow in Hcur. inversion Hcur; subst cur.
      apply valid_status_transitions_spec in Hl. rewrite Hinst in Hl.
      destruct Hl as [[E _]|[[E _]|[E _]]]; discriminate.
    + rewrite lookup_part_other by congruence. rewrite Hrow. simpl. congruence.
    + rewrite lookup_part_other by congruence. rewrite Hrow. simpl. congruence.
  - intros vin Hn Hp. apply Hn. subst db'.
    eapply update_part_status_pending. eassumption.
  - destruct (visibility_by_role db) as (before & _ & _ & _ & HB & _ & _ & _ & HvB & _).
    destruct (visibility_by_role db') as (after & _ & _ & _ & HA & _ & _ & _ & HvA & _).
    exists before, after. split; [assumption|]. split; [assumption|].
    intros vin Hin. apply HvA. apply HvB in Hin.
    destruct Hin as (Hv & Hs & Hp).
    destruct (update_part_status_tables db order_number vendor_part_number new_status)
      as (EV & ES & _).
    fold db' in EV, ES. split; [rewrite EV; assumption|]. split.
    + unfold has_sale in *. rewrite ES. assumption.
    + intros Hp'. apply Hp. subst db'.
      eapply update_part_status_pending. eassumption.
Qed.

Lemma status_options_are_legal_transitions_witness :
  status_options "Shipped" = [] /\ In "Installed" (status_options "Received").
Proof.
  split.
  - apply (proj2 (proj2 (status_options_are_legal_transitions "Shipped" "Ordered")));
      discriminate.
  - apply (proj1 (status_options_are_legal_transitions "Received" "Installed")).
    right. right. split; reflexivity.
Defined.

Lemma update_part_status_keeps_available_witness :
  option_map p_status
    (lookup_part
       (snd (update_part_status sample_db "2T1BURHE5JC034461-001" "FLT-200"
               "Received"))
       "1HGCM82633A004352-001" "BRK-100")
  = Some "Installed".
Proof.
  apply (proj1 (update_part_status_keeps_available
                  sample_db "2T1BURHE5JC034461-001" "FLT-200" "Received")
           "1HGCM82633A004352-001" "BRK-100" _ eq_refl eq_refl).
Defined.

(* ===================================================================== *)
(** * Further properties of [add_parts_order] *)
(* ===================================================================== *)

Lemma fold_right_Qplus_snoc (l : list Q) (x : Q) :
  (fold_right Qplus 0 (l ++ [x]) == fold_right Qplus 0 l + x)%Q.
Proof.
  induction l as [|y l IH]; simpl.
  - ring.
  - rewrite IH. ring.
Qed.

Section AddPartsOrderMore.
Variable pynum : Type.
Variable py_zero : pynum.
Variable py_add : pynum -> pynum -> pynum.
Variable py_mul : pynum -> Z -> pynum.
Variable py_round : pynum -> Z -> pynum.
Variable to_decimal : pynum -> Q.
Variable parts_order_accepted : Database -> PartsOrderRow -> bool.
Variable part_accepted : Database -> PartRow -> bool.

(** The tables after a call that returned true. *)
Lemma add_parts_order_success
  (db : Database) (vin vendor_name : string) (parts : list (part_dict pynum)) :
  let call := add_parts_order pynum py_zero py_add py_mul py_round to_decimal
                parts_order_accepted part_accepted db vin vendor_name parts in
  fst call = true ->
  PartsOrder (snd call)
  = PartsOrder db
      ++ [parts_order_row pynum py_zero py_add py_mul py_round to_decimal
            db vin vendor_name parts]
  /\ Part (snd call)
     = Part db ++ map (part_row pynum to_decimal (new_order_number db vin)) parts
  /\ Vehicle (snd call) = Vehicle db
  /\ SaleTransaction (snd call) = SaleTransaction db.
Proof.
  intros call. subst call. unfold add_parts_order, add_parts_order_body.
  unfold insert_parts_order.
  destruct (parts_order_accepted db
              (parts_order_row pynum py_zero py_add py_mul py_round to_decimal
                 db vin vendor_name parts)); [|discriminate].
  destruct (insert_parts pynum to_decimal part_accepted _ _ parts)
    as [db'|] eqn:E; [|discriminate].
  intros _. simpl.
  assert (forall ps d d' o,
             insert_parts pynum to_decimal part_accepted d o ps = Some d' ->
             Vehicle d' = Vehicle d /\ SaleTransaction d' = SaleTransaction d)
    as Hother.
  { induction ps as [|p ps IH]; simpl; intros d d' o H.
    - inversion H. auto.
    - unfold insert_part in H.
      destruct (part_accepted d (part_row pynum to_decimal o p)); [|discriminate].
      apply IH in H. simpl in H. exact H. }
  pose proof (Hother _ _ _ _ E) as (EV & ES).
  apply insert_parts_Some in E. simpl in *. tauto.
Qed.

(** X10. A parts order that is accepted with a part not yet
    Installed gives the vehicle a pending part: the vehicle is then not
    among the vehicles shown to the role Public. *)
Theorem add_parts_order_makes_pending
  (db : Database) (vin vendor_name : string) (parts : list (part_dict pynum))
  (part : part_dict pynum) :
  let call := add_parts_order pynum py_zero py_add py_mul py_round to_decimal
                parts_order_accepted part_accepted db vin vendor_name parts in
  fst call = true ->
  In part parts -> part_status part <> "Installed" ->
  has_pending_part (snd call) vin
  /\ exists public,
      search_vehicles_rows (snd call) (no_filters "Public") = Some public
      /\ ~ In vin (map VIN public).
Proof.
  intros call Hok Hin Hst.
  destruct (add_parts_order_success db vin vendor_name parts Hok)
    as (HO & HP & _).
  fold call in HO, HP.
  assert (Hpend : has_pending_part (snd call) vin).
  { exists (part_row pynum to_decimal (new_order_number db vin) part).
    split; [|exact Hst]. split.
    - rewrite HP. apply in_or_app. right. apply in_map. assumption.
    - eexists. split.
      + rewrite HO. apply in_or_app. right. left. reflexivity.
      + simpl. auto. }
  split; [assumption|].
  destruct (visibility_by_role (snd call)) as (public & _ & _ & _ & HPub & _ & _ & _ & Hv & _).
  exists public. split; [assumption|].
  intros Hlisted. apply Hv in Hlisted. tauto.
Qed.

(** X11. An accepted parts order raises the parts cost of its
    vehicle by the stored total_cost of the order and leaves the parts cost
    of every other vehicle as it was. *)
Theorem add_parts_order_adds_cost
  (db : Database) (vin vendor_name : string) (parts : list (part_dict pynum)) :
  let call := add_parts_order pynum py_zero py_add py_mul py_round to_decimal
                parts_order_accepted part_accepted db vin vendor_name parts in
  fst call = true ->
  (total_parts_cost (snd call) vin
   == total_parts_cost db vin
      + to_decimal (total_cost_of pynum py_zero py_add py_mul py_round parts))%Q
  /\ forall other, other <> vin ->
       total_parts_cost (snd call) other = total_parts_cost db other.
Proof.
  intros call Hok.
  destruct (add_parts_order_success db vin vendor_name parts Hok) as (HO & _).
  fold call in HO. unfold total_parts_cost. rewrite HO, !filter_app, !map_app.
  split.
  - simpl. rewrite String.eqb_refl. simpl. apply fold_right_Qplus_snoc.
  - intros other Hne. rewrite filter_app. simpl. apply String.eqb_neq in Hne.
    rewrite String.eqb_sym in Hne. rewrite Hne.
    rewrite app_nil_r. reflexivity.
Qed.

End AddPartsOrderMore.

Lemma add_parts_order_makes_pending_witness :
  has_pending_part
    (snd (sample_add_parts_order sample_db "1HGCM82633A004352" "Acme Parts"
            [sample_part_dict "WPR-1" 2 (1999 # 100)]))
    "1HGCM82633A004352".
Proof.
  refine (proj1 (add_parts_order_makes_pending Q 0%Q Qplus
                   (fun x k => (x * inject_Z k)%Q)
                   (fun x d => Sql.ROUND x (Z.to_nat d)) (fun x => x)
                   order_number_free part_key_free
                   sample_db "1HGCM82633A004352" "Acme Parts"
                   [sample_part_dict "WPR-1" 2 (1999 # 100)]
                   (sample_part_dict "WPR-1" 2 (1999 # 100)) _ _ _)).
  - reflexivity.
  - left. reflexivity.
  - discriminate.
Defined.

Lemma add_parts_order_adds_cost_witness :
  (total_parts_cost
     (snd (sample_add_parts_order sample_db "1HGCM82633A004352" "Acme Parts"
             [sample_part_dict "WPR-1" 2 (1999 # 100)]))
     "1HGCM82633A004352"
   == 500 + (3998 # 100))%Q.
Proof.
  pose proof (proj1 (add_parts_order_adds_cost Q 0%Q Qplus
                       (fun x k => (x * inject_Z k)%Q)
                       (fun x d => Sql.ROUND x (Z.to_nat d)) (fun x => x)
                       order_number_free part_key_free
                       sample_db "1HGCM82633A004352" "Acme Parts"
                       [sample_part_dict "WPR-1" 2 (1999 # 100)] eq_refl)) as H.
  unfold sample_add_parts_order. rewrite H. reflexivity.
Defined.

(* ===================================================================== *)
(** * Vehicle details and sales *)
(* ===================================================================== *)

Lemma same_detail_group_vin (a b : jrow) :
  same_detail_group a b = true -> v_vin (j_v a) = v_vin (j_v b).
Proof.
  unfold same_detail_group. intros H. apply andb_true_iff in H.
  apply same_group_vin. tauto.
Qed.

(** The VINs of the detail rows fetched under a WHERE clause. *)
Lemma detail_vins (db : Database) (ws : list cond) (x : string) :
  In x (map (fun r => VIN (d_columns r)) (detail_rows db ws))
  <-> exists r, In r (from_clause db [])
                /\ forallb (fun c : cond => c db r) ws = true
                /\ v_vin (j_v r) = x.
Proof.
  unfold detail_rows. split.
  - intros H. apply in_map_iff in H. destruct H as (row & <- & Hrow).
    apply SqlFacts.in_order_by in Hrow. apply in_map_iff in Hrow.
    destruct Hrow as ((rep & g) & <- & Hg). apply SqlFacts.in_group_by in Hg.
    destruct Hg as (Hrep & _). simpl in Hrep. apply filter_In in Hrep.
    exists rep. simpl. tauto.
  - intros (r & Hr & Hw & <-).
    assert (In r (where_rows db (Some ws) (from_clause db []))) as HW
        by (simpl; apply filter_In; auto).
    destruct (SqlFacts.distinct_covers same_detail_group
                (fun y => v_vin (j_v y)) _ r same_detail_group_vin HW)
      as (rep & Hrep & E).
    apply in_map_iff.
    exists (detail_select
              (rep, filter (same_detail_group rep)
                      (where_rows db (Some ws) (from_clause db [])))).
    split; [exact E|]. apply SqlFacts.in_order_by. apply in_map_iff.
    eexists. split; [reflexivity|]. unfold Sql.group_by.
    apply in_map_iff. exists rep. auto.
Qed.

Lemma melt_data_nil (df : DataFrame) : data df = [] -> data (melt df) = [].
Proof.
  intros H. unfold melt. simpl. rewrite H.
  induction (columns df) as [|c cs IH]; simpl; auto.
Qed.

(** The melted frame of the details is empty exactly when no row was
    fetched. *)
Lemma detail_view_empty (r : string) (rows : list DetailRow) :
  frame_empty (detail_view r (detail_frame rows)) = true <-> rows = [].
Proof.
  unfold detail_view. split.
  - destruct rows as [|row rows]; [reflexivity|].
    destruct ((r =? "Public") || (r =? "Salesperson")); discriminate.
  - intros ->.
    destruct ((r =? "Public") || (r =? "Salesperson")); reflexivity.
Qed.

Lemma vin_conds_hold (vin : option string) (db : Database) (r : jrow) :
  (forall v, vin = Some v -> v <> "" -> v_vin (j_v r) = v) ->
  forallb (fun c : cond => c db r) (vin_conds vin) = true.
Proof.
  intros H. unfold vin_conds, plain_filter, truthy.
  destruct vin as [v|]; [|reflexivity].
  destruct (String.eqb_spec v "") as [->|N]; [reflexivity|].
  simpl. unfold stored_vin_is. rewrite (H v eq_refl N), String.eqb_refl. reflexivity.
Qed.

Lemma sale_price_is_null_spec (db : Database) (r : jrow) :
  In r (from_clause db []) ->
  (sale_price_is_null db r = true <-> ~ has_sale db (v_vin (j_v r))).
Proof.
  intros Hr. apply in_from_clause in Hr. destruct Hr as (_ & Hst & _).
  unfold sale_price_is_null. destruct (j_st r) as [st|]; simpl.
  - split; [discriminate|]. intros H. exfalso. apply H. exists st. exact Hst.
  - tauto.
Qed.

(** X12. [get_vehicle_details] shows no sold vehicle to any role:
    every fetched row belongs to a vehicle without SaleTransaction row, and
    for the VIN of a sold vehicle the returned frame is empty. *)
Theorem get_vehicle_details_never_sold
  (db : Database) (vin : option string) (r : string) :
  (forall row, In row (get_vehicle_details_rows db vin r) ->
               ~ has_sale db (VIN (d_columns row)))
  /\ (forall v, vin = Some v -> v <> "" -> has_sale db v ->
                frame_empty (get_vehicle_details db vin r) = true).
Proof.
  assert (H : forall x,
             In x (map (fun row => VIN (d_columns row))
                       (get_vehicle_details_rows db vin r)) ->
             ~ has_sale db x
             /\ (forall v, vin = Some v -> v <> "" -> x = v)).
  { intros x Hx. apply detail_vins in Hx. destruct Hx as (j & Hj & Hw & <-).
    rewrite forallb_app in Hw. apply andb_true_iff in Hw.
    destruct Hw as (Hrole & Hvin). split.
    - apply (sale_price_is_null_spec db j Hj).
      unfold detail_where in Hrole.
      destruct (py_in r ["Public"; "Salesperson"]); simpl in Hrole;
        apply andb_true_iff in Hrole; tauto.
    - intros v -> Hne. unfold vin_conds, plain_filter, truthy in Hvin.
      apply String.eqb_neq in Hne. rewrite Hne in Hvin. simpl in Hvin.
      rewrite andb_true_r in Hvin. apply String.eqb_eq. exact Hvin. }
  split.
  - intros row Hrow. apply H. apply in_map_iff. eauto.
  - intros v Hv Hne Hsold. unfold get_vehicle_details.
    apply detail_view_empty.
    destruct (get_vehicle_details_rows db vin r) as [|row rows] eqn:E;
      [reflexivity|].
    exfalso. destruct (H (VIN (d_columns row))) as (Hunsold & Heq).
    + left. reflexivity.
    + rewrite (Heq v Hv Hne) in Hunsold. contradiction.
Qed.

Lemma get_vehicle_details_never_sold_witness :
  frame_empty (get_vehicle_details sample_db (Some "3FA6P0H73HR123456") "Owner")
  = true.
Proof.
  apply (proj2 (get_vehicle_details_never_sold
                  sample_db (Some "3FA6P0H73HR123456") "Owner")
           "3FA6P0H73HR123456" eq_refl).
  - discriminate.
  - eexists. split; [left; reflexivity|reflexivity].
Defined.

(** The role clause of the details follows from the role clause of the
    search, for the five roles. *)
Lemma search_where_implies_detail_where (db : Database) (a : search_args)
  (c : cond) (rest : list fragment) (j : jrow) :
  In (role a) roles ->
  role_fragments a = WHERE c :: rest ->
  c db j = true ->
  forallb (fun c0 : cond => c0 db j) (and_conds rest) = true ->
  forallb (fun c0 : cond => c0 db j) (public_detail_where (role a)) = true.
Proof.
  unfold role_fragments, public_detail_where, roles.
  intros Hrole Hfr Hc Hrest.
  destruct (py_in (role a) ["Public"; "Salesperson"]).
  - inversion Hfr; subst. simpl in *. rewrite Hc. exact Hrest.
  - destruct (String.eqb_spec (role a) "Inventory clerk") as [E|N].
    + rewrite E. inversion Hfr; subst. simpl. rewrite Hc. reflexivity.
    + destruct (py_in (role a) ["Manager"; "Owner"]); [reflexivity|].
      discriminate.
Qed.

(** X13. For a caller with one of the five roles, a vehicle
    selected from the result of [search_vehicles] has details: whatever
    the filters of the search were, [get_vehicle_details_for_public] called
    with a listed VIN and the same role returns a frame that is not
    empty. *)
Theorem listed_vehicle_has_details
  (db : Database) (a : search_args) (rows : list ResultRow) (x : string) :
  In (role a) roles ->
  search_vehicles_rows db a = Some rows ->
  In x (map VIN rows) ->
  frame_empty (get_vehicle_details_for_public db (Some x) (role a)) = false.
Proof.
  intros Hrole Hrows Hx.
  destruct (role_fragments_shape a) as [(_ & c & rest & Hfr & _)|(Hn & _)];
    [|contradiction].
  rewrite (search_rows_known db a c rest Hfr) in Hrows.
  injection Hrows as <-.
  apply (proj1 (listed_vins db
                  (c :: and_conds rest ++ and_conds (filter_fragments a)) x))
    in Hx.
  destruct Hx as (j & Hj & Hw & E).
  simpl in Hw. apply andb_true_iff in Hw. destruct Hw as (Hc & Hw).
  rewrite forallb_app in Hw. apply andb_true_iff in Hw. destruct Hw as (Hrest & _).
  assert (In x (map (fun r => VIN (d_columns r))
                    (get_vehicle_details_for_public_rows db (Some x) (role a))))
    as Hin.
  { apply detail_vins. exists j. split; [assumption|]. split; [|assumption].
    rewrite forallb_app.
    rewrite (search_where_implies_detail_where db a c rest j Hrole Hfr Hc Hrest).
    apply vin_conds_hold. intros v Hv _. congruence. }
  unfold get_vehicle_details_for_public.
  destruct (frame_empty _) eqn:Hempty; [|reflexivity].
  apply detail_view_empty in Hempty. rewrite Hempty in Hin. destruct Hin.
Qed.

Lemma listed_vehicle_has_details_witness :
  frame_empty
    (get_vehicle_details_for_public sample_db (Some "3FA6P0H73HR123456") "Owner")
  = false.
Proof.
  eapply (listed_vehicle_has_details sample_db (sold_listing "Owner")).
  - simpl. tauto.
  - vm_compute. reflexivity.
  - left. reflexivity.
Defined.

Lemma group_by_nil {A : Type} (same : A -> A -> bool) (l : list A) :
  Sql.group_by same l = [] <-> l = [].
Proof.
  unfold Sql.group_by. destruct l as [|x l]; simpl; split; auto; discriminate.
Qed.

Lemma vin_not_sold_spec (db : Database) (r : jrow) :
  vin_not_sold db r = true <-> ~ has_sale db (v_vin (j_v r)).
Proof. apply not_in_sales_spec. Qed.

(** The joined rows [get_vehicle_details_for_sale] keeps. *)
Lemma for_sale_rows (db : Database) (x : string) :
  where_rows db (Some [stored_vin_is x; vin_not_sold]) (from_clause db []) = []
  <-> ~ (In x (map v_vin (Vehicle db)) /\ ~ has_sale db x).
Proof.
  simpl. split.
  - intros Hnil (Hv & Hs). apply in_map_iff in Hv. destruct Hv as (v & <- & Hv).
    destruct (from_clause_total db [] v Hv) as (j & Hj & <-).
    assert (In j (filter (fun r => stored_vin_is (v_vin (j_v j)) db r
                                   && (vin_not_sold db r && true))
                         (from_clause db []))) as Hin.
    { apply filter_In. split; [assumption|].
      unfold stored_vin_is. rewrite String.eqb_refl.
      rewrite (proj2 (vin_not_sold_spec db j) Hs). reflexivity. }
    rewrite Hnil in Hin. destruct Hin.
  - intros H.
    destruct (filter (fun r => stored_vin_is x db r && (vin_not_sold db r && true))
                     (from_clause db [])) as [|j js] eqn:E; [reflexivity|].
    exfalso. apply H.
    assert (In j (filter (fun r => stored_vin_is x db r && (vin_not_sold db r && true))
                         (from_clause db []))) as Hin
        by (rewrite E; left; reflexivity).
    apply filter_In in Hin. destruct Hin as (Hj & Hw).
    apply andb_true_iff in Hw. destruct Hw as (Hv & Hw).
    rewrite andb_true_r in Hw. apply vin_not_sold_spec in Hw.
    unfold stored_vin_is in Hv. apply String.eqb_eq in Hv. rewrite <- Hv.
    apply in_from_clause in Hj. split; [apply in_map; tauto|assumption].
Qed.

(** What [get_vehicle_details_for_sale] returns. *)
Lemma for_sale_details (db : Database) (x : string) :
  (get_vehicle_details_for_sale db x = None
   <-> ~ (In x (map v_vin (Vehicle db)) /\ ~ has_sale db x))
  /\ forall d,
      get_vehicle_details_for_sale db x = Some d ->
      sd_VIN d = x
      /\ ~ has_sale db x
      /\ sd_SalePrice d
         = option_map (fun price => asking_price price (total_parts_cost db x))
                      (sd_PurchasePrice d).
Proof.
  unfold get_vehicle_details_for_sale. split.
  - rewrite <- for_sale_rows, <- (group_by_nil same_sale_group).
    destruct (Sql.group_by same_sale_group _); split; auto; discriminate.
  - intros d Hd.
    destruct (Sql.group_by same_sale_group
                (where_rows db (Some [stored_vin_is x; vin_not_sold]) (from_clause db [])))
      as [|(rep & g) gs] eqn:E; [discriminate|].
    injection Hd as <-.
    assert (In (rep, g)
               (Sql.group_by same_sale_group
                  (where_rows db (Some [stored_vin_is x; vin_not_sold])
                              (from_clause db [])))) as Hin
        by (rewrite E; left; reflexivity).
    apply SqlFacts.in_group_by in Hin. destruct Hin as (Hrep & _).
    simpl in Hrep. apply filter_In in Hrep. destruct Hrep as (Hj & Hw).
    apply andb_true_iff in Hw. destruct Hw as (Hv & Hw).
    rewrite andb_true_r in Hw. apply vin_not_sold_spec in Hw.
    unfold stored_vin_is in Hv. apply String.eqb_eq in Hv.
    pose proof (parts_cost_plain db rep Hj) as Hcost.
    pose proof (in_from_clause db [] rep Hj) as (_ & Hst & _).
    unfold sale_details_of, select_list, sale_price_expr. simpl.
    split; [assumption|]. rewrite <- Hv. split; [assumption|].
    destruct (j_st rep) as [st|].
    + exfalso. apply Hw. exists st. exact Hst.
    + rewrite Hcost. destruct (j_pt rep) as [pt|]; [|reflexivity].
      simpl. unfold asking_price. rewrite <- ROUND_2_nearest_cent.
      reflexivity.
Qed.



Section RecordSaleFacts.
Variable sale_accepted : Database -> SaleRow -> bool.

(** X15. [record_sale] either refuses and leaves the tables as
    they were, or stores one SaleTransaction row; after a sale that
    returned true the vehicle is sold: [get_vehicle_details_for_sale]
    returns nothing for it, the roles Public and Inventory clerk are no
    longer shown it, and what is for sale among the other vehicles is
    unchanged. *)
Theorem record_sale_effects
  (db : Database) (vin : string) (customer_identifier : Z) (username : string)
  (sale_date : Z) (sale_price : Q) :
  let call := record_sale sale_accepted db vin customer_identifier username
                sale_date sale_price in
  (fst call = false -> snd call = db)
  /\ (fst call = true ->
      has_sale (snd call) vin
      /\ get_vehicle_details_for_sale (snd call) vin = None
      /\ (forall other, other <> vin ->
            (get_vehicle_details_for_sale (snd call) other = None
             <-> get_vehicle_details_for_sale db other = None))
      /\ exists public clerk,
          search_vehicles_rows (snd call) (no_filters "Public") = Some public
          /\ search_vehicles_rows (snd call) (no_filters "Inventory clerk")
             = Some clerk
          /\ ~ In vin (map VIN public) /\ ~ In vin (map VIN clerk)).
Proof.
  intros call. subst call. unfold record_sale.
  destruct (sale_accepted db _); simpl; split; try discriminate; auto.
  intros _.
  set (row := {| st_vin := vin; st_username := username;
                 st_customer := customer_identifier;
                 st_sale_price := sale_price; st_sold_on := sale_date |}).
  set (db' := with_sales db (SaleTransaction db ++ [row])).
  assert (Hsold : has_sale db' vin).
  { exists row. split; [|reflexivity]. simpl. apply in_or_app. right. left.
    reflexivity. }
  assert (Hother : forall other, other <> vin ->
                     (has_sale db' other <-> has_sale db other)).
  { intros other Hne. unfold has_sale. simpl. split.
    - intros (st & Hin & E). apply in_app_or in Hin.
      destruct Hin as [Hin|[<-|[]]]; [eauto|]. simpl in E. congruence.
    - intros (st & Hin & E). exists st. split; [apply in_or_app; auto|assumption]. }
  split; [assumption|]. split; [|split].
  - apply (proj1 (for_sale_details db' vin)). tauto.
  - intros other Hne.
    rewrite (proj1 (for_sale_details db' other)),
      (proj1 (for_sale_details db other)).
    change (Vehicle db') with (Vehicle db). rewrite (Hother other Hne). tauto.
  - destruct (visibility_by_role db')
      as (public & clerk & _ & _ & HP & HC & _ & _ & HvP & HvC & _).
    exists public, clerk. split; [assumption|]. split; [assumption|].
    split; intros Hin; [apply HvP in Hin|apply HvC in Hin]; tauto.
Qed.

End RecordSaleFacts.

Lemma record_sale_effects_witness :
  get_vehicle_details_for_sale
    (snd (record_sale sale_key_free sample_db "1HGCM82633A004352" 2 "sales1"
            739020 13050))
    "1HGCM82633A004352" = None
  /\ snd (record_sale sale_key_free sample_db "3FA6P0H73HR123456" 2 "sales1"
            739020 21500) = sample_db.
Proof.
  split.
  - destruct (proj2 (record_sale_effects sale_key_free sample_db
                       "1HGCM82633A004352" 2 "sales1" 739020 13050) eq_refl)
      as (_ & H & _).
    exact H.
  - apply (proj1 (record_sale_effects sale_key_free sample_db
                    "3FA6P0H73HR123456" 2 "sales1" 739020 21500) eq_refl).
Defined.

(* ===================================================================== *)
(** * Adding a vehicle *)
(* ===================================================================== *)

(** The purchase price shown by [get_vehicle_details_for_sale] is that of
    a purchase row of the vehicle. *)
Lemma for_sale_purchase (db : Database) (x : string) (d : sale_details) :
  get_vehicle_details_for_sale db x = Some d ->
  match sd_PurchasePrice d with
  | Some price => exists pt, In pt (PurchaseTransaction db) /\ pt_vin pt = x
                             /\ pt_purchase_price pt = price
  | None => forall pt, In pt (PurchaseTransaction db) -> pt_vin pt <> x
  end.
Proof.
  unfold get_vehicle_details_for_sale. intros Hd.
  destruct (Sql.group_by same_sale_group
              (where_rows db (Some [stored_vin_is x; vin_not_sold]) (from_clause db [])))
    as [|(rep & g) gs] eqn:E; [discriminate|].
  injection Hd as <-.
  assert (In (rep, g)
             (Sql.group_by same_sale_group
                (where_rows db (Some [stored_vin_is x; vin_not_sold])
                            (from_clause db [])))) as Hin
      by (rewrite E; left; reflexivity).
  apply SqlFacts.in_group_by in Hin. destruct Hin as (Hrep & _).
  simpl in Hrep. apply filter_In in Hrep. destruct Hrep as (Hj & Hw).
  apply andb_true_iff in Hw. destruct Hw as (Hv & _).
  unfold stored_vin_is in Hv. apply String.eqb_eq in Hv.
  pose proof (in_from_clause db [] rep Hj) as (_ & _ & Hpt & _).
  simpl. rewrite <- Hv. destruct (j_pt rep) as [pt|]; simpl; [|assumption].
  exists pt. destruct Hpt. auto.
Qed.

Section AddVehicleFacts.
Variable pynum : Type.
Variable to_decimal : pynum -> Q.
Variable vehicle_accepted : Database -> VehicleRow -> bool.
Variable color_accepted : Database -> VehicleColorRow -> bool.
Variable purchase_accepted : Database -> PurchaseRow -> bool.

(** The colours go in together or not at all, and no other table is
    touched. *)
Lemma insert_colors_Some (colors : list string) :
  forall (db db' : Database) (vin : string),
    insert_colors color_accepted db vin colors = Some db' ->
    VehicleColor db'
    = VehicleColor db
        ++ map (fun c => {| vc_vin := vin; vc_color := c |}) colors
    /\ Vehicle db' = Vehicle db
    /\ SaleTransaction db' = SaleTransaction db
    /\ PurchaseTransaction db' = PurchaseTransaction db
    /\ PartsOrder db' = PartsOrder db.
Proof.
  induction colors as [|c cs IH]; simpl; intros db db' vin H.
  - inversion H; subst. rewrite app_nil_r. auto.
  - destruct (color_accepted db {| vc_vin := vin; vc_color := c |});
      [|discriminate].
    apply IH in H. simpl in H. destruct H as (H1 & H2).
    rewrite H1, <- app_assoc. auto.
Qed.

Lemma add_vehicle_and_related_data_facts
  (db : Database)
  (vin vehicle_type manufacturer condition model : string) (year : Z)
  (fuel_type : string) (horsepower : Z) (color : list string)
  (customer_id : option Z) (username : string) (purchase_price : pynum)
  (purchase_date : Z) (description : string) :
  let call := add_vehicle_and_related_data pynum to_decimal vehicle_accepted
                color_accepted purchase_accepted db vin vehicle_type
                manufacturer condition model year fuel_type horsepower color
                customer_id username purchase_price purchase_date description in
  let row := {| v_vin := vin; v_type := vehicle_type;
                v_condition := condition; v_manufacturer := manufacturer;
                v_model := model; v_year := year; v_fuel := fuel_type;
                v_horsepower := horsepower;
                v_description := Some description |} in
  (vehicle_accepted db row = false -> call = (false, db))
  /\ (vehicle_accepted db row = true ->
      Vehicle (snd call) = Vehicle db ++ [row])
  /\ (vehicle_accepted db row = true -> customer_id = None ->
      call = (false, with_vehicles db (Vehicle db ++ [row])))
  /\ (vehicle_accepted db row = true ->
      insert_colors color_accepted (with_vehicles db (Vehicle db ++ [row]))
        vin color = None ->
      fst call = false /\ VehicleColor (snd call) = VehicleColor db)
  /\ (fst call = true ->
      exists id,
        customer_id = Some id
        /\ Vehicle (snd call) = Vehicle db ++ [row]
        /\ VehicleColor (snd call)
           = VehicleColor db
               ++ map (fun c => {| vc_vin := vin; vc_color := c |}) color
        /\ PurchaseTransaction (snd call)
           = PurchaseTransaction db
               ++ [{| pt_vin := vin; pt_username := username;
                      pt_customer := id;
                      pt_purchase_price := to_decimal purchase_price;
                      pt_purchased_on := purchase_date |}]
        /\ SaleTransaction (snd call) = SaleTransaction db
        /\ PartsOrder (snd call) = PartsOrder db).
Proof.
  intros call row. subst call.
  unfold add_vehicle_and_related_data, add_vehicle. fold row.
  destruct (vehicle_accepted db row) eqn:Ev.
  - destruct customer_id as [id|].
    + unfold add_vehicle_colors, add_purchase_transaction.
      destruct (insert_colors color_accepted
                  (with_vehicles db (Vehicle db ++ [row])) vin color)
        as [db2|] eqn:Ec.
      * apply insert_colors_Some in Ec. simpl in Ec.
        destruct Ec as (Ec & EV & ES & EP & EO).
        destruct (purchase_accepted db2 _); simpl;
          (split; [discriminate|]); (split; [auto|]);
          (split; [discriminate|]); (split; [discriminate|]).
        -- intros _. exists id. rewrite EP. auto 10.
        -- discriminate.
      * destruct (purchase_accepted _ _); simpl;
          (split; [discriminate|]); (split; [auto|]);
          (split; [discriminate|]); (split; [auto|]); discriminate.
    + simpl. split; [discriminate|]. split; [auto|]. split; [auto|].
      split; [auto|]. discriminate.
  - simpl. split; [auto|]. repeat (split; [discriminate|]). discriminate.
Qed.

(** X16. [add_vehicle_and_related_data] is not atomic.  It returns
    true only when the three inserts went in, and then the tables hold the
    vehicle, its colours and its purchase; but once the Vehicle row is
    accepted it stays, whatever the result: with no customer id the call
    returns false and leaves a vehicle without purchase, and when the
    colours are refused the call returns false while the vehicle (and the
    purchase, if accepted) is stored.  Only a refused Vehicle row leaves
    the tables unchanged. *)
Theorem add_vehicle_and_related_data_not_atomic
  (db : Database)
  (vin vehicle_type manufacturer condition model : string) (year : Z)
  (fuel_type : string) (horsepower : Z) (color : list string)
  (customer_id : option Z) (username : string) (purchase_price : pynum)
  (purchase_date : Z) (description : string) :
  let call := add_vehicle_and_related_data pynum to_decimal vehicle_accepted
                color_accepted purchase_accepted db vin vehicle_type
                manufacturer condition model year fuel_type horsepower color
                customer_id username purchase_price purchase_date description in
  let row := {| v_vin := vin; v_type := vehicle_type;
                v_condition := condition; v_manufacturer := manufacturer;
                v_model := model; v_year := year; v_fuel := fuel_type;
                v_horsepower := horsepower;
                v_description := Some description |} in
  (vehicle_accepted db row = false -> call = (false, db))
  /\ (vehicle_accepted db row = true ->
      Vehicle (snd call) = Vehicle db ++ [row])
  /\ (vehicle_accepted db row = true -> customer_id = None ->
      call = (false, with_vehicles db (Vehicle db ++ [row])))
  /\ (vehicle_accepted db row = true ->
      insert_colors color_accepted (with_vehicles db (Vehicle db ++ [row]))
        vin color = None ->
      fst call = false /\ VehicleColor (snd call) = VehicleColor db)
  /\ (fst call = true ->
      exists id,
        customer_id = Some id
        /\ Vehicle (snd call) = Vehicle db ++ [row]
        /\ VehicleColor (snd call)
           = VehicleColor db
               ++ map (fun c => {| vc_vin := vin; vc_color := c |}) color
        /\ PurchaseTransaction (snd call)
           = PurchaseTransaction db
               ++ [{| pt_vin := vin; pt_username := username;
                      pt_customer := id;
                      pt_purchase_price := to_decimal purchase_price;
                      pt_purchased_on := purchase_date |}]
        /\ SaleTransaction (snd call) = SaleTransaction db
        /\ PartsOrder (snd call) = PartsOrder db).
Proof. apply add_vehicle_and_related_data_facts. Qed.

(** X17. A vehicle added with success can be sold at once: when
    the VIN had no sale and no purchase before,
    [get_vehicle_details_for_sale] finds it, shows the purchase price that
    was stored and asks the amount in cents nearest to
    1.25 * purchase price + 1.1 * parts cost, a half cent going up; and
    the inventory clerk is shown the VIN. *)
Theorem added_vehicle_is_for_sale
  (db : Database)
  (vin vehicle_type manufacturer condition model : string) (year : Z)
  (fuel_type : string) (horsepower : Z) (color : list string)
  (customer_id : option Z) (username : string) (purchase_price : pynum)
  (purchase_date : Z) (description : string) :
  let call := add_vehicle_and_related_data pynum to_decimal vehicle_accepted
                color_accepted purchase_accepted db vin vehicle_type
                manufacturer condition model year fuel_type horsepower color
                customer_id username purchase_price purchase_date description in
  fst call = true ->
  ~ has_sale db vin ->
  (forall pt, In pt (PurchaseTransaction db) -> pt_vin pt <> vin) ->
  (exists d,
      get_vehicle_details_for_sale (snd call) vin = Some d
      /\ sd_PurchasePrice d = Some (to_decimal purchase_price)
      /\ sd_SalePrice d
         = Some (nearest_cent ((125 # 100) * to_decimal purchase_price
                               + (11 # 10) * total_parts_cost db vin)))
  /\ exists clerk,
      search_vehicles_rows (snd call) (no_filters "Inventory clerk") = Some clerk
      /\ In vin (map VIN clerk).
Proof.
  intros call Hok Hunsold Hnopur.
  destruct (proj2 (proj2 (proj2 (proj2
             (add_vehicle_and_related_data_facts db vin vehicle_type manufacturer
                condition model year fuel_type horsepower color customer_id
                username purchase_price purchase_date description)))) Hok)
    as (id & _ & EV & _ & EP & ES & EO).
  fold call in EV, EP, ES, EO.
  assert (Hin : In vin (map v_vin (Vehicle (snd call)))).
  { rewrite EV, map_app. apply in_or_app. right. left. reflexivity. }
  assert (Hunsold' : ~ has_sale (snd call) vin)
    by (unfold has_sale; rewrite ES; exact Hunsold).
  split.
  - destruct (get_vehicle_details_for_sale (snd call) vin) as [d|] eqn:Ed.
    + exists d. split; [reflexivity|].
      pose proof (for_sale_purchase _ _ _ Ed) as Hp.
      pose proof (proj2 (for_sale_details (snd call) vin) d Ed) as (_ & _ & Hs).
      assert (sd_PurchasePrice d = Some (to_decimal purchase_price)) as Hprice.
      { destruct (sd_PurchasePrice d) as [price|].
        - destruct Hp as (pt & Hpt & Hv & <-). rewrite EP in Hpt.
          apply in_app_or in Hpt. destruct Hpt as [Hpt|[<-|[]]]; [|reflexivity].
          exfalso. exact (Hnopur pt Hpt Hv).
        - exfalso. apply (Hp {| pt_vin := vin; pt_username := username;
                                pt_customer := id;
                                pt_purchase_price := to_decimal purchase_price;
                                pt_purchased_on := purchase_date |}).
          + rewrite EP. apply in_or_app. right. left. reflexivity.
          + reflexivity. }
      split; [assumption|]. rewrite Hs, Hprice. simpl.
      unfold total_parts_cost. rewrite EO. reflexivity.
    + exfalso. apply (proj1 (for_sale_details (snd call) vin)) in Ed. tauto.
  - destruct (visibility_by_role (snd call))
      as (_ & clerk & _ & _ & _ & HC & _ & _ & _ & HvC & _).
    exists clerk. split; [assumption|]. apply HvC. auto.
Qed.

End AddVehicleFacts.

Lemma add_vehicle_and_related_data_not_atomic_witness :
  fst (sample_add_vehicle sample_db None ["Red"]) = false
  /\ In "5YJSA1E26HF000001"
        (map v_vin (Vehicle (snd (sample_add_vehicle sample_db None ["Red"]))))
  /\ fst (sample_add_vehicle sample_db (Some 1%Z) ["Red"; "Red"]) = false
  /\ In "5YJSA1E26HF000001"
        (map pt_vin
           (PurchaseTransaction
              (snd (sample_add_vehicle sample_db (Some 1%Z) ["Red"; "Red"])))).
Proof.
  pose proof (add_vehicle_and_related_data_not_atomic
                Q (fun x => x) vin_free color_free purchase_free sample_db
                "5YJSA1E26HF000001" "Coupe" "Tesla" "Good" "Model S" 2017
                "Hybrid" 300 ["Red"] None "clerk1" 9000 739030 "")
    as (_ & _ & Hnone & _).
  pose proof (add_vehicle_and_related_data_not_atomic
                Q (fun x => x) vin_free color_free purchase_free sample_db
                "5YJSA1E26HF000001" "Coupe" "Tesla" "Good" "Model S" 2017
                "Hybrid" 300 ["Red"; "Red"] (Some 1%Z) "clerk1" 9000 739030 "")
    as (_ & _ & _ & Hcolors & _).
  unfold sample_add_vehicle. rewrite (Hnone eq_refl eq_refl).
  split; [reflexivity|]. split; [simpl; tauto|].
  split; [apply (Hcolors eq_refl eq_refl)|].
  vm_compute. tauto.
Defined.

Lemma added_vehicle_is_for_sale_witness :
  exists d,
    get_vehicle_details_for_sale
      (snd (sample_add_vehicle sample_db (Some 1%Z) ["Red"; "White"]))
      "5YJSA1E26HF000001" = Some d
    /\ sd_PurchasePrice d = Some 9000
    /\ sd_SalePrice d = Some (1125000 # 100).
Proof.
  destruct (added_vehicle_is_for_sale
              Q (fun x => x) vin_free color_free purchase_free sample_db
              "5YJSA1E26HF000001" "Coupe" "Tesla" "Good" "Model S" 2017
              "Hybrid" 300 ["Red"; "White"] (Some 1%Z) "clerk1" 9000 739030 "")
    as ((d & Hd & Hp & Hs) & _).
  - reflexivity.
  - intros (st & Hin & E). simpl in Hin. destruct Hin as [<-|[]]. discriminate E.
  - intros pt Hin E. simpl in Hin.
    destruct Hin as [<-|[<-|[<-|[]]]]; discriminate E.
  - exists d. split; [exact Hd|]. split; [exact Hp|].
    etransitivity; [exact Hs|]. reflexivity.
Defined.

(* ===================================================================== *)
(** * Customers *)
(* ===================================================================== *)

Section DistinctEq.
Context {A : Type} (eqb : A -> A -> bool).
Hypothesis eqb_eq : forall a b, eqb a b = true <-> a = b.

Lemma in_distinct_eq (l : list A) (x : A) :
  In x (Sql.distinct eqb l) <-> In x l.
Proof.
  induction l as [|y l IH]; simpl; [tauto|].
  rewrite filter_In, IH. split.
  - intros [H|(H & _)]; auto.
  - intros [H|H]; [auto|].
    destruct (eqb y x) eqn:E.
    + left. apply eqb_eq. exact E.
    + right. auto.
Qed.

Lemma NoDup_distinct_eq (l : list A) : NoDup (Sql.distinct eqb l).
Proof.
  induction l as [|y l IH]; simpl; constructor.
  - intros H. apply filter_In in H. destruct H as (_ & H).
    assert (eqb y y = true) as E by (apply eqb_eq; reflexivity).
    rewrite E in H. discriminate.
  - apply NoDup_filter. exact IH.
Qed.

End DistinctEq.

Lemma in_not_null_values {R T : Type} (col : R -> option T) (rows : list R) (x : T) :
  In x (not_null_values col rows) <-> exists r, In r rows /\ col r = Some x.
Proof.
  unfold not_null_values. rewrite in_flat_map. split.
  - intros (r & Hr & Hx). exists r. split; [assumption|].
    destruct (col r) as [v|]; [|destruct Hx].
    destruct Hx as [->|[]]. reflexivity.
  - intros (r & Hr & E). exists r. split; [assumption|].
    rewrite E. left. reflexivity.
Qed.

Lemma column_is_spec (col : option string) (value : string) :
  column_is col value = true <-> col = Some value.
Proof.
  unfold column_is. destruct col as [s|].
  - rewrite String.eqb_eq. split; congruence.
  - split; discriminate.
Qed.

(** The identifiers offered are the stored SSNs and tax ids. *)
Lemma in_lookup_customers (ps : Parties) (x : string) :
  In x (lookup_customers ps) <->
  (exists r, In r (IndividualCustomer ps) /\ ic_ssn r = Some x)
  \/ (exists r, In r (BusinessCustomer ps) /\ bc_tax_id r = Some x).
Proof.
  unfold lookup_customers, UNION.
  rewrite (in_distinct_eq String.eqb String.eqb_eq), in_app_iff,
    !in_not_null_values.
  reflexivity.
Qed.

(** The ids found are those of the rows that carry the identifier. *)
Lemma in_fetch_customer_id (ps : Parties) (customer : string) (id : Z) :
  In id (fetch_customer_id ps customer) <->
  (exists r, In r (IndividualCustomer ps)
             /\ ic_ssn r = Some customer /\ ic_customer_id r = id)
  \/ (exists r, In r (BusinessCustomer ps)
                /\ bc_tax_id r = Some customer /\ bc_customer_id r = id).
Proof.
  unfold fetch_customer_id, UNION.
  rewrite (in_distinct_eq Z.eqb Z.eqb_eq), in_app_iff, !in_map_iff.
  split.
  - intros [(r & E & Hr)|(r & E & Hr)]; apply filter_In in Hr;
      destruct Hr as (Hr & Hc); apply column_is_spec in Hc;
      [left|right]; exists r; auto.
  - intros [(r & Hr & Hc & E)|(r & Hr & Hc & E)]; [left|right]; exists r;
      (split; [assumption|]); apply filter_In;
      (split; [assumption|]); apply column_is_spec; assumption.
Qed.

Lemma filter_column_count {R : Type} (col : R -> option string) (rows : list R)
  (x : string) :
  List.length (filter (fun r => column_is (col r) x) rows)
  = count_occ string_dec (not_null_values col rows) x.
Proof.
  induction rows as [|r rows IH]; simpl; [reflexivity|].
  unfold column_is at 1. destruct (col r) as [s|]; simpl.
  - destruct (String.eqb_spec s x) as [->|N]; simpl.
    + destruct (string_dec x x) as [_|N]; [|contradiction].
      rewrite IH. reflexivity.
    + destruct (string_dec s x) as [E|_]; [contradiction|]. exact IH.
  - exact IH.
Qed.

(** Under the keys a listed identifier belongs to one customer. *)
Lemma fetch_customer_id_unique (ps : Parties) (customer : string) :
  customer_keys ps ->
  In customer (lookup_customers ps) ->
  exists id, fetch_customer_id ps customer = [id].
Proof.
  unfold customer_keys. intros Hk Hin.
  assert (count_occ string_dec
            (not_null_values ic_ssn (IndividualCustomer ps)
             ++ not_null_values bc_tax_id (BusinessCustomer ps)) customer
          = 1%nat) as Hc.
  { apply NoDup_count_occ' with (decA := string_dec); [exact Hk|].
    unfold lookup_customers, UNION in Hin.
    apply (proj1 (in_distinct_eq String.eqb String.eqb_eq _ _)) in Hin.
    exact Hin. }
  rewrite count_occ_app, <- !filter_column_count in Hc.
  unfold fetch_customer_id, UNION.
  destruct (filter (fun r => column_is (ic_ssn r) customer)
                   (IndividualCustomer ps)) as [|r1 [|r1' l1]];
    destruct (filter (fun r => column_is (bc_tax_id r) customer)
                     (BusinessCustomer ps)) as [|r2 [|r2' l2]];
    simpl in Hc; try discriminate; try lia.
  - exists (bc_customer_id r2). reflexivity.
  - exists (ic_customer_id r1). reflexivity.
Qed.

Lemma fetch_customer_id_resolution (ps : Parties) (customer : string) :
  (In customer (lookup_customers ps) <-> fetch_customer_id ps customer <> [])
  /\ NoDup (lookup_customers ps)
  /\ NoDup (fetch_customer_id ps customer)
  /\ (customer_keys ps -> In customer (lookup_customers ps) ->
      exists id, fetch_customer_id ps customer = [id]).
Proof.
  split; [|split; [|split]].
  - rewrite in_lookup_customers. split.
    + intros H E.
      assert (exists id, In id (fetch_customer_id ps customer)) as (id & Hid).
      { destruct H as [(r & Hr & Hc)|(r & Hr & Hc)];
          [exists (ic_customer_id r)|exists (bc_customer_id r)];
          apply in_fetch_customer_id; [left|right]; exists r; auto. }
      rewrite E in Hid. destruct Hid.
    + intros H. destruct (fetch_customer_id ps customer) as [|id l] eqn:E;
        [congruence|].
      assert (In id (fetch_customer_id ps customer)) as Hid
          by (rewrite E; left; reflexivity).
      apply in_fetch_customer_id in Hid.
      destruct Hid as [(r & Hr & Hc & _)|(r & Hr & Hc & _)];
        [left|right]; exists r; auto.
  - apply (NoDup_distinct_eq String.eqb String.eqb_eq).
  - apply (NoDup_distinct_eq Z.eqb Z.eqb_eq).
  - apply fetch_customer_id_unique.
Qed.

(** X18. The customer select box and the resolution of its choice
    agree: [fetch_customer_id] returns an id exactly for the identifiers
    [lookup_customers] offers (for any other text the list is empty and the
    page's [[0]] raises), neither list repeats a value, and when no SSN or
    tax id is stored twice an offered identifier resolves to one id. *)
Theorem fetch_customer_id_resolves_offered_identifier
  (ps : Parties) (customer : string) :
  (In customer (lookup_customers ps) <-> fetch_customer_id ps customer <> [])
  /\ NoDup (lookup_customers ps)
  /\ NoDup (fetch_customer_id ps customer)
  /\ (customer_keys ps -> In customer (lookup_customers ps) ->
      exists id, fetch_customer_id ps customer = [id]).
Proof. apply fetch_customer_id_resolution. Qed.

Lemma fetch_customer_id_resolves_offered_identifier_witness :
  customer_keys sample_parties
  /\ In "98-7654321" (lookup_customers sample_parties)
  /\ exists id, fetch_customer_id sample_parties "98-7654321" = [id].
Proof.
  assert (customer_keys sample_parties) as Hk.
  { unfold customer_keys. simpl. repeat constructor; simpl; intuition discriminate. }
  assert (In "98-7654321" (lookup_customers sample_parties)) as Hin
      by (vm_compute; auto).
  split; [exact Hk|split; [exact Hin|]].
  destruct (fetch_customer_id_resolves_offered_identifier
              sample_parties "98-7654321") as (_ & _ & _ & H).
  exact (H Hk Hin).
Defined.

Section AddCustomerFacts.

Variable last_insert_id : Parties -> Z.
Variable customer_accepted : Parties -> CustomerRow -> bool.
Variable individual_accepted : Parties -> IndividualCustomerRow -> bool.
Variable business_accepted : Parties -> BusinessCustomerRow -> bool.

Lemma lookup_customers_with_customers (ps : Parties) (cs : list CustomerRow) :
  lookup_customers (with_customers ps cs) = lookup_customers ps.
Proof. reflexivity. Qed.

Lemma add_customer_facts
  (ps : Parties)
  (customer_type first_name last_name phone street city state postal_code : string)
  (email social_security_number business_name tax_id_number
   primary_contact_name primary_contact_title : option string) :
  let call := add_customer last_insert_id customer_accepted individual_accepted
                business_accepted ps customer_type first_name last_name phone
                street city state postal_code email social_security_number
                business_name tax_id_number primary_contact_name
                primary_contact_title in
  let id := last_insert_id ps in
  let row := {| c_id := id; c_email := email; c_phone_number := phone;
                c_address_street := street; c_address_city := city;
                c_address_state := state;
                c_address_postal_code := postal_code |} in
  (fst call = None -> snd call = ps)
  /\ (forall i, fst call = Some i ->
        i = id /\ Customer (snd call) = Customer ps ++ [row])
  /\ (fst call <> None -> customer_type = "Individual" ->
      IndividualCustomer (snd call)
      = IndividualCustomer ps
          ++ [{| ic_customer_id := id; ic_first_name := first_name;
                 ic_last_name := last_name;
                 ic_ssn := social_security_number |}]
      /\ BusinessCustomer (snd call) = BusinessCustomer ps
      /\ forall s, social_security_number = Some s ->
           In s (lookup_customers (snd call))
           /\ In id (fetch_customer_id (snd call) s))
  /\ (fst call <> None -> customer_type = "Business" ->
      BusinessCustomer (snd call)
      = BusinessCustomer ps
          ++ [{| bc_customer_id := id; bc_business_name := business_name;
                 bc_tax_id := tax_id_number;
                 bc_primary_contact_first_name := primary_contact_name;
                 bc_primary_contact_last_name := primary_contact_name;
                 bc_primary_contact_title := primary_contact_title |}]
      /\ IndividualCustomer (snd call) = IndividualCustomer ps
      /\ forall s, tax_id_number = Some s ->
           In s (lookup_customers (snd call))
           /\ In id (fetch_customer_id (snd call) s))
  /\ (customer_type <> "Individual" -> customer_type <> "Business" ->
      customer_accepted ps row = true ->
      call = (Some id, with_customers ps (Customer ps ++ [row]))
      /\ lookup_customers (snd call) = lookup_customers ps).
Proof.
  intros call id row. subst call. unfold add_customer. fold id. fold row.
  destruct (customer_accepted ps row) eqn:Ec.
  2:{ simpl. repeat split; try congruence; try discriminate. }
  destruct (String.eqb_spec customer_type "Individual") as [Ei|Ni].
  - match goal with
    | |- context [individual_accepted ?p ?r] =>
        destruct (individual_accepted p r) eqn:Ea
    end; simpl.
    + split; [discriminate|]. split; [intros i Hi; inversion Hi; auto|].
      split; [|split; [intros _ Hb; subst; discriminate|
                       intros Hn; contradiction]].
      intros _ _. split; [reflexivity|]. split; [reflexivity|].
      intros s Hs. split.
      * apply in_lookup_customers. left. eexists. split.
        -- simpl. apply in_or_app. right. left. reflexivity.
        -- exact Hs.
      * apply in_fetch_customer_id. left. eexists. split.
        -- simpl. apply in_or_app. right. left. reflexivity.
        -- simpl. auto.
    + split; [reflexivity|]. split; [discriminate|].
      split; [intros H; contradiction|].
      split; [intros H; contradiction|]. intros Hn; contradiction.
  - destruct (String.eqb_spec customer_type "Business") as [Eb|Nb].
    + match goal with
      | |- context [business_accepted ?p ?r] =>
          destruct (business_accepted p r) eqn:Ea
      end; simpl.
      * split; [discriminate|]. split; [intros i Hi; inversion Hi; auto|].
        split; [intros _ Hi; contradiction|].
        split; [|intros _ Hn; contradiction].
        intros _ _. split; [reflexivity|]. split; [reflexivity|].
        intros s Hs. split.
        -- apply in_lookup_customers. right. eexists. split.
           ++ simpl. apply in_or_app. right. left. reflexivity.
           ++ exact Hs.
        -- apply in_fetch_customer_id. right. eexists. split.
           ++ simpl. apply in_or_app. right. left. reflexivity.
           ++ simpl. auto.
      * split; [reflexivity|]. split; [discriminate|].
        split; [intros H; contradiction|].
        split; [intros H; contradiction|]. intros _ Hn; contradiction.
    + simpl. split; [discriminate|].
      split; [intros i Hi; inversion Hi; auto|].
      split; [intros _ Hi; contradiction|].
      split; [intros _ Hb; contradiction|].
      intros _ _ _. split; reflexivity.
Qed.

(** X19. [add_customer] returns [None] only with the tables as they
    were; a returned id is the generated one and its Customer row is
    stored.  An Individual or Business customer added with success has its
    row in the table of its kind (the primary contact name in both name
    columns of a business) and is then offered by [lookup_customers] and
    resolved by [fetch_customer_id].  For any other customer type the
    Customer row is committed and its id returned without a row of either
    kind, so that the customer is never offered. *)
Theorem add_customer_effects
  (ps : Parties)
  (customer_type first_name last_name phone street city state postal_code : string)
  (email social_security_number business_name tax_id_number
   primary_contact_name primary_contact_title : option string) :
  let call := add_customer last_insert_id customer_accepted individual_accepted
                business_accepted ps customer_type first_name last_name phone
                street city state postal_code email social_security_number
                business_name tax_id_number primary_contact_name
                primary_contact_title in
  let id := last_insert_id ps in
  let row := {| c_id := id; c_email := email; c_phone_number := phone;
                c_address_street := street; c_address_city := city;
                c_address_state := state;
                c_address_postal_code := postal_code |} in
  (fst call = None -> snd call = ps)
  /\ (forall i, fst call = Some i ->
        i = id /\ Customer (snd call) = Customer ps ++ [row])
  /\ (fst call <> None -> customer_type = "Individual" ->
      IndividualCustomer (snd call)
      = IndividualCustomer ps
          ++ [{| ic_customer_id := id; ic_first_name := first_name;
                 ic_last_name := last_name;
                 ic_ssn := social_security_number |}]
      /\ BusinessCustomer (snd call) = BusinessCustomer ps
      /\ forall s, social_security_number = Some s ->
           In s (lookup_customers (snd call))
           /\ In id (fetch_customer_id (snd call) s))
  /\ (fst call <> None -> customer_type = "Business" ->
      BusinessCustomer (snd call)
      = BusinessCustomer ps
          ++ [{| bc_customer_id := id; bc_business_name := business_name;
                 bc_tax_id := tax_id_number;
                 bc_primary_contact_first_name := primary_contact_name;
                 bc_primary_contact_last_name := primary_contact_name;
                 bc_primary_contact_title := primary_contact_title |}]
      /\ IndividualCustomer (snd call) = IndividualCustomer ps
      /\ forall s, tax_id_number = Some s ->
           In s (lookup_customers (snd call))
           /\ In id (fetch_customer_id (snd call) s))
  /\ (customer_type <> "Individual" -> customer_type <> "Business" ->
      customer_accepted ps row = true ->
      call = (Some id, with_customers ps (Customer ps ++ [row]))
      /\ lookup_customers (snd call) = lookup_customers ps).
Proof. apply add_customer_facts. Qed.

Lemma customer_data_without_first_name (f : customer_form) :
  customer_type_ f <> "Individual" ->
  subscript (customer_data_of f) "first_name" = None.
Proof.
  intros N. unfold customer_data_of.
  destruct (String.eqb_spec (customer_type_ f) "Individual") as [E|_];
    [contradiction|].
  destruct (customer_type_ f =? "Business"); reflexivity.
Qed.

Lemma add_new_customer_key_error (ps : Parties) (f : customer_form) :
  customer_type_ f <> "Individual" ->
  add_new_customer last_insert_id customer_accepted individual_accepted
    business_accepted ps (customer_type_ f) (customer_data_of f) = None
  /\ (forall r,
        publish_customer last_insert_id customer_accepted individual_accepted
          business_accepted ps f = Some r -> r = (None, ps))
  /\ (forallb (fun kv : string * string => negb (snd kv =? ""))
              (customer_data_of f) = true ->
      publish_customer last_insert_id customer_accepted individual_accepted
        business_accepted ps f = None).
Proof.
  intros N.
  assert (add_new_customer last_insert_id customer_accepted individual_accepted
            business_accepted ps (customer_type_ f) (customer_data_of f) = None)
    as H.
  { unfold add_new_customer.
    rewrite (customer_data_without_first_name f N). reflexivity. }
  split; [exact H|]. unfold publish_customer. rewrite H.
  split.
  - intros r. destruct (forallb _ _); [discriminate|]. congruence.
  - intros ->. reflexivity.
Qed.

(** X20. No business customer can be added through the pages.  For a
    customer type other than "Individual" the data the page builds has no
    entry "first_name", so [add_new_customer] raises KeyError before
    [add_customer] is called: with every field filled in the exception
    leaves the page, and in no case is a table changed. *)
Theorem add_new_customer_raises_for_business (ps : Parties) (f : customer_form) :
  customer_type_ f <> "Individual" ->
  add_new_customer last_insert_id customer_accepted individual_accepted
    business_accepted ps (customer_type_ f) (customer_data_of f) = None
  /\ (forall r,
        publish_customer last_insert_id customer_accepted individual_accepted
          business_accepted ps f = Some r -> r = (None, ps))
  /\ (forallb (fun kv : string * string => negb (snd kv =? ""))
              (customer_data_of f) = true ->
      publish_customer last_insert_id customer_accepted individual_accepted
        business_accepted ps f = None).
Proof. apply add_new_customer_key_error. Qed.

Lemma add_new_customer_individual (ps : Parties) (f : customer_form) :
  customer_type_ f = "Individual" ->
  add_new_customer last_insert_id customer_accepted individual_accepted
    business_accepted ps (customer_type_ f) (customer_data_of f)
  = Some (add_customer last_insert_id customer_accepted individual_accepted
            business_accepted ps "Individual" (first_name_ f) (last_name_ f)
            (customer_email f) (customer_phone f) (address_street f)
            (address_city f) (address_state f)
            (Some (address_postal_code f))
            (Some (social_security_number_ f)) None None None None).
Proof.
  intros E. unfold add_new_customer, customer_data_of. rewrite E. reflexivity.
Qed.

Lemma publish_customer_individual (ps : Parties) (f : customer_form) :
  customer_type_ f = "Individual" ->
  forallb (fun kv : string * string => negb (snd kv =? ""))
          (customer_data_of f) = true ->
  let id := last_insert_id ps in
  let stored :=
    {| c_id := id;
       c_email := Some (address_postal_code f);
       c_phone_number := customer_email f;
       c_address_street := customer_phone f;
       c_address_city := address_street f;
       c_address_state := address_city f;
       c_address_postal_code := address_state f |} in
  exists r,
    publish_customer last_insert_id customer_accepted individual_accepted
      business_accepted ps f = Some r
    /\ (fst r = None -> snd r = ps)
    /\ (fst r <> None ->
        fst r = Some id
        /\ Customer (snd r) = Customer ps ++ [stored]
        /\ IndividualCustomer (snd r)
           = IndividualCustomer ps
               ++ [{| ic_customer_id := id; ic_first_name := first_name_ f;
                      ic_last_name := last_name_ f;
                      ic_ssn := Some (social_security_number_ f) |}]
        /\ In id (fetch_customer_id (snd r) (social_security_number_ f))
        /\ ((forall c, In c (Customer ps) -> c_id c <> id) ->
            customer_result (snd r) id = Some stored)).
Proof.
  intros E Hfilled id stored. unfold publish_customer. rewrite Hfilled.
  rewrite (add_new_customer_individual ps f E).
  eexists. split; [reflexivity|].
  match goal with
  | |- context [add_customer ?a ?b ?c ?d ?e ?t ?f1 ?f2 ?f3 ?f4 ?f5 ?f6 ?f7 ?f8
                             ?f9 ?f10 ?f11 ?f12 ?f13] =>
      pose proof (add_customer_facts e t f1 f2 f3 f4 f5 f6 f7 f8 f9 f10 f11 f12
                                     f13) as H
  end.
  cbv zeta in H. destruct H as (H1 & H2 & H3 & _).
  split; [exact H1|]. intros Hn.
  match type of Hn with
  | fst ?c <> None => destruct (fst c) as [i|] eqn:Ei; [|contradiction]
  end.
  destruct (H2 i eq_refl) as (-> & Hc).
  assert (Some (last_insert_id ps) <> None) as Hs by discriminate.
  destruct (H3 Hs eq_refl) as (Hi & _ & Hl).
  split; [reflexivity|]. split; [exact Hc|]. split; [exact Hi|].
  split; [apply (Hl _ eq_refl)|].
  intros Hfresh. unfold customer_result. rewrite Hc.
  fold id. clear - Hfresh. fold id in Hfresh.
  induction (Customer ps) as [|c cs IH]; simpl.
  - rewrite Z.eqb_refl. reflexivity.
  - destruct (Z.eqb_spec (c_id c) id) as [Ec|_].
    + exfalso. apply (Hfresh c); [left; reflexivity|exact Ec].
    + apply IH. intros c' Hc'. apply Hfresh. right. exact Hc'.
Qed.

(** X21. A customer published through the pages is stored with the
    contact fields one column off: [add_new_customer] hands the values to
    [add_customer] by position in another order than its parameters, so
    that the e-mail column takes the postal code, the phone column the
    e-mail, the street the phone, the city the street, the state the city
    and the postal code the state.  Names and SSN arrive where they
    belong, and the customer resolves by the SSN. *)
Theorem published_customer_has_shifted_contact_fields
  (ps : Parties) (f : customer_form) :
  customer_type_ f = "Individual" ->
  forallb (fun kv : string * string => negb (snd kv =? ""))
          (customer_data_of f) = true ->
  let id := last_insert_id ps in
  let stored :=
    {| c_id := id;
       c_email := Some (address_postal_code f);
       c_phone_number := customer_email f;
       c_address_street := customer_phone f;
       c_address_city := address_street f;
       c_address_state := address_city f;
       c_address_postal_code := address_state f |} in
  exists r,
    publish_customer last_insert_id customer_accepted individual_accepted
      business_accepted ps f = Some r
    /\ (fst r = None -> snd r = ps)
    /\ (fst r <> None ->
        fst r = Some id
        /\ Customer (snd r) = Customer ps ++ [stored]
        /\ IndividualCustomer (snd r)
           = IndividualCustomer ps
               ++ [{| ic_customer_id := id; ic_first_name := first_name_ f;
                      ic_last_name := last_name_ f;
                      ic_ssn := Some (social_security_number_ f) |}]
        /\ In id (fetch_customer_id (snd r) (social_security_number_ f))
        /\ ((forall c, In c (Customer ps) -> c_id c <> id) ->
            customer_result (snd r) id = Some stored)).
Proof. apply publish_customer_individual. Qed.

End AddCustomerFacts.

Lemma add_customer_effects_witness :
  In "222-33-4444"
     (lookup_customers
        (snd (add_customer next_customer_id customer_id_free ssn_free
                tax_id_free sample_parties "Individual" "Eve" "Finn"
                "555-0103" "3 Pine Ct" "Rome" "GA" "30161"
                (Some "eve@example.org") (Some "222-33-4444")
                None None None None))).
Proof.
  destruct (add_customer_effects next_customer_id customer_id_free ssn_free
              tax_id_free sample_parties "Individual" "Eve" "Finn"
              "555-0103" "3 Pine Ct" "Rome" "GA" "30161"
              (Some "eve@example.org") (Some "222-33-4444")
              None None None None) as (_ & _ & H & _).
  destruct H as (_ & _ & H); [vm_compute; discriminate|reflexivity|].
  exact (proj1 (H _ eq_refl)).
Defined.

Lemma add_new_customer_raises_for_business_witness :
  publish_customer next_customer_id customer_id_free ssn_free tax_id_free
    sample_parties sample_business_form = None.
Proof.
  destruct (add_new_customer_raises_for_business next_customer_id
              customer_id_free ssn_free tax_id_free sample_parties
              sample_business_form) as (_ & _ & H).
  - vm_compute. discriminate.
  - apply H. vm_compute. reflexivity.
Defined.

Lemma published_customer_has_shifted_contact_fields_witness :
  exists r,
    publish_customer next_customer_id customer_id_free ssn_free tax_id_free
      sample_parties sample_individual_form = Some r
    /\ (fst r = None -> snd r = sample_parties).
Proof.
  destruct (published_customer_has_shifted_contact_fields next_customer_id
              customer_id_free ssn_free tax_id_free sample_parties
              sample_individual_form eq_refl eq_refl) as (r & Hp & H1 & _).
  exists r. split; assumption.
Defined.

(* ===================================================================== *)
(** * Purchase and sale details *)
(* ===================================================================== *)

Lemma find_some_of {A : Type} (p : A -> bool) (l : list A) (x : A) :
  In x l -> p x = true -> exists y, find p l = Some y.
Proof.
  intros Hx Hp. destruct (find p l) as [y|] eqn:E; [eauto|].
  rewrite (find_none p l E x Hx) in Hp. discriminate.
Qed.

Lemma find_none_of {A : Type} (p : A -> bool) (l : list A) :
  (forall x, In x l -> p x = false) -> find p l = None.
Proof.
  intros H. destruct (find p l) as [y|] eqn:E; [|reflexivity].
  apply find_some in E. destruct E as (Hy & Hp).
  rewrite (H y Hy) in Hp. discriminate.
Qed.

Lemma find_app_none {A : Type} (p : A -> bool) (l : list A) (x : A) :
  find p l = None -> find p (l ++ [x]) = if p x then Some x else None.
Proof.
  induction l as [|y l IH]; simpl; [reflexivity|].
  destruct (p y); [discriminate|exact IH].
Qed.

Lemma customer_result_stored (ps : Parties) (id : Z) :
  In id (map c_id (Customer ps)) ->
  exists c, customer_result ps id = Some c /\ In c (Customer ps) /\ c_id c = id.
Proof.
  intros H. apply in_map_iff in H. destruct H as (c & E & Hc).
  destruct (find_some_of (fun c => (c_id c =? id)%Z) (Customer ps) c Hc)
    as (c' & Hf); [apply Z.eqb_eq; exact E|].
  exists c'. split; [exact Hf|]. apply find_some in Hf.
  destruct Hf as (Hin & Hid). apply Z.eqb_eq in Hid. auto.
Qed.

Lemma user_result_stored (ps : Parties) (username : string) :
  In username (map u_username (User ps)) ->
  exists u, user_result ps username = Some u
            /\ In u (User ps) /\ u_username u = username.
Proof.
  intros H. apply in_map_iff in H. destruct H as (u & E & Hu).
  destruct (find_some_of (fun u => u_username u =? username) (User ps) u Hu)
    as (u' & Hf); [apply String.eqb_eq; exact E|].
  exists u'. split; [exact Hf|]. apply find_some in Hf.
  destruct Hf as (Hin & Hid). apply String.eqb_eq in Hid. auto.
Qed.

Lemma transaction_details (db : Database) (ps : Parties) (vin : string) :
  (~ has_sale db vin -> get_sale_details db ps vin = None)
  /\ ((forall pt, In pt (PurchaseTransaction db) -> pt_vin pt <> vin) ->
      get_purchase_details db ps vin = None)
  /\ (transactions_reference_parties db ps ->
      (has_sale db vin ->
       exists st c u,
         In st (SaleTransaction db) /\ st_vin st = vin
         /\ In c (Customer ps) /\ c_id c = st_customer st
         /\ In u (User ps) /\ u_username u = st_username st
         /\ get_sale_details db ps vin
            = Some [("Customer Email", opt_cell Text (c_email c));
                    ("Customer Phone", Text (c_phone_number c));
                    ("Customer Address", Text (FullAddress c));
                    ("Seller First Name", Text (u_first_name u));
                    ("Seller Last Name", Text (u_last_name u));
                    ("Seller Username", Text (st_username st))])
      /\ ((exists pt, In pt (PurchaseTransaction db) /\ pt_vin pt = vin) ->
          exists pt c u,
            In pt (PurchaseTransaction db) /\ pt_vin pt = vin
            /\ In c (Customer ps) /\ c_id c = pt_customer pt
            /\ In u (User ps) /\ u_username u = pt_username pt
            /\ get_purchase_details db ps vin
               = Some [("External Seller Email", opt_cell Text (c_email c));
                       ("External Seller Phone", Text (c_phone_number c));
                       ("External Seller Address", Text (FullAddress c));
                       ("Inventory Clerk First Name", Text (u_first_name u));
                       ("Inventory Clerk Last Name", Text (u_last_name u));
                       ("Inventory Clerk Username", Text (pt_username pt))])).
Proof.
  split; [|split].
  - intros Hn. unfold get_sale_details. rewrite find_none_of; [reflexivity|].
    intros st Hst. destruct (String.eqb_spec (st_vin st) vin) as [E|_];
      [|reflexivity].
    exfalso. apply Hn. exists st. auto.
  - intros Hn. unfold get_purchase_details. rewrite find_none_of; [reflexivity|].
    intros pt Hpt. destruct (String.eqb_spec (pt_vin pt) vin) as [E|_];
      [|reflexivity].
    exfalso. exact (Hn pt Hpt E).
  - intros (Hs & Hp). split.
    + intros (st0 & Hst0 & E0). unfold get_sale_details.
      destruct (find_some_of (fun st => st_vin st =? vin) (SaleTransaction db)
                             st0 Hst0) as (st & Hf);
        [apply String.eqb_eq; exact E0|].
      rewrite Hf. apply find_some in Hf. destruct Hf as (Hst & E).
      apply String.eqb_eq in E. destruct (Hs st Hst) as (Hc & Hu).
      destruct (customer_result_stored ps _ Hc) as (c & -> & Hcin & Hcid).
      destruct (user_result_stored ps _ Hu) as (u & -> & Huin & Huid).
      exists st, c, u. rewrite Huid. repeat split; auto.
    + intros (pt0 & Hpt0 & E0). unfold get_purchase_details.
      destruct (find_some_of (fun pt => pt_vin pt =? vin)
                             (PurchaseTransaction db) pt0 Hpt0) as (pt & Hf);
        [apply String.eqb_eq; exact E0|].
      rewrite Hf. apply find_some in Hf. destruct Hf as (Hpt & E).
      apply String.eqb_eq in E. destruct (Hp pt Hpt) as (Hc & Hu).
      destruct (customer_result_stored ps _ Hc) as (c & -> & Hcin & Hcid).
      destruct (user_result_stored ps _ Hu) as (u & -> & Huin & Huid).
      exists pt, c, u. rewrite Huid. repeat split; auto.
Qed.

(** X22. The details page shows the parties of a transaction exactly
    when there is one: [get_sale_details] returns nothing for a vehicle
    without sale and [get_purchase_details] nothing for a vehicle without
    purchase; when every transaction names a stored customer and a stored
    user, a sold vehicle gets the contact of the customer of a sale of
    that VIN and the name of its salesperson, and a purchased vehicle the
    contact of the seller and the name of the clerk. *)
Theorem details_show_transaction_parties
  (db : Database) (ps : Parties) (vin : string) :
  (~ has_sale db vin -> get_sale_details db ps vin = None)
  /\ ((forall pt, In pt (PurchaseTransaction db) -> pt_vin pt <> vin) ->
      get_purchase_details db ps vin = None)
  /\ (transactions_reference_parties db ps ->
      (has_sale db vin ->
       exists st c u,
         In st (SaleTransaction db) /\ st_vin st = vin
         /\ In c (Customer ps) /\ c_id c = st_customer st
         /\ In u (User ps) /\ u_username u = st_username st
         /\ get_sale_details db ps vin
            = Some [("Customer Email", opt_cell Text (c_email c));
                    ("Customer Phone", Text (c_phone_number c));
                    ("Customer Address", Text (FullAddress c));
                    ("Seller First Name", Text (u_first_name u));
                    ("Seller Last Name", Text (u_last_name u));
                    ("Seller Username", Text (st_username st))])
      /\ ((exists pt, In pt (PurchaseTransaction db) /\ pt_vin pt = vin) ->
          exists pt c u,
            In pt (PurchaseTransaction db) /\ pt_vin pt = vin
            /\ In c (Customer ps) /\ c_id c = pt_customer pt
            /\ In u (User ps) /\ u_username u = pt_username pt
            /\ get_purchase_details db ps vin
               = Some [("External Seller Email", opt_cell Text (c_email c));
                       ("External Seller Phone", Text (c_phone_number c));
                       ("External Seller Address", Text (FullAddress c));
                       ("Inventory Clerk First Name", Text (u_first_name u));
                       ("Inventory Clerk Last Name", Text (u_last_name u));
                       ("Inventory Clerk Username", Text (pt_username pt))])).
Proof. apply transaction_details. Qed.

Section RecordSaleShown.

Variable sale_accepted : Database -> SaleRow -> bool.

(** X23. A recorded sale is what the details page then shows: after
    [record_sale] returned true for a vehicle that had no sale, with a
    customer id and a username that are stored, [get_sale_details] returns
    the contact of that customer and the name of that user. *)
Theorem recorded_sale_is_shown
  (db : Database) (ps : Parties) (vin : string) (customer_identifier : Z)
  (username : string) (sale_date : Z) (sale_price : Q)
  (c : CustomerRow) (u : UserRow) :
  let call := record_sale sale_accepted db vin customer_identifier username
                sale_date sale_price in
  fst call = true ->
  ~ has_sale db vin ->
  customer_result ps customer_identifier = Some c ->
  user_result ps username = Some u ->
  get_sale_details (snd call) ps vin
  = Some [("Customer Email", opt_cell Text (c_email c));
          ("Customer Phone", Text (c_phone_number c));
          ("Customer Address", Text (FullAddress c));
          ("Seller First Name", Text (u_first_name u));
          ("Seller Last Name", Text (u_last_name u));
          ("Seller Username", Text (u_username u))].
Proof.
  intros call Hok Hn Hc Hu. subst call. unfold record_sale in *.
  match goal with
  | H : fst (if ?b then _ else _) = true |- _ => destruct b; [|discriminate]
  end.
  unfold get_sale_details, with_sales. cbn [snd SaleTransaction].
  rewrite find_app_none.
  - cbn [st_vin]. rewrite String.eqb_refl.
    cbn [st_customer st_username]. rewrite Hc, Hu. reflexivity.
  - apply find_none_of. intros st Hst.
    destruct (String.eqb_spec (st_vin st) vin) as [E|_]; [|reflexivity].
    exfalso. apply Hn. exists st. auto.
Qed.

End RecordSaleShown.

Lemma sample_transactions_reference_parties :
  transactions_reference_parties sample_db sample_parties.
Proof.
  split.
  - intros st [<-|[]]. simpl. auto.
  - intros pt [<-|[<-|[<-|[]]]]; simpl; auto.
Qed.

Lemma details_show_transaction_parties_witness :
  get_sale_details sample_db sample_parties "1HGCM82633A004352" = None
  /\ get_purchase_details sample_db sample_parties "WBA3A5C51CF256987" = None
  /\ get_sale_details sample_db sample_parties "3FA6P0H73HR123456" <> None
  /\ get_purchase_details sample_db sample_parties "3FA6P0H73HR123456" <> None.
Proof.
  split; [|split; [|split]].
  - apply (details_show_transaction_parties sample_db sample_parties).
    intros (st & [<-|[]] & E). discriminate.
  - apply (details_show_transaction_parties sample_db sample_parties).
    intros pt [<-|[<-|[<-|[]]]]; discriminate.
  - destruct (details_show_transaction_parties sample_db sample_parties
                "3FA6P0H73HR123456") as (_ & _ & H).
    destruct (H sample_transactions_reference_parties) as (Hs & _).
    destruct Hs as (st & c & u & _ & _ & _ & _ & _ & _ & E).
    + eexists. split; [left; reflexivity|reflexivity].
    + rewrite E. discriminate.
  - destruct (details_show_transaction_parties sample_db sample_parties
                "3FA6P0H73HR123456") as (_ & _ & H).
    destruct (H sample_transactions_reference_parties) as (_ & Hp).
    destruct Hp as (pt & c & u & _ & _ & _ & _ & _ & _ & E).
    + eexists. split; [right; right; left; reflexivity|reflexivity].
    + rewrite E. discriminate.
Defined.

Lemma recorded_sale_is_shown_witness :
  exists d,
    get_sale_details
      (snd (record_sale sale_key_free sample_db "1HGCM82633A004352" 1
              "sales1" 739020 13050))
      sample_parties "1HGCM82633A004352" = Some d.
Proof.
  eexists.
  eapply (recorded_sale_is_shown sale_key_free sample_db sample_parties
            "1HGCM82633A004352" 1 "sales1" 739020 13050).
  - reflexivity.
  - intros (st & [<-|[]] & E). discriminate.
  - reflexivity.
  - reflexivity.
Defined.

(* ===================================================================== *)
(** * The parts of a vehicle *)
(* ===================================================================== *)

Lemma in_get_vehicle_parts (db : Database) (ps : Parties) (vin : string)
  (part : PartListing) :
  In part (get_vehicle_parts db ps vin) <->
  exists po p v,
    In po (PartsOrder db) /\ In p (Part db) /\ In v (Vendor ps)
    /\ po_order_number po = p_order_number p
    /\ po_vendor po = vn_name v
    /\ po_vin po = vin
    /\ part = {| OrderNumber := po_order_number po;
                 VendorPartNumber := p_vendor_parts_number p;
                 PartDescription := p_description p;
                 Quantity := p_quantity p;
                 PartStatus := p_status p;
                 UnitPrice := p_unit_price p;
                 VendorName := vn_name v |}.
Proof.
  unfold get_vehicle_parts. rewrite in_map_iff. split.
  - intros ([[po p] v] & E & H). apply filter_In in H.
    destruct H as (H & Hvin). apply SqlFacts.in_inner_join in H.
    destruct H as (H1 & Hv & Hon2). apply SqlFacts.in_inner_join in H1.
    destruct H1 as (Hpo & Hp & Hon1). simpl in *.
    apply String.eqb_eq in Hvin, Hon1, Hon2.
    exists po, p, v. repeat split; auto.
  - intros (po & p & v & Hpo & Hp & Hv & E1 & E2 & E3 & ->).
    exists (po, p, v). split; [reflexivity|].
    apply filter_In. split.
    + apply SqlFacts.in_inner_join. split; [|split; [assumption|]].
      * apply SqlFacts.in_inner_join. repeat split; try assumption.
        apply String.eqb_eq. assumption.
      * simpl. apply String.eqb_eq. assumption.
    + simpl. apply String.eqb_eq. assumption.
Qed.






Lemma NoDup_map_inj {A K : Type} (f : A -> K) (l : list A) (x y : A) :
  NoDup (map f l) -> In x l -> In y l -> f x = f y -> x = y.
Proof.
  induction l as [|z l IH]; simpl; intros Hnd Hx Hy E; [contradiction|].
  inversion Hnd as [|? ? Hnotin Hnd']; subst.
  destruct Hx as [<-|Hx], Hy as [<-|Hy]; auto.
  - exfalso. apply Hnotin. rewrite E. apply in_map. assumption.
  - exfalso. apply Hnotin. rewrite <- E. apply in_map. assumption.
Qed.

Lemma part_key_is_spec (o n : string) (p : PartRow) :
  part_key_is o n p = true <-> p_order_number p = o /\ p_vendor_parts_number p = n.
Proof.
  unfold part_key_is. rewrite andb_true_iff, !String.eqb_eq. reflexivity.
Qed.

(** Under the key of Part a listed part is the stored one. *)
Lemma listed_part_is_stored
  (db : Database) (ps : Parties) (vin : string) (part : PartListing) :
  part_keys db ->
  In part (get_vehicle_parts db ps vin) ->
  exists row,
    lookup_part db (OrderNumber part) (VendorPartNumber part) = Some row
    /\ p_status row = PartStatus part.
Proof.
  intros Hk Hpart. apply in_get_vehicle_parts in Hpart.
  destruct Hpart as (po & p & v & Hpo & Hp & Hv & E1 & E2 & E3 & ->).
  simpl. unfold lookup_part.
  destruct (find_some_of (part_key_is (po_order_number po)
                                      (p_vendor_parts_number p))
                         (Part db) p Hp) as (row & Hf).
  { apply part_key_is_spec. auto. }
  exists row. split; [exact Hf|]. apply find_some in Hf.
  destruct Hf as (Hrow & Hkey). apply part_key_is_spec in Hkey.
  destruct Hkey as (K1 & K2).
  assert (row = p) as ->; [|reflexivity].
  apply (NoDup_map_inj (fun p => (p_order_number p, p_vendor_parts_number p))
                       (Part db)); auto.
  simpl. congruence.
Qed.

Lemma listed_part_update
  (db : Database) (ps : Parties) (vin new_status : string) (part : PartListing) :
  part_keys db ->
  In part (get_vehicle_parts db ps vin) ->
  In new_status (status_options (PartStatus part)) ->
  let call := update_status db new_status (VendorPartNumber part)
                            (OrderNumber part) in
  fst call = true
  /\ call = update_part_status db (OrderNumber part) (VendorPartNumber part)
                               new_status
  /\ legal_transition (PartStatus part) new_status
  /\ option_map p_status
       (lookup_part (snd call) (OrderNumber part) (VendorPartNumber part))
     = Some new_status.
Proof.
  intros Hk Hpart Hopt call.
  destruct (listed_part_is_stored db ps vin part Hk Hpart) as (row & Hl & Es).
  pose proof (proj1 (status_options_spec _ _) Hopt) as Hlegal.
  assert (fst call = true) as Hfst.
  { subst call. unfold update_status. cbn [fst].
    apply (rowcount_positive db _ _ row Hl). }
  split; [exact Hfst|]. split; [|split; [exact Hlegal|]].
  - subst call. unfold update_part_status. rewrite Hl, Es.
    rewrite (proj2 (valid_status_transitions_spec _ _) Hlegal).
    unfold update_status in *. cbn [fst] in Hfst. rewrite Hfst. reflexivity.
  - subst call. unfold update_status. cbn [snd].
    rewrite lookup_part_updated, Hl. reflexivity.
Qed.

(** X25. Through a page that shows the stored status, [update_status]
    only makes legal transitions.  When order number and vendor part number
    are a key of Part, for every part [get_vehicle_parts] lists and every
    status the details page offers for it, [update_status] returns true,
    does what [update_part_status] does, makes a legal transition and
    leaves the part in the requested status. *)
Theorem update_status_of_listed_part_is_legal
  (db : Database) (ps : Parties) (vin new_status : string) (part : PartListing) :
  part_keys db ->
  In part (get_vehicle_parts db ps vin) ->
  In new_status (status_options (PartStatus part)) ->
  let call := update_status db new_status (VendorPartNumber part)
                            (OrderNumber part) in
  fst call = true
  /\ call = update_part_status db (OrderNumber part) (VendorPartNumber part)
                               new_status
  /\ legal_transition (PartStatus part) new_status
  /\ option_map p_status
       (lookup_part (snd call) (OrderNumber part) (VendorPartNumber part))
     = Some new_status.
Proof. apply listed_part_update. Qed.

Lemma update_status_of_listed_part_is_legal_witness :
  fst (update_status sample_db "Received" "FLT-200" "2T1BURHE5JC034461-001")
  = true.
Proof.
  pose proof (update_status_of_listed_part_is_legal sample_db sample_parties
                "2T1BURHE5JC034461" "Received"
                {| OrderNumber := "2T1BURHE5JC034461-001";
                   VendorPartNumber := "FLT-200";
                   PartDescription := "part";
                   Quantity := 4;
                   PartStatus := "Ordered";
                   UnitPrice := 60;
                   VendorName := "Acme Parts" |}) as H.
  cbv zeta in H. apply H.
  - unfold part_keys. simpl. repeat constructor; simpl; intuition discriminate.
  - vm_compute. auto.
  - simpl. auto.
Defined.

(* ===================================================================== *)
(** * The price per condition report *)
(* ===================================================================== *)

Lemma in_ppc_from (db : Database) (t : string) :
  In t (map (fun r => v_type (ppc_v r)) (ppc_from db))
  <-> In t (map v_type (Vehicle db)).
Proof.
  unfold ppc_from. rewrite map_map. simpl. rewrite !in_map_iff. split.
  - intros ([v opt] & E & H). apply SqlFacts.in_left_join in H.
    exists v. simpl in E. tauto.
  - intros (v & E & Hv).
    destruct (SqlFacts.left_join_total (fun v pt => v_vin v =? pt_vin pt)
                (Vehicle db) (PurchaseTransaction db) v Hv) as (opt & H).
    exists (v, opt). auto.
Qed.

Lemma condition_prices_of_vehicle (t c : string) (v : VehicleRow)
  (l : list PurchaseRow) :
  condition_prices c
    (filter (fun b => t =? v_type (ppc_v b))
       (map (fun r : VehicleRow * option PurchaseRow =>
               {| ppc_v := fst r; ppc_pt := snd r |})
          (map (fun b => (v, Some b)) l)))
  = if (v_type v =? t) && (v_condition v =? c)
    then map pt_purchase_price l else [].
Proof.
  rewrite (String.eqb_sym (v_type v) t).
  induction l as [|b l IH]; simpl.
  - destruct ((t =? v_type v) && (v_condition v =? c)); reflexivity.
  - destruct (t =? v_type v); simpl in *.
    + unfold condition_prices in *. simpl.
      destruct (v_condition v =? c); simpl in *; rewrite IH; reflexivity.
    + exact IH.
Qed.

Lemma condition_prices_app (c : string) (l1 l2 : list ppc_jrow) :
  condition_prices c (l1 ++ l2) = condition_prices c l1 ++ condition_prices c l2.
Proof. apply flat_map_app. Qed.

(** The prices a group averages are the purchase prices of the vehicles
    of its type in the condition. *)
Lemma condition_prices_group (db : Database) (t c : string) :
  condition_prices c
    (filter (fun b => t =? v_type (ppc_v b)) (ppc_from db))
  = purchase_prices db t c.
Proof.
  unfold ppc_from, Sql.left_join, purchase_prices.
  induction (Vehicle db) as [|v vs IH]; [reflexivity|].
  cbn [flat_map]. rewrite map_app, filter_app, condition_prices_app, IH.
  f_equal.
  destruct (filter (fun pt => v_vin v =? pt_vin pt) (PurchaseTransaction db))
    as [|b bs] eqn:E.
  - cbn [map filter fst snd ppc_v]. rewrite (String.eqb_sym (v_type v) t).
    destruct (t =? v_type v); cbn [andb]; [|reflexivity].
    unfold condition_prices. cbn [flat_map ppc_v ppc_pt].
    destruct (v_condition v =? c); reflexivity.
  - apply (condition_prices_of_vehicle t c v (b :: bs)).
Qed.

(** The fetched AVG column shows the mean to six decimals. *)
Lemma condition_average_shows_mean (prices : list Q) :
  shows_mean prices
    (Sql.ROUND (Sql.IFNULL (Sql.AVG prices) 0%Q) (money_decimals + 4)).
Proof.
  split; [eexists; reflexivity|].
  destruct prices as [|p ps]; [reflexivity|].
  change (Sql.IFNULL (Sql.AVG (p :: ps)) 0%Q) with (mean (p :: ps)).
  change (money_decimals + 4)%nat with 6%nat.
  destruct (SqlFacts.ROUND_6_close (mean (p :: ps))) as (H1 & H2).
  split; lra.
Qed.

Lemma price_per_condition_rows (db : Database) :
  Sorted (fun r1 r2 =>
            String.leb (Sql.collate (ppc_VehicleType r1))
                       (Sql.collate (ppc_VehicleType r2)) = true)
         (ppc_rows db)
  /\ NoDup (map ppc_VehicleType (ppc_rows db))
  /\ (forall t, In t (map ppc_VehicleType (ppc_rows db))
                <-> In t (map v_type (Vehicle db)))
  /\ (forall row, In row (ppc_rows db) ->
        let t := ppc_VehicleType row in
        shows_mean (purchase_prices db t "Excellent") (Excellent row)
        /\ shows_mean (purchase_prices db t "Very Good") (VeryGood row)
        /\ shows_mean (purchase_prices db t "Good") (Good row)
        /\ shows_mean (purchase_prices db t "Fair") (Fair row)).
Proof.
  unfold ppc_rows.
  split; [apply (SqlFacts.order_by_sorted ppc_VehicleType)|].
  assert (Hperm : Permutation
            (map ppc_VehicleType
               (Sql.order_by ppc_VehicleType
                  (map ppc_select
                     (Sql.group_by
                        (fun a b => v_type (ppc_v a) =? v_type (ppc_v b))
                        (ppc_from db)))))
            (map (fun r => v_type (ppc_v r))
                 (Sql.distinct
                    (fun a b => v_type (ppc_v a) =? v_type (ppc_v b))
                    (ppc_from db)))).
  { rewrite SqlFacts.order_by_perm. unfold Sql.group_by.
    rewrite !map_map. simpl. reflexivity. }
  split; [|split].
  - eapply Permutation_NoDup; [apply Permutation_sym; exact Hperm|].
    apply (SqlFacts.distinct_key_NoDup (fun r => v_type (ppc_v r))).
  - intros t. rewrite <- in_ppc_from.
    rewrite <- (SqlFacts.in_distinct_key (fun r => v_type (ppc_v r))).
    split; intros H.
    + apply (Permutation_in _ Hperm). exact H.
    + apply (Permutation_in _ (Permutation_sym Hperm)). exact H.
  - intros row Hrow. apply SqlFacts.in_order_by in Hrow.
    apply in_map_iff in Hrow. destruct Hrow as ((rep & g) & <- & Hg).
    apply SqlFacts.in_group_by in Hg. destruct Hg as (_ & ->).
    unfold ppc_select. cbn [fst snd ppc_VehicleType Excellent VeryGood Good Fair].
    unfold condition_average. rewrite !condition_prices_group.
    repeat split; apply condition_average_shows_mean.
Qed.

(** X26. The price per condition report has one row for every
    vehicle type that a vehicle of the inventory has, in ascending order
    of the type by the collation, which takes letters without regard to
    case, and no type twice; each of its four cells shows, to six
    decimals, the mean of the purchase prices of the vehicles of the type
    in the condition of the column, and 0 when no such vehicle has a
    purchase.  A vehicle in any other condition enters no cell. *)
Theorem price_per_condition_report_rows (db : Database) :
  Sorted (fun r1 r2 =>
            String.leb (Sql.collate (ppc_VehicleType r1))
                       (Sql.collate (ppc_VehicleType r2)) = true)
         (ppc_rows db)
  /\ NoDup (map ppc_VehicleType (ppc_rows db))
  /\ (forall t, In t (map ppc_VehicleType (ppc_rows db))
                <-> In t (map v_type (Vehicle db)))
  /\ (forall row, In row (ppc_rows db) ->
        let t := ppc_VehicleType row in
        shows_mean (purchase_prices db t "Excellent") (Excellent row)
        /\ shows_mean (purchase_prices db t "Very Good") (VeryGood row)
        /\ shows_mean (purchase_prices db t "Good") (Good row)
        /\ shows_mean (purchase_prices db t "Fair") (Fair row)).
Proof. apply price_per_condition_rows. Qed.

Lemma price_per_condition_report_rows_witness :
  map (fun r => (ppc_VehicleType r, Excellent r, Good r)) (ppc_rows sample_db)
  = [("Sedan", 0 # 1000000, 13000000000 # 1000000);
     ("SUV", 0 # 1000000, 18000000000 # 1000000)]
  /\ purchase_prices mixed_case_db "Sedan" "Good" = [10000; 10001; 10001]
  /\ exists row,
      ppc_rows mixed_case_db = [row]
      /\ ppc_VehicleType row = "Sedan"
      /\ Good row = 10000666667 # 1000000
      /\ shows_mean (purchase_prices mixed_case_db "Sedan" "Good") (Good row)
      /\ shows_mean (purchase_prices mixed_case_db "Sedan" "Fair") (Fair row).
Proof.
  split; [vm_compute; reflexivity|]. split; [reflexivity|].
  destruct (price_per_condition_report_rows mixed_case_db) as (_ & _ & _ & H).
  eexists. split; [vm_compute; reflexivity|].
  split; [reflexivity|]. split; [reflexivity|].
  match goal with
  | |- shows_mean _ (Good ?r) /\ _ =>
      destruct (H r (or_introl eq_refl)) as (_ & _ & HG & HF)
  end.
  split; [exact HG|exact HF].
Defined.

(* ===================================================================== *)
(** * The search page *)
(* ===================================================================== *)

Lemma gated_filter (allowed : bool) (text v : string) :
  (if truthy (if allowed then Some text else None)
   then (if allowed then Some text else None) else None) = Some v
  <-> allowed = true /\ v = text /\ v <> "".
Proof.
  destruct allowed; simpl.
  - destruct (String.eqb_spec text "") as [E|N]; simpl; split.
    + discriminate.
    + intros (_ & -> & H). contradiction.
    + intros H. inversion H. subst. auto.
    + intros (_ & -> & _). reflexivity.
  - split; [discriminate|]. intros (H & _). discriminate.
Qed.

Lemma search_page_filters (db : Database) (w : search_widgets)
  (is_logged_in : bool) (user_role : string) :
  In user_role roles ->
  let a := search_page_args w is_logged_in user_role in
  (exists frame, search_vehicles db a = Some frame)
  /\ (forall v, vin a = Some v <->
                is_logged_in = true
                /\ In user_role ["Salesperson"; "Manager"; "Owner"]
                /\ v = w_vin w /\ v <> "")
  /\ (forall s, vehicle_status a = Some s <->
                is_logged_in = true
                /\ In user_role ["Manager"; "Owner"]
                /\ s = w_vehicle_status w /\ s <> "").
Proof.
  intros Hrole a. split.
  - destruct (known_role_rows db a Hrole) as (rows & Hrows & _).
    unfold search_vehicles. rewrite Hrows. eauto.
  - assert (py_in user_role VIN_ACCESS_ROLES = true
            <-> In user_role ["Salesperson"; "Manager"; "Owner"]) as Hvin.
    { rewrite py_in_spec. unfold VIN_ACCESS_ROLES. simpl in *.
      split; intros H; [|tauto].
      destruct H as [<-|H]; [|tauto]. exfalso. intuition discriminate. }
    subst a. unfold search_page_args. cbn [vin vehicle_status].
    split; intros x; rewrite gated_filter, andb_true_iff.
    + rewrite Hvin. tauto.
    + rewrite py_in_spec. unfold STATUS_ACCESS_ROLES. tauto.
Qed.

(** X27. What the search page passes to [search_vehicles], for a
    caller with one of the five roles: the call returns a frame; a VIN is
    passed exactly when a logged-in Salesperson, Manager or Owner typed
    one, and a vehicle status exactly for a logged-in Manager or Owner.
    The role "Inventory clerk" is never given the VIN filter:
    VIN_ACCESS_ROLES spells it "Inventory Clerk". *)
Theorem search_page_passes_filters_by_role (db : Database) (w : search_widgets)
  (is_logged_in : bool) (user_role : string) :
  In user_role roles ->
  let a := search_page_args w is_logged_in user_role in
  (exists frame, search_vehicles db a = Some frame)
  /\ (forall v, vin a = Some v <->
                is_logged_in = true
                /\ In user_role ["Salesperson"; "Manager"; "Owner"]
                /\ v = w_vin w /\ v <> "")
  /\ (forall s, vehicle_status a = Some s <->
                is_logged_in = true
                /\ In user_role ["Manager"; "Owner"]
                /\ s = w_vehicle_status w /\ s <> "").
Proof. apply search_page_filters. Qed.

Lemma search_page_passes_filters_by_role_witness :
  vin (search_page_args sample_widgets true "Inventory clerk") = None
  /\ vin (search_page_args sample_widgets true "Salesperson")
     = Some "1HGCM82633A004352".
Proof.
  split.
  - destruct (search_page_passes_filters_by_role sample_db sample_widgets true
                "Inventory clerk") as (_ & H & _); [simpl; auto|].
    destruct (vin (search_page_args sample_widgets true "Inventory clerk"))
      as [v|] eqn:E; [|reflexivity].
    destruct (proj1 (H v) eq_refl) as (_ & Hin & _).
    simpl in Hin. intuition discriminate.
  - destruct (search_page_passes_filters_by_role sample_db sample_widgets true
                "Salesperson") as (_ & H & _); [simpl; auto|].
    apply H. simpl. repeat split; auto. discriminate.
Defined.

(* ===================================================================== *)
(** * The monthly sales summary *)
(* ===================================================================== *)

Section OrderByLeFacts.
Context {A : Type} (le : A -> A -> bool).
Hypothesis le_total : forall a b, le a b = true \/ le b a = true.

Lemma insert_by_perm (x : A) (l : list A) :
  Permutation (insert_by le x l) (x :: l).
Proof.
  induction l as [|y l IH]; simpl; [reflexivity|].
  destruct (le x y); [reflexivity|].
  rewrite IH. apply perm_swap.
Qed.

Lemma order_by_le_perm (l : list A) : Permutation (order_by_le le l) l.
Proof.
  induction l as [|x l IH]; simpl; [reflexivity|].
  rewrite insert_by_perm. constructor. exact IH.
Qed.

Lemma insert_by_hd (x a : A) (l : list A) :
  le a x = true -> HdRel (fun a b => le a b = true) a l ->
  HdRel (fun a b => le a b = true) a (insert_by le x l).
Proof.
  intros Hax Hl. destruct l as [|y l]; simpl; [constructor; assumption|].
  destruct (le x y); constructor;
    [assumption | inversion Hl; assumption].
Qed.

Lemma insert_by_sorted (x : A) (l : list A) :
  Sorted (fun a b => le a b = true) l ->
  Sorted (fun a b => le a b = true) (insert_by le x l).
Proof.
  induction l as [|y l IH]; simpl; intros H.
  - constructor; constructor.
  - destruct (le x y) eqn:E.
    + constructor; [assumption|]. constructor. exact E.
    + inversion H; subst. constructor; [auto|].
      apply insert_by_hd; [|assumption].
      destruct (le_total x y) as [Hle|Hle]; [congruence|exact Hle].
Qed.

Lemma order_by_le_sorted (l : list A) :
  Sorted (fun a b => le a b = true) (order_by_le le l).
Proof.
  induction l as [|x l IH]; simpl; [constructor|].
  apply insert_by_sorted. exact IH.
Qed.
End OrderByLeFacts.

Section DistinctOnKey.
Context {A K : Type} (key : A -> K) (same : A -> A -> bool).
Hypothesis same_key : forall a b, same a b = true <-> key a = key b.


End DistinctOnKey.


Lemma filter_none {A : Type} (p : A -> bool) (l : list A) :
  (forall x, In x l -> p x = false) -> filter p l = [].
Proof.
  induction l as [|x l IH]; simpl; intros H; [reflexivity|].
  rewrite (H x) by (left; reflexivity). apply IH.
  intros y Hy. apply H. right. exact Hy.
Qed.






Section MonthlySalesFacts.

Variable YEAR : Z -> Z.
Variable MONTH : Z -> Z.








End MonthlySalesFacts.


(* ===================================================================== *)
(** * The parts statistics report *)
(* ===================================================================== *)

Lemma amount_desc_total (a b : PartsStatisticsRow) :
  amount_desc a b = true \/ amount_desc b a = true.
Proof.
  unfold amount_desc.
  destruct (TotalAmountSpent a) as [x|], (TotalAmountSpent b) as [y|]; auto.
  destruct (Qle_bool y x) eqn:E; [auto|]. right.
  apply Qle_bool_iff. apply Qlt_le_weak. apply Qnot_le_lt.
  intros H. apply Qle_bool_iff in H. congruence.
Qed.

Lemma in_pst_from (db : Database) (ps : Parties) (r : pst_jrow) :
  In r (pst_from db ps) <->
  In (pst_v r) (Vendor ps) /\ In (pst_po r) (PartsOrder db)
  /\ In (pst_p r) (Part db)
  /\ vn_name (pst_v r) = po_vendor (pst_po r)
  /\ po_order_number (pst_po r) = p_order_number (pst_p r).
Proof.
  unfold pst_from. rewrite in_map_iff. split.
  - intros ([[v po] p] & <- & H). apply SqlFacts.in_inner_join in H.
    destruct H as (H1 & Hp & Hon2). apply SqlFacts.in_inner_join in H1.
    destruct H1 as (Hv & Hpo & Hon1). simpl in *.
    apply String.eqb_eq in Hon1, Hon2. auto.
  - intros (Hv & Hpo & Hp & E1 & E2). destruct r as [v po p]. simpl in *.
    exists (v, po, p). split; [reflexivity|].
    apply SqlFacts.in_inner_join. split; [|split; [exact Hp|]].
    + apply SqlFacts.in_inner_join. repeat split; auto.
      apply String.eqb_eq. exact E1.
    + simpl. apply String.eqb_eq. exact E2.
Qed.

Lemma in_vendor_parts (db : Database) (n : string) (p : PartRow) :
  In p (vendor_parts db n) <->
  In p (Part db)
  /\ exists po, In po (PartsOrder db) /\ po_vendor po = n
                /\ po_order_number po = p_order_number p.
Proof.
  unfold vendor_parts. rewrite in_flat_map. split.
  - intros (po & Hpo & Hp). apply filter_In in Hpo, Hp.
    destruct Hpo as (Hpo & En), Hp as (Hp & Eo).
    apply String.eqb_eq in En, Eo. split; [exact Hp|]. exists po. auto.
  - intros (Hp & po & Hpo & En & Eo). exists po. split; apply filter_In;
      (split; [assumption|]); apply String.eqb_eq; auto.
Qed.

Lemma inner_join_cons {A B : Type} (on : A -> B -> bool) (a : A) (l : list A)
  (r : list B) :
  Sql.inner_join on (a :: l) r
  = map (fun b => (a, b)) (filter (on a) r) ++ Sql.inner_join on l r.
Proof. reflexivity. Qed.

Lemma inner_join_app {A B : Type} (on : A -> B -> bool) (l1 l2 : list A)
  (r : list B) :
  Sql.inner_join on (l1 ++ l2) r
  = Sql.inner_join on l1 r ++ Sql.inner_join on l2 r.
Proof. apply flat_map_app. Qed.

(** The parts joined to the orders of one vendor row. *)
Lemma vendor_row_parts (db : Database) (n : string) (v : VendorRow)
  (orders : list PartsOrderRow) :
  map pst_p
    (filter (fun b => n =? vn_name (pst_v b))
       (map (fun r : VendorRow * PartsOrderRow * PartRow =>
               let '(v, po, p) := r in
               {| pst_v := v; pst_po := po; pst_p := p |})
          (Sql.inner_join (fun (l : VendorRow * PartsOrderRow) p =>
                             po_order_number (snd l) =? p_order_number p)
                          (map (fun po => (v, po)) orders) (Part db))))
  = if n =? vn_name v
    then flat_map (fun po => filter (fun p => po_order_number po
                                              =? p_order_number p) (Part db))
                  orders
    else [].
Proof.
  induction orders as [|po orders IH].
  - destruct (n =? vn_name v); reflexivity.
  - cbn [map flat_map]. rewrite inner_join_cons, map_app, filter_app, map_app, IH.
    cbn [snd]. destruct (n =? vn_name v) eqn:E.
    + f_equal.
      induction (filter (fun p => po_order_number po =? p_order_number p)
                        (Part db)) as [|p l IHl]; [reflexivity|].
      cbn [map filter pst_v]. rewrite E. cbn [map pst_p]. f_equal. exact IHl.
    + rewrite app_nil_r.
      induction (filter (fun p => po_order_number po =? p_order_number p)
                        (Part db)) as [|p l IHl]; [reflexivity|].
      cbn [map filter pst_v]. rewrite E. exact IHl.
Qed.

(** Under the key of Vendor the rows of a group are the parts ordered from
    the vendor. *)
Lemma pst_group (db : Database) (ps : Parties) (n : string) :
  NoDup (map vn_name (Vendor ps)) ->
  In n (map vn_name (Vendor ps)) ->
  map pst_p (filter (fun b => n =? vn_name (pst_v b)) (pst_from db ps))
  = vendor_parts db n.
Proof.
  unfold pst_from, vendor_parts.
  induction (Vendor ps) as [|v vs IH]; intros Hnd Hin; [destruct Hin|].
  inversion Hnd as [|? ? Hnotin Hnd']; subst.
  rewrite inner_join_cons, inner_join_app, map_app, filter_app, map_app.
  rewrite vendor_row_parts.
  destruct (String.eqb_spec n (vn_name v)) as [->|N].
  - rewrite (filter_none (fun b => vn_name v =? vn_name (pst_v b)));
      [apply app_nil_r|].
    intros r Hr. apply in_map_iff in Hr. destruct Hr as ([[v' po] p] & <- & H).
    apply SqlFacts.in_inner_join in H. destruct H as (H1 & _).
    apply SqlFacts.in_inner_join in H1. destruct H1 as (Hv' & _).
    cbn [pst_v]. destruct (String.eqb_spec (vn_name v) (vn_name v')) as [E|_];
      [|reflexivity].
    exfalso. apply Hnotin. rewrite E. apply in_map. exact Hv'.
  - cbn [app]. apply IH; [exact Hnd'|].
    destruct Hin as [E|Hin]; [congruence|exact Hin].
Qed.

Lemma parts_statistics_rows_facts (db : Database) (ps : Parties) :
  let rows := parts_statistics_rows db ps in
  Sorted (fun a b => amount_desc a b = true) rows
  /\ NoDup (map pst_VendorName rows)
  /\ (forall n, In n (map pst_VendorName rows)
                <-> In n (map vn_name (Vendor ps)) /\ vendor_parts db n <> [])
  /\ (NoDup (map vn_name (Vendor ps)) ->
      forall row, In row rows ->
        TotalPartsQuantity row
        = Some (fold_right Z.add 0%Z
                  (map p_quantity (vendor_parts db (pst_VendorName row))))
        /\ TotalAmountSpent row
           = Some (fold_right Qplus 0%Q
                     (map (fun p => p_unit_price p * inject_Z (p_quantity p))%Q
                          (vendor_parts db (pst_VendorName row))))).
Proof.
  intros rows. subst rows. unfold parts_statistics_rows.
  assert (Hkeys : Permutation
            (map pst_VendorName
               (order_by_le amount_desc
                  (map pst_select
                     (Sql.group_by
                        (fun a b => vn_name (pst_v a) =? vn_name (pst_v b))
                        (pst_from db ps)))))
            (map (fun r => vn_name (pst_v r))
                 (Sql.distinct
                    (fun a b => vn_name (pst_v a) =? vn_name (pst_v b))
                    (pst_from db ps)))).
  { rewrite order_by_le_perm. unfold Sql.group_by. rewrite !map_map.
    reflexivity. }
  split; [apply order_by_le_sorted; apply amount_desc_total|].
  split; [|split].
  - eapply Permutation_NoDup; [apply Permutation_sym; exact Hkeys|].
    apply (SqlFacts.distinct_key_NoDup (fun r => vn_name (pst_v r))).
  - intros n.
    assert (In n (map (fun r => vn_name (pst_v r)) (pst_from db ps))
            <-> In n (map vn_name (Vendor ps)) /\ vendor_parts db n <> [])
      as Hm.
    { rewrite !in_map_iff. split.
      - intros (r & E & Hr). apply in_pst_from in Hr.
        destruct Hr as (Hv & Hpo & Hp & E1 & E2). split.
        + exists (pst_v r). auto.
        + intros Hnil.
          assert (In (pst_p r) (vendor_parts db n)) as Hin.
          { apply in_vendor_parts. split; [exact Hp|].
            exists (pst_po r). repeat split; auto. congruence. }
          rewrite Hnil in Hin. destruct Hin.
      - intros ((v & E & Hv) & Hne).
        destruct (vendor_parts db n) as [|p l] eqn:Ep; [congruence|].
        assert (In p (vendor_parts db n)) as Hin
            by (rewrite Ep; left; reflexivity).
        apply in_vendor_parts in Hin.
        destruct Hin as (Hp & po & Hpo & En & Eo).
        exists {| pst_v := v; pst_po := po; pst_p := p |}.
        split; [exact E|]. apply in_pst_from. simpl.
        repeat split; auto. congruence. }
    rewrite <- Hm.
    rewrite <- (SqlFacts.in_distinct_key (fun r => vn_name (pst_v r))).
    split; intros H.
    + apply (Permutation_in _ Hkeys). exact H.
    + apply (Permutation_in _ (Permutation_sym Hkeys)). exact H.
  - intros Hnd row Hrow.
    apply (Permutation_in _ (order_by_le_perm amount_desc _)) in Hrow.
    apply in_map_iff in Hrow. destruct Hrow as ((rep & g) & <- & Hg).
    apply SqlFacts.in_group_by in Hg. destruct Hg as (Hrep & ->).
    unfold pst_select.
    cbn [fst snd pst_VendorName TotalPartsQuantity TotalAmountSpent].
    set (n := vn_name (pst_v rep)).
    set (g := filter (fun b => n =? vn_name (pst_v b)) (pst_from db ps)).
    assert (In rep g) as Hin.
    { apply filter_In. split; [exact Hrep|]. apply String.eqb_refl. }
    assert (map pst_p g = vendor_parts db n) as Eg.
    { apply pst_group; [exact Hnd|]. apply in_pst_from in Hrep.
      apply in_map. tauto. }
    rewrite <- Eg, !map_map.
    destruct g as [|r g']; [destruct Hin|]. split; reflexivity.
Qed.

(** X29. The parts statistics report has one row for every stored
    vendor from whom a part was ordered, no vendor twice, in descending
    order of the amount spent.  When no vendor name is stored twice, a
    row's quantity is the sum of the quantities of the parts of the
    vendor's orders and its amount the sum of unit price times quantity of
    those parts. *)
Theorem parts_statistics_report_rows (db : Database) (ps : Parties) :
  let rows := parts_statistics_rows db ps in
  Sorted (fun a b => amount_desc a b = true) rows
  /\ NoDup (map pst_VendorName rows)
  /\ (forall n, In n (map pst_VendorName rows)
                <-> In n (map vn_name (Vendor ps)) /\ vendor_parts db n <> [])
  /\ (NoDup (map vn_name (Vendor ps)) ->
      forall row, In row rows ->
        TotalPartsQuantity row
        = Some (fold_right Z.add 0%Z
                  (map p_quantity (vendor_parts db (pst_VendorName row))))
        /\ TotalAmountSpent row
           = Some (fold_right Qplus 0%Q
                     (map (fun p => p_unit_price p * inject_Z (p_quantity p))%Q
                          (vendor_parts db (pst_VendorName row))))).
Proof. apply parts_statistics_rows_facts. Qed.

Lemma parts_statistics_report_rows_witness :
  exists row,
    In row (parts_statistics_rows sample_db sample_parties)
    /\ TotalPartsQuantity row
       = Some (fold_right Z.add 0%Z
                 (map p_quantity (vendor_parts sample_db (pst_VendorName row))))
    /\ TotalPartsQuantity row = Some 6%Z.
Proof.
  destruct (parts_statistics_report_rows sample_db sample_parties)
    as (_ & _ & _ & H).
  assert (exists row,
             In row (parts_statistics_rows sample_db sample_parties)
             /\ TotalPartsQuantity row = Some 6%Z) as (row & Hrow & E).
  { eexists. split; [vm_compute; left; reflexivity|reflexivity]. }
  exists row. split; [exact Hrow|]. split; [|exact E].
  apply H; [|exact Hrow].
  simpl. repeat constructor. simpl. tauto.
Defined.

(* ===================================================================== *)
(** * From the asking price to the recorded sale *)
(* ===================================================================== *)

Section SaleAtDisplayedPrice.

Variable sale_accepted : Database -> SaleRow -> bool.


End SaleAtDisplayedPrice.

